(** * Orbital: the chat session protocol of the web client

    A shallow embedding of the parts of the Orbital frontend that carry the
    session/turn protocol:

    - [Api]        : the data contracts and the chat transport client of
                     [web/app/_lib/api.ts];
    - [Workspace]  : the workspace store ([_stores/workspace-store]) with its
                     [loadSession] and [sendMessage] actions and the helpers
                     [findLastQueryResult] and [buildVizTabs];
    - [ChatPanel]  : [groupMessages] of [web/app/_components/ChatPanel.tsx];
    - [Described]  : the reference descriptions the code is compared with;
    - [Examples]   : concrete sessions, clocks and servers;
    - [Http]       : the session endpoints of [web/app/_lib/api.ts];
    - [Sessions]   : the sessions store ([_stores/sessions-store]);
    - [Store]      : the workspace store with its tabs, uploads and
                     interaction state;
    - [LogPanel], [WorkspacePage], [ChatMessage] : what the log panel, the
                     workspace page and a chat bubble compute from the store;
    - [Trace]      : runs of store actions, one after the other;
    - [Samples]    : more concrete inputs;
    - [Schedule]   : calls of [sendMessage] whose requests overlap.

    Conventions.  A TypeScript optional field [f?: T] is an [option T]; a
    [string] is a [string] where it is only compared and concatenated, and a
    list of UTF-16 code units where its length is measured; array indices and
    lengths are [nat]; the clock ([Date.now()], [new Date().toISOString()])
    and the network ([fetch]) are explicit inputs of the actions that consult
    them. *)

From Stdlib Require Import List String Ascii ZArith Lia Bool.
From Stdlib Require Import Decimal DecimalString.
From Stdlib Require DecimalNat DecimalFacts.
From Equations Require Import Equations.
From Equations.Prop Require Import Logic.
Import ListNotations.
Local Open Scope string_scope.
Local Open Scope list_scope.

(** ** JavaScript string conversions used by the template literals *)

(** [`${n}`] for an integral number [n]. *)
Definition show_Z (z : Z) : string := NilZero.string_of_int (Z.to_int z).

(** [`${i}`] for an array index or a length. *)
Definition show_nat (n : nat) : string := NilZero.string_of_uint (Nat.to_uint n).

(** [s || fallback] on strings: the empty string is falsy. *)
Definition or_else (s fallback : string) : string :=
  if String.eqb s "" then fallback else s.

(** ** [web/app/_lib/api.ts] *)
Module Api.

(** [unknown] cell values of a result row. *)
Inductive JsonValue :=
| JNull
| JBool (b : bool)
| JNum (z : Z)
| JStr (s : string).

(** [Record<string, unknown>] *)
Definition JsonRecord := list (string * JsonValue).

Record ChatRequest := {
  req_sessionId : string;
  req_message : string;
  req_model : option string
}.

Inductive ChartType := bar | line | scatter | pie | area.

Record ChartSpec := {
  chart_type : ChartType;
  chart_title : string;
  chart_data : list JsonRecord;
  chart_x : string;
  chart_y : string;
  chart_color : option string;
  chart_x_label : option string;
  chart_y_label : option string
}.

Record GraphNode := { node_id : string; node_label : string }.
Record GraphEdge := {
  edge_source : string; edge_target : string; edge_weight : option Z
}.

(** [type] is the constant ["network"]. *)
Record GraphSpec := {
  graph_title : string;
  graph_nodes : list GraphNode;
  graph_edges : list GraphEdge;
  graph_layout : string
}.

(** The union [ChartSpec | GraphSpec]. *)
Inductive Visualization :=
| VChart (c : ChartSpec)
| VGraph (g : GraphSpec).

Definition chartType_name (t : ChartType) : string :=
  match t with
  | bar => "bar" | line => "line" | scatter => "scatter"
  | pie => "pie" | area => "area"
  end.

(** The discriminating field [v.type]. *)
Definition viz_type (v : Visualization) : string :=
  match v with
  | VChart c => chartType_name (chart_type c)
  | VGraph _ => "network"
  end.

Record ToolCall := {
  tool : string;
  input : JsonRecord;
  durationMs : option Z;
  tc_error : option string;
  output : option string
}.

Record QueryResult := {
  data : list JsonRecord;
  columns : list string;
  row_count : Z
}.

Record TokenUsage := { inputTokens : Z; contextLimit : Z }.

Record ChatResponse := {
  messageId : string;
  response : string;
  visualizations : list Visualization;
  model : option string;
  resp_toolCalls : list ToolCall;
  resp_queryResults : option (list QueryResult);
  resp_tokenUsage : option TokenUsage
}.

Inductive DataSourceType :=
| vndb | vndb_collaboration | polymarket | steam | custom.

Record MemoryEntry := { mem_content : string; added_at : string }.

Record Memory := {
  facts : list MemoryEntry;
  preferences : list MemoryEntry;
  corrections : list MemoryEntry;
  conclusions : list MemoryEntry
}.

Record SystemEvent := {
  ev_type : string;
  ev_summary : string;
  ev_metadata : option JsonRecord
}.

Inductive Role := user | assistant | system.

Definition Role_eqb (a b : Role) : bool :=
  match a, b with
  | user, user | assistant, assistant | system, system => true
  | _, _ => false
  end.

Record Message := {
  id : string;
  role : Role;
  content : string;
  timestamp : string;
  charts : option (list ChartSpec);
  graphs : option (list GraphSpec);
  toolCalls : option (list ToolCall);
  queryResults : option (list QueryResult);
  systemEvent : option SystemEvent;
  isError : option bool;
  tokenUsage : option TokenUsage
}.

Record Insight := {
  ins_id : string;
  ins_title : string;
  ins_summary : string;
  ins_createdAt : string;
  ins_messageId : option string;
  ins_visualization : option Visualization;
  savedAsArtifact : option string
}.

(** [Session extends SessionSummary] *)
Record Session := {
  s_id : string;
  s_name : string;
  dataSource : DataSourceType;
  createdBy : string;
  createdAt : string;
  updatedAt : string;
  messageCount : Z;
  userMessageCount : Z;
  artifactCount : Z;
  datasetCount : Z;
  messages : list Message;
  insights : list Insight;
  datasets : option (list string);
  memory : option Memory
}.

(** *** What a promise settles to *)

(** A value that can be thrown and caught: an [Error] instance with its
    [message], or any other value ([error instanceof Error] is false). *)
Inductive Thrown :=
| JsError (message : string)
| NonError.

Inductive Completion (A : Type) :=
| Returned (a : A)
| Threw (e : Thrown).
Arguments Returned {A} a.
Arguments Threw {A} e.

(** [response.json()]: the parsed body, or a rejection with the parser's
    [SyntaxError]. *)
Inductive JsonParse (A : Type) :=
| Parsed (a : A)
| Malformed (syntaxError : string).
Arguments Parsed {A} a.
Arguments Malformed {A} syntaxError.

(** Body of a non-2xx answer, [{ error: string }] by the transport contract:
    the JSON value [null], or an object whose [error] field may be absent. *)
Inductive ErrorBody :=
| BodyNull
| BodyObject (error : option string).

(** An HTTP response as [sendMessage] looks at it: [response.ok] and the
    body that [response.json()] yields. *)
Inductive HttpResponse :=
| OkResponse (body : JsonParse ChatResponse)
| ErrorResponse (status : Z) (body : JsonParse ErrorBody).

Definition ok (r : HttpResponse) : bool :=
  match r with
  | OkResponse _ => true
  | ErrorResponse _ _ => false
  end.

(** [fetch]: rejects with a [TypeError] when the server cannot be reached,
    resolves to a response otherwise. *)
Inductive FetchOutcome :=
| NetworkError (message : string)
| Responded (r : HttpResponse).

Definition Fetch := ChatRequest -> FetchOutcome.

(** [error.error]: reading a property of [null] is a [TypeError]. *)
Definition read_error_field (b : ErrorBody) : Completion (option string) :=
  match b with
  | BodyNull =>
      Threw (JsError "Cannot read properties of null (reading 'error')")
  | BodyObject e => Returned e
  end.

(** [error.error || `Failed to send message`] *)
Definition error_text (field : option string) : string :=
  match field with
  | Some s => or_else s "Failed to send message"
  | None => "Failed to send message"
  end.

(** [export async function sendMessage(sessionId, message, model?)] *)
Definition sendMessage (fetch : Fetch)
    (sessionId message : string) (model : option string)
  : Completion ChatResponse :=
  match fetch {| req_sessionId := sessionId;
                 req_message := message;
                 req_model := model |} with
  | NetworkError msg => Threw (JsError msg)
  | Responded (ErrorResponse _ body) =>
      (* if (!response.ok) *)
      match body with
      | Parsed error =>
          match read_error_field error with
          | Returned field => Threw (JsError (error_text field))
          | Threw e => Threw e
          end
      | Malformed syntaxError => Threw (JsError syntaxError)
      end
  | Responded (OkResponse body) =>
      (* return response.json() *)
      match body with
      | Parsed chat => Returned chat
      | Malformed syntaxError => Threw (JsError syntaxError)
      end
  end.

End Api.

(** ** The workspace store ([_stores/workspace-store]) *)
Module Workspace.
Import Api.

(** ["preview" | "query"] *)
Inductive DataView := preview | query.

(** ["chart" | "graph"] *)
Inductive VizType := chart | graph.

Record ChartTab := {
  tab_id : string;
  title : string;
  vizType : VizType;
  spec : Visualization
}.

(** [{ data: unknown[]; columns: string[] }] *)
Record QueryView := { qv_data : list JsonRecord; qv_columns : list string }.

(** The fields of [WorkspaceState] that [loadSession] and [sendMessage]
    read or write; the panel, schema, upload, explorer and interaction
    fields are left alone by both actions. *)
Record WorkspaceState := {
  session : option Session;
  isLoading : bool;
  isSending : bool;
  sendStartedAt : option Z;
  error : option string;
  currentVisualization : option Visualization;
  currentQueryResult : option QueryView;
  visualizationTabs : list ChartTab;
  activeVizTabIndex : option nat;
  activeDataView : DataView
}.

Definition initialState : WorkspaceState := {|
  session := None;
  isLoading := false;
  isSending := false;
  sendStartedAt := None;
  error := None;
  currentVisualization := None;
  currentQueryResult := None;
  visualizationTabs := [];
  activeVizTabIndex := None;
  activeDataView := preview
|}.

(** *** [set({ field: value })]: one setter per field, the others kept *)
Definition set_session (v : option Session) (st : WorkspaceState) : WorkspaceState :=
  {| session := v;
     isLoading := isLoading st;
     isSending := isSending st;
     sendStartedAt := sendStartedAt st;
     error := error st;
     currentVisualization := currentVisualization st;
     currentQueryResult := currentQueryResult st;
     visualizationTabs := visualizationTabs st;
     activeVizTabIndex := activeVizTabIndex st;
     activeDataView := activeDataView st |}.

Definition set_isLoading (v : bool) (st : WorkspaceState) : WorkspaceState :=
  {| session := session st;
     isLoading := v;
     isSending := isSending st;
     sendStartedAt := sendStartedAt st;
     error := error st;
     currentVisualization := currentVisualization st;
     currentQueryResult := currentQueryResult st;
     visualizationTabs := visualizationTabs st;
     activeVizTabIndex := activeVizTabIndex st;
     activeDataView := activeDataView st |}.

Definition set_isSending (v : bool) (st : WorkspaceState) : WorkspaceState :=
  {| session := session st;
     isLoading := isLoading st;
     isSending := v;
     sendStartedAt := sendStartedAt st;
     error := error st;
     currentVisualization := currentVisualization st;
     currentQueryResult := currentQueryResult st;
     visualizationTabs := visualizationTabs st;
     activeVizTabIndex := activeVizTabIndex st;
     activeDataView := activeDataView st |}.

Definition set_sendStartedAt (v : option Z) (st : WorkspaceState) : WorkspaceState :=
  {| session := session st;
     isLoading := isLoading st;
     isSending := isSending st;
     sendStartedAt := v;
     error := error st;
     currentVisualization := currentVisualization st;
     currentQueryResult := currentQueryResult st;
     visualizationTabs := visualizationTabs st;
     activeVizTabIndex := activeVizTabIndex st;
     activeDataView := activeDataView st |}.

Definition set_error (v : option string) (st : WorkspaceState) : WorkspaceState :=
  {| session := session st;
     isLoading := isLoading st;
     isSending := isSending st;
     sendStartedAt := sendStartedAt st;
     error := v;
     currentVisualization := currentVisualization st;
     currentQueryResult := currentQueryResult st;
     visualizationTabs := visualizationTabs st;
     activeVizTabIndex := activeVizTabIndex st;
     activeDataView := activeDataView st |}.

Definition set_currentVisualization (v : option Visualization) (st : WorkspaceState) : WorkspaceState :=
  {| session := session st;
     isLoading := isLoading st;
     isSending := isSending st;
     sendStartedAt := sendStartedAt st;
     error := error st;
     currentVisualization := v;
     currentQueryResult := currentQueryResult st;
     visualizationTabs := visualizationTabs st;
     activeVizTabIndex := activeVizTabIndex st;
     activeDataView := activeDataView st |}.

Definition set_currentQueryResult (v : option QueryView) (st : WorkspaceState) : WorkspaceState :=
  {| session := session st;
     isLoading := isLoading st;
     isSending := isSending st;
     sendStartedAt := sendStartedAt st;
     error := error st;
     currentVisualization := currentVisualization st;
     currentQueryResult := v;
     visualizationTabs := visualizationTabs st;
     activeVizTabIndex := activeVizTabIndex st;
     activeDataView := activeDataView st |}.

Definition set_visualizationTabs (v : list ChartTab) (st : WorkspaceState) : WorkspaceState :=
  {| session := session st;
     isLoading := isLoading st;
     isSending := isSending st;
     sendStartedAt := sendStartedAt st;
     error := error st;
     currentVisualization := currentVisualization st;
     currentQueryResult := currentQueryResult st;
     visualizationTabs := v;
     activeVizTabIndex := activeVizTabIndex st;
     activeDataView := activeDataView st |}.

Definition set_activeVizTabIndex (v : option nat) (st : WorkspaceState) : WorkspaceState :=
  {| session := session st;
     isLoading := isLoading st;
     isSending := isSending st;
     sendStartedAt := sendStartedAt st;
     error := error st;
     currentVisualization := currentVisualization st;
     currentQueryResult := currentQueryResult st;
     visualizationTabs := visualizationTabs st;
     activeVizTabIndex := v;
     activeDataView := activeDataView st |}.

Definition set_activeDataView (v : DataView) (st : WorkspaceState) : WorkspaceState :=
  {| session := session st;
     isLoading := isLoading st;
     isSending := isSending st;
     sendStartedAt := sendStartedAt st;
     error := error st;
     currentVisualization := currentVisualization st;
     currentQueryResult := currentQueryResult st;
     visualizationTabs := visualizationTabs st;
     activeVizTabIndex := activeVizTabIndex st;
     activeDataView := v |}.

(** [{ ...session, messages }] *)
Definition with_messages (s : Session) (ms : list Message) : Session :=
  {| s_id := s_id s;
     s_name := s_name s;
     dataSource := dataSource s;
     createdBy := createdBy s;
     createdAt := createdAt s;
     updatedAt := updatedAt s;
     messageCount := messageCount s;
     userMessageCount := userMessageCount s;
     artifactCount := artifactCount s;
     datasetCount := datasetCount s;
     messages := ms;
     insights := insights s;
     datasets := datasets s;
     memory := memory s |}.

(** *** Array helpers *)

(** [xs.map((x, i) => f(x, i))] *)
Fixpoint mapi_from {A B : Type} (f : A -> nat -> B) (i : nat) (xs : list A)
  : list B :=
  match xs with
  | [] => []
  | x :: rest => f x i :: mapi_from f (S i) rest
  end.

Definition mapi {A B : Type} (f : A -> nat -> B) (xs : list A) : list B :=
  mapi_from f 0 xs.

(** [xs.forEach((x, i) => body)] where the body mutates a value of type
    [T] (here: pushes on an array) *)
Fixpoint forEach_from {A T : Type} (body : A -> nat -> T -> T) (i : nat)
    (xs : list A) (acc : T) : T :=
  match xs with
  | [] => acc
  | x :: rest => forEach_from body (S i) rest (body x i acc)
  end.

Definition forEach {A T : Type} (body : A -> nat -> T -> T)
    (xs : list A) (acc : T) : T :=
  forEach_from body 0 xs acc.

(** [xs.length > 0] *)
Definition nonEmpty {A : Type} (xs : list A) : bool :=
  Nat.ltb 0 (List.length xs).

(** [xs[xs.length - 1]] *)
Definition last_elem {A : Type} (xs : list A) : option A :=
  nth_error xs (List.length xs - 1).

(** *** [findLastQueryResult] *)

(** The loop [for (let i = messages.length - 1; i >= 0; i--)], entered with
    [k = i + 1]. *)
Fixpoint findLastQueryResult_loop (messages : list Message) (k : nat)
  : option QueryView :=
  match k with
  | O => None
  | S i =>
      match nth_error messages i with
      | Some msg =>
          match role msg, queryResults msg with
          | assistant, Some qrs =>
              if nonEmpty qrs then
                match last_elem qrs with
                | Some last =>
                    Some {| qv_data := data last; qv_columns := columns last |}
                | None => None (* not reached: [qrs] is non-empty *)
                end
              else findLastQueryResult_loop messages i
          | _, _ => findLastQueryResult_loop messages i
          end
      | None => None (* not reached: [i < messages.length] *)
      end
  end.

Definition findLastQueryResult (messages : list Message) : option QueryView :=
  findLastQueryResult_loop messages (List.length messages).

(** *** [buildVizTabs] *)

Definition buildVizTabs (messages : list Message) : list ChartTab :=
  fold_left
    (fun tabs msg =>
       if negb (Role_eqb (role msg) assistant) then tabs (* continue *)
       else
         let tabs :=
           match charts msg with
           | Some cs =>
               forEach
                 (fun chart i tabs =>
                    tabs ++ [ {| tab_id := id msg ++ "-chart-" ++ show_nat i;
                                 title := or_else (chart_title chart)
                                            ("Chart " ++ show_nat (i + 1));
                                 vizType := Workspace.chart;
                                 spec := VChart chart |} ])
                 cs tabs
           | None => tabs
           end in
         match graphs msg with
         | Some gs =>
             forEach
               (fun graph i tabs =>
                  tabs ++ [ {| tab_id := id msg ++ "-graph-" ++ show_nat i;
                               title := or_else (graph_title graph)
                                          ("Graph " ++ show_nat (i + 1));
                               vizType := Workspace.graph;
                               spec := VGraph graph |} ])
               gs tabs
         | None => tabs
         end)
    messages [].

(** *** [loadSession] *)

(** [getSession] is consulted through what it settles to. *)
Definition loadSession (getSession : string -> Completion Session)
    (id : string) (st0 : WorkspaceState) : WorkspaceState :=
  let st1 := set_error None (set_isLoading true st0) in
  match getSession id with
  | Returned session =>
      let tabs := buildVizTabs (messages session) in
      let lastQueryResult := findLastQueryResult (messages session) in
      set_currentQueryResult lastQueryResult
        (set_currentVisualization
           (if nonEmpty tabs
            then option_map spec (last_elem tabs) else None)
           (set_activeVizTabIndex
              (if nonEmpty tabs then Some (List.length tabs - 1) else None)
              (set_visualizationTabs tabs
                 (set_isLoading false
                    (set_session (Some session) st1)))))
  | Threw error =>
      set_error
        (Some match error with
              | JsError message => message
              | NonError => "Failed to load session"
              end)
        (set_isLoading false st1)
  end.

(** *** [sendMessage] *)

(** The clock readings of one call, in the order the action takes them. *)
Record SendClock := {
  startedAt : Z;               (* Date.now() kept in sendStartedAt *)
  tempNow : Z;                 (* Date.now() inside the temporary id *)
  tempTimestamp : string;      (* timestamp of the temporary message *)
  userTimestamp : string;      (* timestamp of the confirmed user message *)
  assistantTimestamp : string; (* timestamp of the assistant message *)
  errorNow : Z;                (* Date.now() inside the error id *)
  errorTimestamp : string      (* timestamp of the error message *)
}.

(** A message with none of the optional fields. *)
Definition plainMessage (id : string) (role : Role)
    (content timestamp : string) : Message :=
  {| id := id; role := role; content := content; timestamp := timestamp;
     charts := None; graphs := None; toolCalls := None;
     queryResults := None; systemEvent := None; isError := None;
     tokenUsage := None |}.

(** [`temp-${Date.now()}`] *)
Definition temp_id (now : Z) : string := "temp-" ++ show_Z now.

Definition tempUserMessage (clk : SendClock) (content : string) : Message :=
  plainMessage (temp_id (tempNow clk)) user content (tempTimestamp clk).

(** [visualizations.filter((v): v is ChartSpec => v.type !== "network")] *)
Definition filter_charts (vs : list Visualization) : list ChartSpec :=
  flat_map
    (fun v =>
       if negb (String.eqb (viz_type v) "network")
       then match v with VChart c => [c] | VGraph _ => [] end
       else [])
    vs.

(** [visualizations.filter((v): v is GraphSpec => v.type === "network")] *)
Definition filter_graphs (vs : list Visualization) : list GraphSpec :=
  flat_map
    (fun v =>
       if String.eqb (viz_type v) "network"
       then match v with VGraph g => [g] | VChart _ => [] end
       else [])
    vs.

(** [xs.length > 0 ? xs : undefined] *)
Definition nonEmptyOrUndefined {A : Type} (xs : list A) : option (list A) :=
  if nonEmpty xs then Some xs else None.

Definition userMessage (clk : SendClock) (content : string)
    (response : ChatResponse) : Message :=
  plainMessage ("user-" ++ messageId response) user content
               (userTimestamp clk).

Definition assistantMessage (clk : SendClock) (response : ChatResponse)
  : Message :=
  let charts := filter_charts (visualizations response) in
  let graphs := filter_graphs (visualizations response) in
  let queryResults := resp_queryResults response in
  {| id := messageId response;
     role := assistant;
     content := Api.response response;
     timestamp := assistantTimestamp clk;
     charts := nonEmptyOrUndefined charts;
     graphs := nonEmptyOrUndefined graphs;
     toolCalls := nonEmptyOrUndefined (resp_toolCalls response);
     queryResults :=
       match queryResults with
       | Some qrs => nonEmptyOrUndefined qrs
       | None => None
       end;
     systemEvent := None;
     isError := None;
     tokenUsage := resp_tokenUsage response |}.

(** The [try] block after [api.sendMessage] has resolved; [st] is what
    [get()] returns there. *)
Definition sendMessage_resolved (session : Session) (clk : SendClock)
    (content : string) (response : ChatResponse) (st : WorkspaceState)
  : WorkspaceState :=
  let charts := filter_charts (visualizations response) in
  let graphs := filter_graphs (visualizations response) in
  let queryResults := resp_queryResults response in
  let newChartTabs :=
    mapi (fun chart i =>
            {| tab_id := messageId response ++ "-chart-" ++ show_nat i;
               title := or_else (chart_title chart)
                          ("Chart " ++ show_nat (i + 1));
               vizType := Workspace.chart;
               spec := VChart chart |})
         charts in
  let newGraphTabs :=
    mapi (fun graph i =>
            {| tab_id := messageId response ++ "-graph-" ++ show_nat i;
               title := or_else (graph_title graph)
                          ("Graph " ++ show_nat (i + 1));
               vizType := Workspace.graph;
               spec := VGraph graph |})
         graphs in
  let updatedTabs := visualizationTabs st ++ newChartTabs ++ newGraphTabs in
  let newActiveIndex :=
    if nonEmpty updatedTabs
    then Some (List.length updatedTabs - 1) else None in
  let newQueryResult :=
    match queryResults with
    | Some qrs =>
        if nonEmpty qrs then
          match last_elem qrs with
          | Some last =>
              Some {| qv_data := data last; qv_columns := columns last |}
          | None => currentQueryResult st (* not reached *)
          end
        else currentQueryResult st
    | None => currentQueryResult st
    end in
  set_activeDataView
    (match newQueryResult with
     | Some _ => query
     | None => activeDataView st
     end)
    (set_currentQueryResult newQueryResult
       (set_currentVisualization
          (match newActiveIndex with
           | Some i => option_map spec (nth_error updatedTabs i)
           | None => currentVisualization st
           end)
          (set_activeVizTabIndex newActiveIndex
             (set_visualizationTabs updatedTabs
                (set_sendStartedAt None
                   (set_isSending false
                      (set_session
                         (Some
                            (with_messages session
                               (filter
                                  (fun m =>
                                     negb (String.eqb (id m)
                                             (id (tempUserMessage clk content))))
                                  (messages session)
                                ++ [userMessage clk content response;
                                    assistantMessage clk response])))
                         st))))))).

(** The [catch] block. *)
Definition sendMessage_rejected (session : Session) (clk : SendClock)
    (content : string) (error : Thrown) (st : WorkspaceState)
  : WorkspaceState :=
  let errorMessage :=
    match error with
    | JsError message => message
    | NonError => "Failed to send message"
    end in
  let errorChatMessage :=
    {| id := "error-" ++ show_Z (errorNow clk);
       role := assistant;
       content := errorMessage;
       timestamp := errorTimestamp clk;
       charts := None; graphs := None; toolCalls := None;
       queryResults := None; systemEvent := None;
       isError := Some true;
       tokenUsage := None |} in
  set_session
    (Some (with_messages session
             (messages session
              ++ [tempUserMessage clk content; errorChatMessage])))
    (set_error (Some errorMessage)
       (set_sendStartedAt None
          (set_isSending false st))).

(** The state right after the optimistic insertion, while the request is
    in flight. *)
Definition sendMessage_pending (session : Session) (clk : SendClock)
    (content : string) (st0 : WorkspaceState) : WorkspaceState :=
  set_session
    (Some (with_messages session
             (messages session ++ [tempUserMessage clk content])))
    (set_error None
       (set_sendStartedAt (Some (startedAt clk))
          (set_isSending true st0))).

(** [selectedModel || undefined] *)
Definition modelArgument (selectedModel : string) : option string :=
  if String.eqb selectedModel "" then None else Some selectedModel.

(** [sendMessage: async (content) => ...], run without another action in
    between; [selectedModel] is [useModelStore.getState().selectedModel]. *)
Definition sendMessage (fetch : Fetch) (selectedModel : string)
    (clk : SendClock) (content : string) (st0 : WorkspaceState)
  : WorkspaceState :=
  match session st0 with
  | None => st0
  | Some session =>
      let st := sendMessage_pending session clk content st0 in
      match Api.sendMessage fetch (s_id session) content
              (modelArgument selectedModel) with
      | Returned response =>
          sendMessage_resolved session clk content response st
      | Threw error =>
          sendMessage_rejected session clk content error st
      end
  end.

(** *** Views used to state properties *)

(** [session?.messages ?? []]: the messages the chat panel renders. *)
Definition shownMessages (st : WorkspaceState) : list Message :=
  match session st with
  | Some s => messages s
  | None => []
  end.


End Workspace.

(** ** [web/app/_components/ChatPanel.tsx] *)
Module ChatPanel.
Import Api.

(** [{ type: "message"; message } | { type: "system"; messages }] *)
Inductive Group :=
| MessageGroup (message : Message)
| SystemGroup (messages : list Message).

Definition isSystem (m : Message) : bool := Role_eqb (role m) system.

(** The inner loop
    [while (i < messages.length && messages[i].role === "system")].
    The cursor [i] is carried as the part of the array still to be read,
    [messages.slice(i)]; the result is [systemMsgs] and the cursor at exit. *)
Fixpoint collectSystem (rest systemMsgs : list Message)
  : list Message * list Message :=
  match rest with
  | [] => (systemMsgs, [])
  | m :: rest' =>
      if isSystem m then collectSystem rest' (systemMsgs ++ [m])
      else (systemMsgs, rest)
  end.

(** The cursor never moves backwards in the inner loop. *)
Lemma collectSystem_cursor (rest systemMsgs : list Message) :
  List.length (snd (collectSystem rest systemMsgs)) <= List.length rest.
Proof.
  revert systemMsgs.
  induction rest as [|m rest' IH]; intros systemMsgs; simpl.
  - apply le_n.
  - destruct (isSystem m).
    + apply Nat.le_le_succ_r, IH.
    + apply le_n.
Qed.

(** The outer loop [while (i < messages.length)]. *)
Equations? groupMessages_loop (rest : list Message) (groups : list Group)
  : list Group by wf (List.length rest) lt :=
  groupMessages_loop [] groups := groups;
  groupMessages_loop (m :: rest') groups with inspect (isSystem m) := {
    | exist _ true Hsys =>
        groupMessages_loop
          (snd (collectSystem (m :: rest') []))
          (groups ++ [SystemGroup (fst (collectSystem (m :: rest') []))]);
    | exist _ false Hmsg =>
        groupMessages_loop rest' (groups ++ [MessageGroup m]) }.
Proof.
  simpl. rewrite Hsys.
  apply Nat.lt_succ_r, collectSystem_cursor.
Qed.

Definition groupMessages (messages : list Message) : list Group :=
  groupMessages_loop messages [].

End ChatPanel.

(** ** Reference descriptions the code is compared with *)
Module Described.
Import Api Workspace ChatPanel.

(** The tab of the [i]-th chart of the message [messageId]. *)
Definition chartTab (messageId : string) (c : ChartSpec) (i : nat) : ChartTab :=
  {| tab_id := messageId ++ "-chart-" ++ show_nat i;
     title := or_else (chart_title c) ("Chart " ++ show_nat (i + 1));
     vizType := Workspace.chart;
     spec := VChart c |}.

(** The tab of the [i]-th graph of the message [messageId]. *)
Definition graphTab (messageId : string) (g : GraphSpec) (i : nat) : ChartTab :=
  {| tab_id := messageId ++ "-graph-" ++ show_nat i;
     title := or_else (graph_title g) ("Graph " ++ show_nat (i + 1));
     vizType := Workspace.graph;
     spec := VGraph g |}.

(** [xs ?? []] *)
Definition orEmpty {A : Type} (xs : option (list A)) : list A :=
  match xs with
  | Some l => l
  | None => []
  end.

(** The tabs one message contributes: none unless it is an assistant
    message; then one per chart, followed by one per graph. *)
Definition messageTabs (msg : Message) : list ChartTab :=
  match role msg with
  | assistant =>
      mapi (chartTab (id msg)) (orEmpty (charts msg))
      ++ mapi (graphTab (id msg)) (orEmpty (graphs msg))
  | _ => []
  end.

(** The tabs of a session, in message order. *)
Definition sessionTabs (messages : list Message) : list ChartTab :=
  flat_map messageTabs messages.

(** An assistant message that carries a non-empty [queryResults]. *)
Definition carriesQueryResults (msg : Message) : bool :=
  match role msg, queryResults msg with
  | assistant, Some (_ :: _) => true
  | _, _ => false
  end.

(** The messages of a group, in order. *)
Definition groupMembers (g : Group) : list Message :=
  match g with
  | MessageGroup m => [m]
  | SystemGroup ms => ms
  end.

(** The groups laid end to end. *)
Definition flatten (groups : list Group) : list Message :=
  flat_map groupMembers groups.

Definition isSystemGroup (g : Group) : bool :=
  match g with
  | SystemGroup _ => true
  | MessageGroup _ => false
  end.

(** A group is well formed: a single message that is not a system message,
    or a non-empty run of system messages. *)
Definition wellFormedGroup (g : Group) : Prop :=
  match g with
  | MessageGroup m => isSystem m = false
  | SystemGroup ms => ms <> [] /\ Forall (fun m => role m = system) ms
  end.

(** No two neighbours are both system groups. *)
Fixpoint runsMaximal (groups : list Group) : Prop :=
  match groups with
  | g1 :: ((g2 :: _) as rest) =>
      (isSystemGroup g1 && isSystemGroup g2 = false) /\ runsMaximal rest
  | _ => True
  end.

End Described.

(** ** Concrete sessions, clocks and servers used to exercise the model *)
Module Examples.
Import Api Workspace.

Definition greeting : Message :=
  plainMessage "m-1" assistant "Welcome to Orbital" "2026-01-01T00:00:00.000Z".

Definition salesChart : ChartSpec :=
  {| chart_type := bar; chart_title := "Sales by region";
     chart_data := [[("region", JStr "north"); ("sales", JNum 12)]];
     chart_x := "region"; chart_y := "sales";
     chart_color := None; chart_x_label := None; chart_y_label := None |}.

Definition teamGraph : GraphSpec :=
  {| graph_title := "";
     graph_nodes := [ {| node_id := "a"; node_label := "Ada" |};
                      {| node_id := "b"; node_label := "Bob" |} ];
     graph_edges := [ {| edge_source := "a"; edge_target := "b";
                         edge_weight := None |} ];
     graph_layout := "force" |}.

Definition salesQuery : QueryResult :=
  {| data := [[("region", JStr "north"); ("sales", JNum 12)]];
     columns := ["region"; "sales"]; row_count := 1 |}.

Definition countQuery : QueryResult :=
  {| data := [[("n", JNum 38)]]; columns := ["n"]; row_count := 1 |}.

Definition schemaCall : ToolCall :=
  {| tool := "get_schema"; input := []; durationMs := Some 12%Z;
     tc_error := None; output := Some "orders(id, customer_id)" |}.

Definition sqlCall : ToolCall :=
  {| tool := "run_sql"; input := [("sql", JStr "select 1")];
     durationMs := Some 40%Z; tc_error := Some "syntax error";
     output := None |}.

Definition session_of (ms : list Message) : Session :=
  {| s_id := "s-1"; s_name := "Orders"; dataSource := custom;
     createdBy := "ada"; createdAt := "2026-01-01T00:00:00.000Z";
     updatedAt := "2026-01-01T00:00:00.000Z";
     messageCount := 1; userMessageCount := 0; artifactCount := 0;
     datasetCount := 0; messages := ms; insights := [];
     datasets := None; memory := None |}.

Definition state_of (ms : list Message) : WorkspaceState :=
  set_session (Some (session_of ms)) initialState.

Definition clock (now : Z) : SendClock :=
  {| startedAt := now; tempNow := now;
     tempTimestamp := "2026-01-01T00:00:05.000Z";
     userTimestamp := "2026-01-01T00:00:06.000Z";
     assistantTimestamp := "2026-01-01T00:00:06.000Z";
     errorNow := (now + 1)%Z;
     errorTimestamp := "2026-01-01T00:00:06.000Z" |}.

Definition reply (mid : string) (vs : list Visualization)
    (tcs : list ToolCall) (qrs : option (list QueryResult)) : ChatResponse :=
  {| messageId := mid; response := "Here is what I found";
     visualizations := vs; model := None; resp_toolCalls := tcs;
     resp_queryResults := qrs; resp_tokenUsage := None |}.

(** An assistant message [mid] that carries one chart. *)
Definition chartAnswer (mid : string) : Message :=
  {| id := mid; role := assistant; content := "Sales by region";
     timestamp := "2026-01-01T00:00:01.000Z";
     charts := Some [salesChart]; graphs := None; toolCalls := None;
     queryResults := None; systemEvent := None; isError := None;
     tokenUsage := None |}.

(** An assistant message [mid] that carries the given query results. *)
Definition queryAnswer (mid : string) (qrs : list QueryResult) : Message :=
  {| id := mid; role := assistant; content := "Query done";
     timestamp := "2026-01-01T00:00:02.000Z";
     charts := None; graphs := None; toolCalls := None;
     queryResults := Some qrs; systemEvent := None; isError := None;
     tokenUsage := None |}.

(** A background event message. *)
Definition eventMessage (mid : string) : Message :=
  plainMessage mid system "dataset attached" "2026-01-01T00:00:03.000Z".

(** The store after [loadSession] has fetched a session with messages [ms]. *)
Definition loaded (ms : list Message) : WorkspaceState :=
  loadSession (fun _ => Returned (session_of ms)) "s-1" initialState.

(** A server that answers every request with [r]. *)
Definition answering (r : ChatResponse) : Fetch :=
  fun _ => Responded (OkResponse (Parsed r)).

(** A server that fails every request with status 500 and body [b]. *)
Definition failing (b : ErrorBody) : Fetch :=
  fun _ => Responded (ErrorResponse 500 (Parsed b)).

(** No server at all. *)
Definition offline : Fetch := fun _ => NetworkError "Failed to fetch".

End Examples.

(** ** [web/app/_lib/api.ts]: the session endpoints *)
Module Http.
Import Api.

(** What [fetch] is asked for. *)
Record Request := { method : string; url : string }.

(** A response as the session endpoints look at it: [response.status] and
    what [response.json()] yields when the body is read as an [A]. *)
Record Response (A : Type) := { status : Z; json : JsonParse A }.
Arguments status {A} r.
Arguments json {A} r.

(** [response.ok]: the status is in the range 200-299. *)
Definition ok {A : Type} (r : Response A) : bool :=
  (200 <=? status r)%Z && (status r <=? 299)%Z.

(** [fetch] rejects when the server cannot be reached and resolves to a
    response otherwise. *)
Inductive Settled (A : Type) :=
| Unreachable (message : string)
| Answered (r : Response A).
Arguments Unreachable {A} message.
Arguments Answered {A} r.

(** [export async function getSession(id)] *)
Definition getSession (API_BASE_URL : string)
    (fetch : Request -> Settled Session) (id : string) : Completion Session :=
  match fetch {| method := "GET";
                 url := API_BASE_URL ++ "/api/sessions/" ++ id |} with
  | Unreachable message => Threw (JsError message)
  | Answered response =>
      if negb (ok response) then
        if (status response =? 404)%Z then
          Threw (JsError "Session not found")
        else
          Threw (JsError ("Failed to fetch session: "
                          ++ show_Z (status response)))
      else
        match json response with
        | Parsed session => Returned session
        | Malformed syntaxError => Threw (JsError syntaxError)
        end
  end.

(** [export async function deleteSession(id)]; the body is never read. *)
Definition deleteSession (API_BASE_URL : string)
    (fetch : Request -> Settled unit) (id : string) : Completion unit :=
  match fetch {| method := "DELETE";
                 url := API_BASE_URL ++ "/api/sessions/" ++ id |} with
  | Unreachable message => Threw (JsError message)
  | Answered response =>
      if negb (ok response) then
        if (status response =? 404)%Z then
          Threw (JsError "Session not found")
        else
          Threw (JsError ("Failed to delete session: "
                          ++ show_Z (status response)))
      else Returned tt
  end.

End Http.

(** ** The sessions store ([_stores/sessions-store]) *)
Module Sessions.
Import Api.

Record SessionSummary := {
  id : string;
  name : string;
  dataSource : DataSourceType;
  createdBy : string;
  createdAt : string;
  updatedAt : string;
  messageCount : Z;
  userMessageCount : Z;
  artifactCount : Z;
  datasetCount : Z
}.

Inductive VisualizationType := chartArtifact | graphArtifact | reportArtifact.

Record ArtifactSummary := {
  art_id : string;
  art_name : string;
  art_description : string;
  art_createdAt : string;
  art_dataSource : DataSourceType;
  visualizationType : VisualizationType
}.

Record SessionsState := {
  sessions : list SessionSummary;
  artifacts : list ArtifactSummary;
  isLoading : bool;
  isCreating : bool;
  error : option string
}.

(** [error instanceof Error ? error.message : fallback] *)
Definition messageOf (e : Thrown) (fallback : string) : string :=
  match e with
  | JsError message => message
  | NonError => fallback
  end.

(** [deleteSession: async (id) => ...]: the new state, and what the returned
    promise settles to (the action rethrows what [api.deleteSession]
    threw). *)
Definition deleteSession (apiDeleteSession : string -> Completion unit)
    (id : string) (st : SessionsState) : SessionsState * Completion unit :=
  match apiDeleteSession id with
  | Returned _ =>
      ({| sessions :=
            filter (fun s => negb (String.eqb (Sessions.id s) id)) (sessions st);
          artifacts := artifacts st;
          isLoading := isLoading st;
          isCreating := isCreating st;
          error := error st |},
       Returned tt)
  | Threw e =>
      ({| sessions := sessions st;
          artifacts := artifacts st;
          isLoading := isLoading st;
          isCreating := isCreating st;
          error := Some (messageOf e "Failed to delete session") |},
       Threw e)
  end.

(** [deleteArtifact: async (id) => ...] *)
Definition deleteArtifact (apiDeleteArtifact : string -> Completion unit)
    (id : string) (st : SessionsState) : SessionsState * Completion unit :=
  match apiDeleteArtifact id with
  | Returned _ =>
      ({| sessions := sessions st;
          artifacts :=
            filter (fun a => negb (String.eqb (art_id a) id)) (artifacts st);
          isLoading := isLoading st;
          isCreating := isCreating st;
          error := error st |},
       Returned tt)
  | Threw e =>
      ({| sessions := sessions st;
          artifacts := artifacts st;
          isLoading := isLoading st;
          isCreating := isCreating st;
          error := Some (messageOf e "Failed to delete artifact") |},
       Threw e)
  end.

End Sessions.

(** ** The workspace store, continued: tabs, uploads and interactions *)
Module Store.
Import Api Workspace.

(** ["viz" | "data"] *)
Inductive WorkspaceTab := viz | data_tab.

Inductive GraphInteractType :=
| graph_selection | graph_focus | graph_path_selection.

Inductive ChartInteractType := chart_overlay | chart_zoom.

(** ["x" | "y"] *)
Inductive Axis := axis_x | axis_y.

Record GraphInteractResult := {
  g_type : GraphInteractType;
  selections : option (list string);
  node_ids : option (list string);
  path : option (list string)
}.

(** The numbers of an interaction are only copied, never computed with. *)
Record ChartInteractResult := {
  c_type : ChartInteractType;
  c_overlay_type : option string;
  c_axis : option Axis;
  c_value : option Z;
  c_x1 : option string;
  c_x2 : option string
}.

(** [GraphInteractResult | ChartInteractResult] *)
Inductive InteractResult :=
| GraphResult (r : GraphInteractResult)
| ChartResult (r : ChartInteractResult).

(** [overlay_type] is filled by an unchecked cast of the result's optional
    string. *)
Record ChartOverlay := {
  overlay_type : option string;
  axis : option Axis;
  value : option Z;
  x1 : option string;
  x2 : option string;
  label : option string
}.

(** [result.type === "chart_overlay"] *)
Definition isChartOverlay (result : InteractResult) : bool :=
  match result with
  | ChartResult r =>
      match c_type r with chart_overlay => true | chart_zoom => false end
  | GraphResult _ => false
  end.

(** *** Plain objects used as maps *)

(** The own properties of a [Record<string, V>]. *)
Definition JsObject (V : Type) := string -> option V.

Definition emptyObject {V : Type} : JsObject V := fun _ => None.

(** [{ ...obj, [key]: v }] *)
Definition withProperty {V : Type} (obj : JsObject V) (key : string) (v : V)
  : JsObject V :=
  fun k => if String.eqb k key then Some v else obj k.

(** [const { [key]: _, ...rest } = obj] *)
Definition withoutProperty {V : Type} (obj : JsObject V) (key : string)
  : JsObject V :=
  fun k => if String.eqb k key then None else obj k.

(** The property names every plain object inherits from [Object.prototype]. *)
Definition inheritedKeys : list string :=
  ["constructor"; "__defineGetter__"; "__defineSetter__"; "hasOwnProperty";
   "__lookupGetter__"; "__lookupSetter__"; "isPrototypeOf";
   "propertyIsEnumerable"; "toString"; "valueOf"; "__proto__";
   "toLocaleString"].

Definition isInherited (key : string) : bool :=
  existsb (String.eqb key) inheritedKeys.

(** What [obj[key]] evaluates to: an own property, an inherited member of
    [Object.prototype] (a function or an object, never [undefined]), or
    [undefined]. *)
Inductive Member (V : Type) :=
| Own (v : V)
| Inherited
| Undefined.
Arguments Own {V} v.
Arguments Inherited {V}.
Arguments Undefined {V}.

Definition member {V : Type} (obj : JsObject V) (key : string) : Member V :=
  match obj key with
  | Some v => Own v
  | None => if isInherited key then Inherited else Undefined
  end.

(** What a getter hands back: a value of the declared type, or the inherited
    member it found instead. *)
Inductive Read (V : Type) :=
| Value (v : V)
| PrototypeMember.
Arguments Value {V} v.
Arguments PrototypeMember {V}.

(** *** Datasets *)

Record File := { file_name : string }.

Record DatasetTableInfo := {
  table_name : string;
  pg_table_name : string;
  row_count : Z;
  table_columns : list string;
  dtypes : list (string * string)
}.

Inductive Visibility := public | private.

Inductive Severity := sev_error | sev_warning | sev_info.

Record QualityIssue := {
  severity : Severity;
  issue_message : string;
  issue_column : option string;
  affected_count : Z;
  affected_rows : list Z
}.

(** [quality_score] is only carried along. *)
Record QualityReport := {
  report_table : string;
  issues : list QualityIssue;
  quality_score : Z
}.

Record DatasetFull := {
  ds_id : string;
  ds_name : string;
  owner : string;
  visibility : Visibility;
  derived_from : option string;
  tables : list DatasetTableInfo;
  created_at : string;
  updated_at : string;
  quality_reports : option (list QualityReport);
  suggested_questions : option (list string)
}.

(** *** The store *)

(** [WorkspaceState] with the fields the actions below read or write. *)
Record State := {
  core : WorkspaceState;
  activeTab : WorkspaceTab;
  isUploading : bool;
  sessionDatasets : list DatasetFull;
  interactStates : JsObject InteractResult;
  chartOverlays : JsObject (list ChartOverlay)
}.

Definition initialState : State :=
  {| core := Workspace.initialState;
     activeTab := viz;
     isUploading := false;
     sessionDatasets := [];
     interactStates := emptyObject;
     chartOverlays := emptyObject |}.

Definition set_core (v : WorkspaceState) (st : State) : State :=
  {| core := v;
     activeTab := activeTab st;
     isUploading := isUploading st;
     sessionDatasets := sessionDatasets st;
     interactStates := interactStates st;
     chartOverlays := chartOverlays st |}.

Definition set_activeTab (v : WorkspaceTab) (st : State) : State :=
  {| core := core st;
     activeTab := v;
     isUploading := isUploading st;
     sessionDatasets := sessionDatasets st;
     interactStates := interactStates st;
     chartOverlays := chartOverlays st |}.

Definition set_isUploading (v : bool) (st : State) : State :=
  {| core := core st;
     activeTab := activeTab st;
     isUploading := v;
     sessionDatasets := sessionDatasets st;
     interactStates := interactStates st;
     chartOverlays := chartOverlays st |}.

Definition set_sessionDatasets (v : list DatasetFull) (st : State) : State :=
  {| core := core st;
     activeTab := activeTab st;
     isUploading := isUploading st;
     sessionDatasets := v;
     interactStates := interactStates st;
     chartOverlays := chartOverlays st |}.

Definition set_interactStates (v : JsObject InteractResult) (st : State) : State :=
  {| core := core st;
     activeTab := activeTab st;
     isUploading := isUploading st;
     sessionDatasets := sessionDatasets st;
     interactStates := v;
     chartOverlays := chartOverlays st |}.

Definition set_chartOverlays (v : JsObject (list ChartOverlay)) (st : State)
  : State :=
  {| core := core st;
     activeTab := activeTab st;
     isUploading := isUploading st;
     sessionDatasets := sessionDatasets st;
     interactStates := interactStates st;
     chartOverlays := v |}.

(** [loadSession] and [sendMessage] touch the core fields only. *)
Definition loadSession (getSession : string -> Completion Session)
    (id : string) (st : State) : State :=
  set_core (Workspace.loadSession getSession id (core st)) st.

Definition sendMessage (fetch : Fetch) (selectedModel : string)
    (clk : SendClock) (content : string) (st : State) : State :=
  set_core (Workspace.sendMessage fetch selectedModel clk content (core st)) st.

(** [setCurrentVisualization: (viz) => set({ currentVisualization: viz })] *)
Definition setCurrentVisualization (viz : option Visualization) (st : State)
  : State :=
  set_core (set_currentVisualization viz (core st)) st.

(** [setActiveTab: (tab) => set({ activeTab: tab })] *)
Definition setActiveTab (tab : WorkspaceTab) (st : State) : State :=
  set_activeTab tab st.

(** [clearError: () => set({ error: null })] *)
Definition clearError (st : State) : State :=
  set_core (set_error None (core st)) st.

(** [reset: () => set(initialState)] *)
Definition reset (st : State) : State := initialState.

(** [setActiveVizTab: (index) => ...]; [index] is any integer the caller
    passes. *)
Definition setActiveVizTab (index : Z) (st : State) : State :=
  let tabs := visualizationTabs (core st) in
  if (0 <=? index)%Z && (index <? Z.of_nat (List.length tabs))%Z then
    match nth_error tabs (Z.to_nat index) with
    | Some tab =>
        set_activeTab viz
          (set_core
             (set_currentVisualization (Some (spec tab))
                (set_activeVizTabIndex (Some (Z.to_nat index)) (core st)))
             st)
    | None => st (* not reached: [index] is in range *)
    end
  else st.

(** [xs.findIndex(p)]: the first index whose element satisfies [p], or -1. *)
Fixpoint findIndex_from {A : Type} (p : A -> bool) (i : Z) (xs : list A) : Z :=
  match xs with
  | [] => (-1)%Z
  | x :: rest => if p x then i else findIndex_from p (i + 1)%Z rest
  end.

Definition findIndex {A : Type} (p : A -> bool) (xs : list A) : Z :=
  findIndex_from p 0%Z xs.

(** [selectVizByTabId: (tabId) => ...] *)
Definition selectVizByTabId (tabId : string) (st : State) : State :=
  let tabs := visualizationTabs (core st) in
  let index := findIndex (fun t => String.eqb (tab_id t) tabId) tabs in
  if negb (index =? -1)%Z then setActiveVizTab index st else st.

(** [{ ...session, name }] *)
Definition with_name (s : Session) (name : string) : Session :=
  {| s_id := s_id s;
     s_name := name;
     dataSource := dataSource s;
     createdBy := createdBy s;
     createdAt := createdAt s;
     updatedAt := updatedAt s;
     messageCount := messageCount s;
     userMessageCount := userMessageCount s;
     artifactCount := artifactCount s;
     datasetCount := datasetCount s;
     messages := messages s;
     insights := insights s;
     datasets := datasets s;
     memory := memory s |}.

(** [updateSessionName: (name) => ...] *)
Definition updateSessionName (name : string) (st : State) : State :=
  set_core
    (set_session
       (match session (core st) with
        | Some s => Some (with_name s name)
        | None => None
        end)
       (core st))
    st.

(** *** Interactions *)

(** [applyInteractResult: (vizId, result) => ...].  Spreading an inherited
    member of [Object.prototype] into an array is a [TypeError], thrown out of
    the updater before the store changes (its text is the engine's; the one
    below stands for it). *)
Definition applyInteractResult (vizId : string) (result : InteractResult)
    (st : State) : Completion State :=
  if isChartOverlay result then
    match result with
    | ChartResult chartResult =>
        let overlay :=
          {| overlay_type := c_overlay_type chartResult;
             axis := c_axis chartResult;
             value := c_value chartResult;
             x1 := c_x1 chartResult;
             x2 := c_x2 chartResult;
             label := None |} in
        match member (chartOverlays st) vizId with
        | Own overlays =>
            Returned
              (set_chartOverlays
                 (withProperty (chartOverlays st) vizId (overlays ++ [overlay]))
                 st)
        | Undefined =>
            Returned
              (set_chartOverlays
                 (withProperty (chartOverlays st) vizId ([] ++ [overlay]))
                 st)
        | Inherited =>
            Threw (JsError "(state.chartOverlays[vizId] || []) is not iterable")
        end
    | GraphResult _ => Returned st (* not reached: the type is chart_overlay *)
    end
  else
    Returned
      (set_interactStates (withProperty (interactStates st) vizId result) st).

(** [getInteractState: (vizId) => get().interactStates[vizId] || null] *)
Definition getInteractState (vizId : string) (st : State)
  : Read (option InteractResult) :=
  match member (interactStates st) vizId with
  | Own result => Value (Some result)
  | Inherited => PrototypeMember
  | Undefined => Value None
  end.

(** [getChartOverlays: (vizId) => get().chartOverlays[vizId] || []] *)
Definition getChartOverlays (vizId : string) (st : State)
  : Read (list ChartOverlay) :=
  match member (chartOverlays st) vizId with
  | Own overlays => Value overlays
  | Inherited => PrototypeMember
  | Undefined => Value []
  end.

(** [clearInteractState: (vizId) => ...] *)
Definition clearInteractState (vizId : string) (st : State) : State :=
  set_chartOverlays (withoutProperty (chartOverlays st) vizId)
    (set_interactStates (withoutProperty (interactStates st) vizId) st).

(** *** Uploads *)

Local Open Scope string_scope.

(** The line feed of the template literals. *)
Definition newline : string := String (ascii_of_nat 10) EmptyString.

(** [buildUploadSummary(dataset, fileNames)].  [toLocaleString] renders a row
    count in the browser's locale. *)
Definition buildUploadSummary (toLocaleString : Z -> string)
    (dataset : DatasetFull) (fileNames : string) : string * string :=
  let tableCount := List.length (tables dataset) in
  let tableSummaries :=
    String.concat ", "
      (map (fun t => table_name t ++ " [" ++ toLocaleString (row_count t)
                     ++ " rows]")
           (tables dataset)) in
  let userContent :=
    "I uploaded " ++ fileNames ++ " (" ++ show_nat tableCount ++ " table"
    ++ (if negb (Nat.eqb tableCount 1) then "s" else "") ++ ": "
    ++ tableSummaries ++ ")" in
  let tableLines :=
    String.concat newline
      (map (fun t => "- **" ++ table_name t ++ "** ("
                     ++ toLocaleString (row_count t) ++ " rows, "
                     ++ show_nat (List.length (table_columns t)) ++ " columns)")
           (tables dataset)) in
  let assistantContent :=
    "Dataset uploaded successfully." ++ newline ++ newline ++ tableLines in
  let questions := suggested_questions dataset in
  let assistantContent :=
    match questions with
    | Some qs =>
        if nonEmpty qs then
          let questionLinks :=
            String.concat newline
              (map (fun q => "- [" ++ q ++ "](#ask)") qs) in
          assistantContent ++ newline ++ newline
          ++ "Here are some questions you can ask:" ++ newline ++ questionLinks
        else assistantContent
    | None => assistantContent
    end in
  (userContent, assistantContent).

(** The three endpoints [uploadCSV] awaits, each through what it settles
    to. *)
Record UploadApi := {
  uploadDataset :
    list File -> option string -> option string -> Completion DatasetFull;
  attachDatasetToSession : string -> string -> Completion unit;
  listSessionDatasets : string -> Completion (list DatasetFull)
}.

(** The clock readings of one upload. *)
Record UploadClock := {
  now : string;        (* new Date().toISOString() *)
  userNow : Z;         (* Date.now() inside the user message id *)
  assistantNow : Z     (* Date.now() inside the assistant message id *)
}.

(** The [catch] block of [uploadCSV]. *)
Definition uploadCSV_rejected (e : Thrown) (st : State) : State :=
  set_isUploading false
    (set_core
       (set_error
          (Some match e with
                | JsError message => message
                | NonError => "Upload failed"
                end)
          (core st))
       st).

(** [uploadCSV: async (files) => ...], run without another action in
    between. *)
Definition uploadCSV (api : UploadApi) (toLocaleString : Z -> string)
    (clk : UploadClock) (files : list File) (st0 : State) : State :=
  match session (core st0) with
  | None => st0
  | Some session =>
      let st := set_isUploading true
                  (set_core (set_error None (core st0)) st0) in
      match uploadDataset api files None (Some (s_id session)) with
      | Threw e => uploadCSV_rejected e st
      | Returned dataset =>
          match attachDatasetToSession api (s_id session) (ds_id dataset) with
          | Threw e => uploadCSV_rejected e st
          | Returned _ =>
              match listSessionDatasets api (s_id session) with
              | Threw e => uploadCSV_rejected e st
              | Returned datasets =>
                  let fileNames :=
                    String.concat ", " (map file_name files) in
                  let (userContent, assistantContent) :=
                    buildUploadSummary toLocaleString dataset fileNames in
                  let userMessage :=
                    plainMessage ("upload-user-" ++ show_Z (userNow clk))
                      user userContent (now clk) in
                  let assistantMessage :=
                    plainMessage
                      ("upload-assistant-" ++ show_Z (assistantNow clk))
                      assistant assistantContent (now clk) in
                  set_core
                    (set_session
                       (Some (with_messages session
                                (messages session
                                 ++ [userMessage; assistantMessage])%list))
                       (core st))
                    (set_activeTab data_tab
                       (set_isUploading false
                          (set_sessionDatasets datasets st)))
              end
          end
      end
  end.

End Store.

(** ** [web/app/_components/LogPanel.tsx] *)
Module LogPanel.
Import Api Workspace.

(** A JavaScript string as [length] and [slice] see it: its UTF-16 code
    units, one per position (a character outside the basic plane takes
    two). *)
Definition CodeUnit := N.

Definition JsString := list CodeUnit.

(** The code units of the literal ["..."]: three full stops (U+002E). *)
Definition ellipsis : JsString := [46%N; 46%N; 46%N].

(** [truncate(text, maxLength)] for a length that is a natural number:
    [text.length] is the number of code units, and [text.slice(0, maxLength)]
    the first [maxLength] of them. *)
Definition truncate (text : JsString) (maxLength : nat) : JsString :=
  if Nat.leb (List.length text) maxLength then text
  else (firstn maxLength text ++ ellipsis)%list.

(** The loop of [getLastTokenUsage], entered with [k = i + 1]. *)
Fixpoint getLastTokenUsage_loop (messages : list Message) (k : nat)
  : option TokenUsage :=
  match k with
  | O => None
  | S i =>
      match nth_error messages i with
      | Some msg =>
          match role msg, tokenUsage msg with
          | assistant, Some usage => Some usage
          | _, _ => getLastTokenUsage_loop messages i
          end
      | None => None (* not reached: [i < messages.length] *)
      end
  end.

Definition getLastTokenUsage (messages : list Message) : option TokenUsage :=
  getLastTokenUsage_loop messages (List.length messages).

(** [{ userMessage, assistantMessage }] *)
Record MessageGroup := {
  userMessage : Message;
  assistantMessage : Message
}.

(** The pairing loop [for (let i = 0; i < messages.length; i++)] of the
    panel; the cursor is carried as the part of the array from [i] on, and
    [messageGroups] as the groups pushed so far. *)
Fixpoint messageGroups_loop (rest : list Message)
    (messageGroups : list MessageGroup) : list MessageGroup :=
  match rest with
  | [] => messageGroups
  | msg :: later =>
      messageGroups_loop later
        match role msg, later with
        | user, nextMsg :: _ =>
            match role nextMsg, toolCalls nextMsg with
            | assistant, Some tcs =>
                if nonEmpty tcs then
                  messageGroups ++ [ {| userMessage := msg;
                                        assistantMessage := nextMsg |} ]
                else messageGroups
            | _, _ => messageGroups
            end
        | _, _ => messageGroups
        end
  end.

Definition messageGroups (messages : list Message) : list MessageGroup :=
  messageGroups_loop messages [].

End LogPanel.

(** ** The workspace page ([WorkspacePage]) *)
Module WorkspacePage.
Import Api Workspace.

(** The loop of [toolCallCount], entered with [k = i + 1]: an array, even an
    empty one, is truthy. *)
Fixpoint toolCallCount_loop (messages : list Message) (k : nat) : nat :=
  match k with
  | O => 0
  | S i =>
      match nth_error messages i with
      | Some msg =>
          match role msg, toolCalls msg with
          | assistant, Some tcs => List.length tcs
          | _, _ => toolCallCount_loop messages i
          end
      | None => 0 (* not reached: [i < messages.length] *)
      end
  end.

(** [toolCallCount], computed from [session?.messages]. *)
Definition toolCallCount (session : option Session) : nat :=
  match session with
  | None => 0
  | Some s => toolCallCount_loop (messages s) (List.length (messages s))
  end.

(** [handleViewVisualization = (tabId) => selectVizByTabId(tabId)] *)
Definition handleViewVisualization (tabId : string) (st : Store.State)
  : Store.State :=
  Store.selectVizByTabId tabId st.

End WorkspacePage.

(** ** [ChatPanel.tsx]: what a chat bubble offers *)
Module ChatMessage.
Import Api.

(** [xs?.length || 0] *)
Definition lengthOrZero {A : Type} (xs : option (list A)) : nat :=
  match xs with
  | Some l => List.length l
  | None => 0
  end.

(** [hasViz]: the bubble shows visualization badges. *)
Definition hasViz (message : Message) : bool :=
  Nat.ltb 0 (lengthOrZero (charts message) + lengthOrZero (graphs message)).

(** The tab id the [i]-th chart badge passes to [onViewVisualization]. *)
Definition chartBadge (message : Message) (i : nat) : string :=
  (id message ++ "-chart-" ++ show_nat i)%string.

(** The tab id the [i]-th graph badge passes to [onViewVisualization]. *)
Definition graphBadge (message : Message) (i : nat) : string :=
  (id message ++ "-graph-" ++ show_nat i)%string.

(** The caption of a collapsed [SystemMessageGroup]. *)
Definition backgroundCaption (messages : list Message) : string :=
  (show_nat (List.length messages) ++ " background action"
   ++ (if negb (Nat.eqb (List.length messages) 1) then "s" else ""))%string.

End ChatMessage.

(** ** Runs of the workspace store *)
Module Trace.
Import Api Workspace Store.

(** One completed call of a store action, with the inputs it consumed. *)
Inductive Action :=
| LoadSession (getSession : string -> Completion Session) (id : string)
| SendMessage (fetch : Fetch) (selectedModel : string) (clk : SendClock)
    (content : string)
| SetActiveVizTab (index : Z)
| SelectVizByTabId (tabId : string)
| SetCurrentVisualization (visualization : option Visualization)
| SetActiveTab (tab : WorkspaceTab)
| ClearError
| Reset
| UpdateSessionName (name : string)
| UploadCSV (api : UploadApi) (toLocaleString : Z -> string)
    (clk : UploadClock) (files : list File)
| ApplyInteractResult (vizId : string) (result : InteractResult)
| ClearInteractState (vizId : string).

(** The store after the action; an action that throws leaves it as it was. *)
Definition perform (a : Action) (st : State) : State :=
  match a with
  | LoadSession getSession id => Store.loadSession getSession id st
  | SendMessage fetch selectedModel clk content =>
      Store.sendMessage fetch selectedModel clk content st
  | SetActiveVizTab index => setActiveVizTab index st
  | SelectVizByTabId tabId => selectVizByTabId tabId st
  | SetCurrentVisualization visualization =>
      setCurrentVisualization visualization st
  | SetActiveTab tab => setActiveTab tab st
  | ClearError => clearError st
  | Reset => reset st
  | UpdateSessionName name => updateSessionName name st
  | UploadCSV api toLocaleString clk files =>
      uploadCSV api toLocaleString clk files st
  | ApplyInteractResult vizId result =>
      match applyInteractResult vizId result st with
      | Returned st' => st'
      | Threw _ => st
      end
  | ClearInteractState vizId => clearInteractState vizId st
  end.

(** The actions of a run, one after the other, from the initial state. *)
Definition run (actions : list Action) : State :=
  fold_left (fun st a => perform a st) actions Store.initialState.

(** The active tab index points into the tab list, and is null exactly when
    there is no tab. *)
Definition activeIndexInRange (st : State) : Prop :=
  match activeVizTabIndex (core st) with
  | Some i => i < List.length (visualizationTabs (core st))
  | None => visualizationTabs (core st) = []
  end.

(** No progress flag is raised. *)
Definition idle (st : State) : Prop :=
  isSending (core st) = false
  /\ sendStartedAt (core st) = None
  /\ isLoading (core st) = false
  /\ isUploading st = false.

End Trace.

(** ** Concrete stores used to exercise the model *)
Module Samples.
Import Api Workspace Store.

(** The store after the session with messages [ms] has been loaded. *)
Definition loaded (ms : list Message) : State :=
  Store.loadSession (fun _ => Returned (Examples.session_of ms)) "s-1"
    Store.initialState.

(** An assistant message [mid] with two charts and one graph. *)
Definition richAnswer (mid : string) : Message :=
  {| id := mid; role := assistant; content := "Two charts and a graph";
     timestamp := "2026-01-01T00:00:04.000Z";
     charts := Some [Examples.salesChart; Examples.salesChart];
     graphs := Some [Examples.teamGraph];
     toolCalls := Some [Examples.schemaCall];
     queryResults := None; systemEvent := None; isError := None;
     tokenUsage := Some {| inputTokens := 1200; contextLimit := 200000 |} |}.

Definition userQuestion (mid text : string) : Message :=
  plainMessage mid user text "2026-01-01T00:00:03.500Z".

Definition ordersTable : DatasetTableInfo :=
  {| table_name := "orders"; pg_table_name := "ds_1_orders"; row_count := 38;
     table_columns := ["id"; "customer_id"]; dtypes := [("id", "int")] |}.

Definition ordersDataset : DatasetFull :=
  {| ds_id := "d-1"; ds_name := "orders"; owner := "ada";
     visibility := private; derived_from := None;
     tables := [ordersTable];
     created_at := "2026-01-01T00:00:00.000Z";
     updated_at := "2026-01-01T00:00:00.000Z";
     quality_reports := None;
     suggested_questions := Some ["How many orders?"] |}.


(** A backend that stores the dataset but fails to attach it. *)
Definition attachFails : UploadApi :=
  {| uploadDataset := fun _ _ _ => Returned ordersDataset;
     attachDatasetToSession :=
       fun _ _ => Threw (JsError "Failed to attach dataset");
     listSessionDatasets := fun _ => Returned [ordersDataset] |}.

Definition uploadClock : UploadClock :=
  {| now := "2026-01-01T00:00:07.000Z"; userNow := 7; assistantNow := 7 |}.

Definition zoom : InteractResult :=
  ChartResult {| c_type := chart_zoom; c_overlay_type := None;
                 c_axis := None; c_value := None;
                 c_x1 := Some "Jan"; c_x2 := Some "Mar" |}.

Definition referenceLine : InteractResult :=
  ChartResult {| c_type := chart_overlay;
                 c_overlay_type := Some "reference_line";
                 c_axis := Some axis_y; c_value := Some 100%Z;
                 c_x1 := None; c_x2 := None |}.

(** An entry of the sessions list. *)
Definition summary (sid : string) : Sessions.SessionSummary :=
  {| Sessions.id := sid; Sessions.name := "Orders";
     Sessions.dataSource := custom; Sessions.createdBy := "ada";
     Sessions.createdAt := "2026-01-01T00:00:00.000Z";
     Sessions.updatedAt := "2026-01-01T00:00:00.000Z";
     Sessions.messageCount := 2; Sessions.userMessageCount := 1;
     Sessions.artifactCount := 0; Sessions.datasetCount := 0 |}.

(** The sessions store with the sessions [sids] listed. *)
Definition listed (sids : list string) : Sessions.SessionsState :=
  {| Sessions.sessions := map summary sids; Sessions.artifacts := [];
     Sessions.isLoading := false; Sessions.isCreating := false;
     Sessions.error := None |}.

(** A server that answers every [DELETE] with [code] and no body. *)
Definition deleting (code : Z) : Http.Request -> Http.Settled unit :=
  fun _ => Http.Answered {| Http.status := code; Http.json := Parsed tt |}.

End Samples.

(** ** Calls of [sendMessage] that overlap

    [sendMessage] reads the session once, at its start, and writes the
    message list from that reading when its request settles, while it reads
    the tabs and the query result again at that moment.  The chat input is
    disabled while a request is in flight; the Export menu of the workspace
    page calls [sendMessage] for a report without looking at [isSending], so
    a second call can start before the first has settled. *)
Module Schedule.
Import Api Workspace.

(** What a call holds on to across its [await]: the session it read at its
    start ([const { session } = get()]), its clock readings and the text. *)
Record Pending := {
  snapshot : Session;
  clock : SendClock;
  content : string
}.

(** [sendMessage] up to its [await]: without a session it returns at once;
    otherwise it raises the progress flags, inserts the placeholder and
    waits. *)
Definition start (clk : SendClock) (content : string) (st : WorkspaceState)
  : WorkspaceState * option Pending :=
  match session st with
  | None => (st, None)
  | Some s =>
      (sendMessage_pending s clk content st,
       Some {| snapshot := s; clock := clk; content := content |})
  end.

(** The rest of the call, run when [api.sendMessage] settles; [st] is the
    store at that moment. *)
Definition settle (p : Pending) (outcome : Completion ChatResponse)
    (st : WorkspaceState) : WorkspaceState :=
  match outcome with
  | Returned response =>
      sendMessage_resolved (snapshot p) (clock p) (Schedule.content p)
        response st
  | Threw error =>
      sendMessage_rejected (snapshot p) (clock p) (Schedule.content p)
        error st
  end.

Definition settle_if_started (p : option Pending)
    (outcome : Completion ChatResponse) (st : WorkspaceState)
  : WorkspaceState :=
  match p with
  | Some p => settle p outcome st
  | None => st
  end.

(** Two calls in flight together: the second starts after the first has
    inserted its placeholder; then the first request settles, then the
    second. *)
Definition overlapped
    (clkA : SendClock) (contentA : string) (outcomeA : Completion ChatResponse)
    (clkB : SendClock) (contentB : string) (outcomeB : Completion ChatResponse)
    (st0 : WorkspaceState) : WorkspaceState :=
  let (st1, pendingA) := start clkA contentA st0 in
  let (st2, pendingB) := start clkB contentB st1 in
  let st3 := settle_if_started pendingA outcomeA st2 in
  settle_if_started pendingB outcomeB st3.

(** The same two calls, the second started after the first has settled. *)
Definition inTurn
    (clkA : SendClock) (contentA : string) (outcomeA : Completion ChatResponse)
    (clkB : SendClock) (contentB : string) (outcomeB : Completion ChatResponse)
    (st0 : WorkspaceState) : WorkspaceState :=
  let (st1, pendingA) := start clkA contentA st0 in
  let st2 := settle_if_started pendingA outcomeA st1 in
  let (st3, pendingB) := start clkB contentB st2 in
  settle_if_started pendingB outcomeB st3.

End Schedule.

(** * Properties *)

(** ** The chat transport client *)
Section Transport.
Import Api.

Variables (fetch : Fetch) (sessionId message : string) (model : option string).

Local Abbreviation request :=
  {| req_sessionId := sessionId; req_message := message; req_model := model |}.


(** A value is returned only for an ok response, and it is the parsed body. *)
Lemma api_sendMessage_returns (chat : ChatResponse) :
  Api.sendMessage fetch sessionId message model = Returned chat <->
  fetch request = Responded (OkResponse (Parsed chat)).
Proof.
  unfold Api.sendMessage.
  destruct (fetch request) as [msg | [[c | err] | status [[ | field] | err]]];
    simpl; split; intros H; inversion H; subst; reflexivity.
Qed.

(** C6, as amended.  For the response [r] that [fetch] resolves to:
    [sendMessage] returns a value only when [r] is ok, and an ok response
    yields exactly what parsing its body yields (the parsed ChatResponse,
    or the parser's error, thrown).  For a response that is not ok it never
    returns: it throws an [Error]; when the parsed body has a non-empty
    [error] field that field is the message, and when the field is absent
    or empty the message is "Failed to send message". *)
Theorem api_sendMessage_contract (r : HttpResponse) :
  fetch request = Responded r ->
  ((exists chat, Api.sendMessage fetch sessionId message model = Returned chat)
     -> ok r = true)
  /\ (forall chat, r = OkResponse (Parsed chat) ->
        Api.sendMessage fetch sessionId message model = Returned chat)
  /\ (forall err, r = OkResponse (Malformed err) ->
        Api.sendMessage fetch sessionId message model = Threw (JsError err))
  /\ (ok r = false ->
        exists text,
          Api.sendMessage fetch sessionId message model = Threw (JsError text))
  /\ (forall status field, r = ErrorResponse status (Parsed (BodyObject field)) ->
        Api.sendMessage fetch sessionId message model =
        Threw (JsError match field with
                       | Some (String c s) => String c s
                       | Some EmptyString | None => "Failed to send message"
                       end)).
Proof.
  intros Hfetch. unfold Api.sendMessage. rewrite Hfetch.
  repeat split.
  - intros [chat H]. destruct r as [[c | err] | status body]; simpl in *.
    + reflexivity.
    + reflexivity.
    + destruct body as [[ | field] | err]; discriminate H.
  - intros chat ->. reflexivity.
  - intros err ->. reflexivity.
  - intros Hok. destruct r as [body | status [[ | field] | err]]; simpl in *.
    + discriminate Hok.
    + eauto.
    + eauto.
    + eauto.
  - intros status field ->. simpl.
    destruct field as [[ | c s] | ]; reflexivity.
Qed.

End Transport.

(** The contract at a server that answers 500 with [{ "error": "boom" }]. *)
Lemma api_sendMessage_contract_witness :
  Api.sendMessage (Examples.failing (Api.BodyObject (Some "boom")))
                  "s-1" "hi" None
  = Api.Threw (Api.JsError "boom").
Proof.
  destruct (api_sendMessage_contract
              (Examples.failing (Api.BodyObject (Some "boom"))) "s-1" "hi" None
              (Api.ErrorResponse 500 (Api.Parsed (Api.BodyObject (Some "boom"))))
              eq_refl) as [_ [_ [_ [_ H]]]].
  exact (H 500%Z (Some "boom") eq_refl).
Defined.

(** C6 as stated fails when the [error] field is present but empty: the
    thrown message is the fallback text, not the field; and an ok response
    whose body does not parse returns nothing. *)
Lemma api_sendMessage_empty_error_field :
  Api.sendMessage (Examples.failing (Api.BodyObject (Some ""))) "s-1" "hi" None
    = Api.Threw (Api.JsError "Failed to send message")
  /\ Api.sendMessage (Examples.failing (Api.BodyObject (Some ""))) "s-1" "hi" None
    <> Api.Threw (Api.JsError "")
  /\ Api.ok (Api.OkResponse (Api.Malformed "Unexpected end of JSON input")) = true
  /\ forall chat,
       Api.sendMessage
         (fun _ => Api.Responded
                     (Api.OkResponse (Api.Malformed "Unexpected end of JSON input")))
         "s-1" "hi" None
       <> Api.Returned chat.
Proof.
  repeat split; try discriminate.
Qed.

(** ** One turn of the workspace store *)
Section Turn.
Import Api Workspace.

Variables (fetch : Fetch) (selectedModel : string) (clk : SendClock).
Variables (question : string) (st0 : WorkspaceState) (s : Session).

Hypothesis Hsession : session st0 = Some s.

Local Abbreviation request_outcome :=
  (Api.sendMessage fetch (s_id s) question (modelArgument selectedModel)).

Local Abbreviation after_send :=
  (Workspace.sendMessage fetch selectedModel clk question st0).

Lemma sendMessage_on_response (resp : ChatResponse) :
  request_outcome = Returned resp ->
  after_send =
  sendMessage_resolved s clk question resp
    (sendMessage_pending s clk question st0).
Proof.
  intros Hsent. unfold Workspace.sendMessage.
  rewrite Hsession, Hsent. reflexivity.
Qed.

Lemma sendMessage_on_error (e : Thrown) :
  request_outcome = Threw e ->
  after_send =
  sendMessage_rejected s clk question e
    (sendMessage_pending s clk question st0).
Proof.
  intros Hsent. unfold Workspace.sendMessage.
  rewrite Hsession, Hsent. reflexivity.
Qed.


Lemma sendMessage_resolved_messages (resp : ChatResponse) (st : WorkspaceState) :
  shownMessages (sendMessage_resolved s clk question resp st) =
  filter (fun m => negb (String.eqb (id m) (temp_id (tempNow clk))))
         (messages s)
  ++ [userMessage clk question resp; assistantMessage clk resp].
Proof. reflexivity. Qed.



End Turn.



(** ** What a turn does to the message list *)


Section TurnMessages.
Import Api Workspace.

Variables (fetch : Fetch) (selectedModel : string) (clk : SendClock).
Variables (question : string) (st0 : WorkspaceState) (s : Session).

Hypothesis Hsession : session st0 = Some s.

Local Abbreviation request_outcome :=
  (Api.sendMessage fetch (s_id s) question (modelArgument selectedModel)).

Local Abbreviation after_send :=
  (Workspace.sendMessage fetch selectedModel clk question st0).

(** The messages that survive the replacement of the placeholder: those whose
    id is not the temporary id of this call. *)
Local Abbreviation kept :=
  (filter (fun m => negb (String.eqb (id m) (temp_id (tempNow clk))))
          (messages s)).



End TurnMessages.

(** C3.  A successful call can drop an earlier message.  A first send at
    [Date.now() = 5] fails and, as its [catch] block intends, leaves the
    user's question in the session under the id "temp-5"; a second send whose
    clock reads 5 again succeeds and filters that earlier question out: it is
    not the placeholder of the second call, yet it is gone, and the earlier
    list is no prefix of the new one. *)
Lemma sendMessage_drops_colliding_message :
  let firstQuestion :=
    Workspace.tempUserMessage (Examples.clock 5) "How many orders?" in
  let st1 :=
    Workspace.sendMessage Examples.offline "" (Examples.clock 5)
      "How many orders?" (Examples.state_of [Examples.greeting]) in
  let st2 :=
    Workspace.sendMessage
      (Examples.answering (Examples.reply "m-2" [] [] None))
      "" (Examples.clock 5) "And per region?" st1 in
  In firstQuestion (Workspace.shownMessages st1)
  /\ firstQuestion
     <> Workspace.tempUserMessage (Examples.clock 5) "And per region?"
  /\ ~ In firstQuestion (Workspace.shownMessages st2)
  /\ forall appended,
       Workspace.shownMessages st2 <> Workspace.shownMessages st1 ++ appended.
Proof.
  cbv zeta. repeat split.
  - right. left. reflexivity.
  - discriminate.
  - vm_compute. intros [H | [H | [H | [H | []]]]]; discriminate H.
  - intros appended. vm_compute. discriminate.
Qed.


(** ** Visualization tabs: incremental update against rebuild *)
Section VizTabs.
Import Api Workspace Described.

Lemma mapi_from_app {A B : Type} (f : A -> nat -> B) (xs ys : list A) (i : nat) :
  mapi_from f i (xs ++ ys) =
  mapi_from f i xs ++ mapi_from f (i + List.length xs) ys.
Proof.
  revert i. induction xs as [|x xs IH]; intros i; simpl.
  - rewrite Nat.add_0_r. reflexivity.
  - rewrite IH. rewrite Nat.add_succ_r. reflexivity.
Qed.

(** A [forEach] whose body pushes [f x i] builds what [map] builds. *)
Lemma forEach_push {A B : Type} (f : A -> nat -> B) (xs : list A) :
  forall (i : nat) (acc : list B),
    forEach_from (fun x i acc => acc ++ [f x i]) i xs acc =
    acc ++ mapi_from f i xs.
Proof.
  induction xs as [|x xs IH]; intros i acc; simpl.
  - rewrite app_nil_r. reflexivity.
  - rewrite IH. rewrite <- app_assoc. reflexivity.
Qed.

(** [buildVizTabs] computes the described tabs. *)
Lemma buildVizTabs_described (messages : list Message) :
  buildVizTabs messages = sessionTabs messages.
Proof.
  unfold buildVizTabs, sessionTabs.
  match goal with
  | |- fold_left ?step _ _ = _ =>
      enough (Hacc : forall acc,
                 fold_left step messages acc =
                 acc ++ flat_map messageTabs messages)
        by exact (Hacc [])
  end.
  induction messages as [|msg ms IH]; intros acc; simpl.
  - rewrite app_nil_r. reflexivity.
  - rewrite IH. clear IH. unfold messageTabs, forEach.
    destruct (role msg); simpl; try reflexivity.
    destruct (charts msg) as [cs|], (graphs msg) as [gs|]; simpl;
      rewrite ?forEach_push, ?app_nil_r, <- ?app_assoc; reflexivity.
Qed.

Lemma sessionTabs_app (xs ys : list Message) :
  sessionTabs (xs ++ ys) = sessionTabs xs ++ sessionTabs ys.
Proof. apply flat_map_app. Qed.

(** Dropping messages that are not assistant messages changes no tab. *)
Lemma sessionTabs_filter (keep : Message -> bool) (messages : list Message) :
  (forall m, In m messages -> role m = assistant -> keep m = true) ->
  sessionTabs (filter keep messages) = sessionTabs messages.
Proof.
  induction messages as [|m ms IH]; intros Hkeep; simpl.
  - reflexivity.
  - assert (IH' : sessionTabs (filter keep ms) = sessionTabs ms).
    { apply IH. intros m' Hin. apply Hkeep. right. exact Hin. }
    change (sessionTabs (m :: ms)) with (messageTabs m ++ sessionTabs ms).
    destruct (keep m) eqn:Hm.
    + change (sessionTabs (m :: filter keep ms))
        with (messageTabs m ++ sessionTabs (filter keep ms)).
      rewrite IH'. reflexivity.
    + rewrite IH'. unfold messageTabs.
      destruct (role m) eqn:Hrole; try reflexivity.
      rewrite (Hkeep m (or_introl eq_refl) Hrole) in Hm. discriminate Hm.
Qed.

Lemma orEmpty_nonEmptyOrUndefined {A : Type} (xs : list A) :
  orEmpty (nonEmptyOrUndefined xs) = xs.
Proof. destruct xs; reflexivity. Qed.

Lemma messageTabs_assistantMessage (clk : SendClock) (resp : ChatResponse) :
  messageTabs (assistantMessage clk resp) =
  mapi (chartTab (messageId resp)) (filter_charts (visualizations resp))
  ++ mapi (graphTab (messageId resp)) (filter_graphs (visualizations resp)).
Proof.
  unfold messageTabs, assistantMessage. simpl.
  rewrite !orEmpty_nonEmptyOrUndefined. reflexivity.
Qed.

Variables (clk : SendClock) (question : string) (s : Session).

Local Abbreviation responseTabs resp :=
  (mapi (chartTab (messageId resp)) (filter_charts (visualizations resp))
   ++ mapi (graphTab (messageId resp)) (filter_graphs (visualizations resp))).

(** X21.  Let [s] be the session a call of [sendMessage] read at its start,
    with no assistant message that carries the temporary id of the call.  If
    the tab list, at the moment the response arrives, equals [buildVizTabs]
    of the messages of [s], then after the call it equals [buildVizTabs] of
    the updated messages: the tabs that were there, followed by one tab per
    chart of the response ("<messageId>-chart-<i>") and then one per graph
    ("<messageId>-graph-<i>"); hence [loadSession] on the updated session
    rebuilds exactly these tabs.  This is the case for a call that runs with
    no other action in between, from a store whose tabs equal [buildVizTabs]
    of its messages. *)
Theorem sendMessage_tabs_match_rebuild (resp : ChatResponse) :
  (forall m, In m (messages s) -> role m = assistant ->
             id m <> temp_id (tempNow clk)) ->
  (forall st1 : WorkspaceState,
      visualizationTabs st1 = buildVizTabs (messages s) ->
      let after := sendMessage_resolved s clk question resp st1 in
      visualizationTabs after = buildVizTabs (shownMessages after)
      /\ visualizationTabs after = visualizationTabs st1 ++ responseTabs resp
      /\ forall (getSession : string -> Completion Session) (sid : string)
                (st : WorkspaceState) (stored : Session),
           session after = Some stored ->
           getSession sid = Returned stored ->
           visualizationTabs (loadSession getSession sid st) =
           visualizationTabs after)
  /\ (forall (fetch : Fetch) (selectedModel : string) (st0 : WorkspaceState),
        session st0 = Some s ->
        visualizationTabs st0 = buildVizTabs (messages s) ->
        Api.sendMessage fetch (s_id s) question (modelArgument selectedModel)
          = Returned resp ->
        let after := Workspace.sendMessage fetch selectedModel clk question st0 in
        visualizationTabs after = buildVizTabs (shownMessages after)
        /\ visualizationTabs after = visualizationTabs st0 ++ responseTabs resp).
Proof.
  intros Hfresh.
  assert (Hgeneral : forall st1 : WorkspaceState,
             visualizationTabs st1 = buildVizTabs (messages s) ->
             visualizationTabs (sendMessage_resolved s clk question resp st1)
               = visualizationTabs st1 ++ responseTabs resp
             /\ buildVizTabs
                  (shownMessages (sendMessage_resolved s clk question resp st1))
                = visualizationTabs st1 ++ responseTabs resp).
  { intros st1 Htabs. split; [reflexivity|].
    rewrite sendMessage_resolved_messages, buildVizTabs_described.
    rewrite sessionTabs_app, sessionTabs_filter.
    - rewrite Htabs, buildVizTabs_described. f_equal.
      unfold sessionTabs. simpl. rewrite app_nil_r.
      apply messageTabs_assistantMessage.
    - intros m Hin Hrole. apply negb_true_iff, String.eqb_neq.
      apply Hfresh; assumption. }
  split.
  - intros st1 Htabs. cbv zeta.
    destruct (Hgeneral st1 Htabs) as [Hnew Hrebuild].
    split; [|split].
    + rewrite Hrebuild. exact Hnew.
    + exact Hnew.
    + intros getSession sid st stored Hstored Hget.
      unfold loadSession. rewrite Hget.
      transitivity (buildVizTabs (messages stored)); [reflexivity|].
      rewrite Hnew, <- Hrebuild. unfold shownMessages. rewrite Hstored.
      reflexivity.
  - intros fetch selectedModel st0 Hsession Htabs Hsent. cbv zeta.
    rewrite (sendMessage_on_response _ _ _ _ _ _ Hsession _ Hsent).
    destruct (Hgeneral (sendMessage_pending s clk question st0) Htabs)
      as [Hnew Hrebuild].
    split; [rewrite Hrebuild|]; exact Hnew.
Qed.

End VizTabs.

(** X21 at a loaded session with one earlier chart; the reply brings a chart
    and a graph. *)
Lemma sendMessage_tabs_match_rebuild_witness :
  let after :=
    Workspace.sendMessage
      (Examples.answering
         (Examples.reply "m-2"
            [Api.VGraph Examples.teamGraph; Api.VChart Examples.salesChart]
            [] None))
      "" (Examples.clock 5) "Show me the team"
      (Examples.loaded [Examples.chartAnswer "m-1"]) in
  Workspace.visualizationTabs after
  = Workspace.buildVizTabs (Workspace.shownMessages after)
  /\ map Workspace.tab_id (Workspace.visualizationTabs after)
     = ["m-1-chart-0"; "m-2-chart-0"; "m-2-graph-0"]
  /\ map Workspace.title (Workspace.visualizationTabs after)
     = ["Sales by region"; "Sales by region"; "Graph 1"].
Proof.
  cbv zeta. split; [|split; reflexivity].
  destruct (sendMessage_tabs_match_rebuild
              (Examples.clock 5) "Show me the team"
              (Examples.session_of [Examples.chartAnswer "m-1"])
              (Examples.reply "m-2"
                 [Api.VGraph Examples.teamGraph; Api.VChart Examples.salesChart]
                 [] None))
    as [_ Hcall].
  - intros m [<- | []] _. discriminate.
  - exact (proj1 (Hcall (Examples.answering
                           (Examples.reply "m-2"
                              [Api.VGraph Examples.teamGraph;
                               Api.VChart Examples.salesChart]
                              [] None))
                        "" (Examples.loaded [Examples.chartAnswer "m-1"])
                        eq_refl eq_refl eq_refl)).
Defined.

(** A call that nothing interrupts is its start followed by its settling. *)
Lemma sendMessage_start_then_settle (fetch : Api.Fetch)
    (selectedModel : string) (clk : Workspace.SendClock) (content : string)
    (st0 : Workspace.WorkspaceState) :
  Workspace.sendMessage fetch selectedModel clk content st0 =
  match Schedule.start clk content st0 with
  | (st1, Some p) =>
      Schedule.settle p
        (Api.sendMessage fetch (Api.s_id (Schedule.snapshot p)) content
           (Workspace.modelArgument selectedModel))
        st1
  | (st1, None) => st1
  end.
Proof.
  unfold Workspace.sendMessage, Schedule.start.
  destruct (Workspace.session st0) as [s|]; [|reflexivity]. simpl.
  destruct (Api.sendMessage fetch (Api.s_id s) content
              (Workspace.modelArgument selectedModel)); reflexivity.
Qed.

(** C8.  Two calls of [sendMessage] in flight together leave tabs that the
    messages no longer account for.  The store is loaded with one greeting,
    so its tabs equal [buildVizTabs] of its messages, and they still do when
    the second call (the report of the Export menu) starts.  The first
    response brings a chart and adds the tab "m-2-chart-0"; the second
    response then writes the message list from the session the second call
    read at its start, which drops the first call's answer and keeps its
    placeholder, while the tab stays.  Afterwards the tab list differs from
    [buildVizTabs] of the messages, and [loadSession] on the session the
    store holds rebuilds no tab. *)
Lemma overlapping_sends_break_tab_rebuild :
  let st0 := Examples.loaded [Examples.greeting] in
  let chartReply :=
    Examples.reply "m-2" [Api.VChart Examples.salesChart] [] None in
  let reportReply := Examples.reply "m-3" [] [] None in
  let whileFirstInFlight :=
    fst (Schedule.start (Examples.clock 5) "Sales by region?" st0) in
  let after :=
    Schedule.overlapped
      (Examples.clock 5) "Sales by region?" (Api.Returned chartReply)
      (Examples.clock 9) "Generate a report summarizing our analysis"
      (Api.Returned reportReply) st0 in
  Workspace.visualizationTabs st0
  = Workspace.buildVizTabs (Workspace.shownMessages st0)
  /\ Workspace.visualizationTabs whileFirstInFlight
     = Workspace.buildVizTabs (Workspace.shownMessages whileFirstInFlight)
  /\ map Api.id (Workspace.shownMessages after)
     = ["m-1"; "temp-5"; "user-m-3"; "m-3"]
  /\ map Workspace.tab_id (Workspace.visualizationTabs after)
     = ["m-2-chart-0"]
  /\ Workspace.buildVizTabs (Workspace.shownMessages after) = []
  /\ Workspace.visualizationTabs after
     <> Workspace.buildVizTabs (Workspace.shownMessages after)
  /\ (forall stored : Api.Session,
        Workspace.session after = Some stored ->
        Workspace.visualizationTabs
          (Workspace.loadSession (fun _ => Api.Returned stored) "s-1" after)
        = [])
  /\ map Workspace.tab_id
       (Workspace.visualizationTabs
          (Schedule.inTurn
             (Examples.clock 5) "Sales by region?" (Api.Returned chartReply)
             (Examples.clock 9) "Generate a report summarizing our analysis"
             (Api.Returned reportReply) st0))
     = map Workspace.tab_id
         (Workspace.buildVizTabs
            (Workspace.shownMessages
               (Schedule.inTurn
                  (Examples.clock 5) "Sales by region?"
                  (Api.Returned chartReply)
                  (Examples.clock 9)
                  "Generate a report summarizing our analysis"
                  (Api.Returned reportReply) st0))).
Proof.
  cbv zeta. repeat split.
  - vm_compute. discriminate.
  - intros stored Hstored. vm_compute in Hstored.
    injection Hstored as <-. reflexivity.
Qed.

(** ** The query result shown after a reload *)
Section LastQueryResult.
Import Api Workspace Described.

Lemma nonEmpty_snoc {A : Type} (xs : list A) (x : A) :
  nonEmpty (xs ++ [x]) = true.
Proof. destruct xs; reflexivity. Qed.

Lemma last_elem_snoc {A : Type} (xs : list A) (x : A) :
  last_elem (xs ++ [x]) = Some x.
Proof.
  unfold last_elem. rewrite length_app. simpl.
  rewrite Nat.add_sub. rewrite nth_error_app2 by apply le_n.
  rewrite Nat.sub_diag. reflexivity.
Qed.

(** The loop entered with [k] reads only the first [k] messages. *)
Lemma findLastQueryResult_loop_prefix (l rest : list Message) (k : nat) :
  k <= List.length l ->
  findLastQueryResult_loop (l ++ rest) k = findLastQueryResult_loop l k.
Proof.
  induction k as [|i IH]; intros Hk; simpl.
  - reflexivity.
  - rewrite nth_error_app1 by exact Hk.
    rewrite IH by (apply Nat.lt_le_incl; exact Hk).
    reflexivity.
Qed.

Lemma findLastQueryResult_snoc (l : list Message) (m : Message) :
  findLastQueryResult (l ++ [m]) =
  match role m, queryResults m with
  | assistant, Some qrs =>
      if nonEmpty qrs then
        match last_elem qrs with
        | Some last => Some {| qv_data := data last; qv_columns := columns last |}
        | None => None
        end
      else findLastQueryResult l
  | _, _ => findLastQueryResult l
  end.
Proof.
  unfold findLastQueryResult. rewrite length_app. simpl.
  rewrite Nat.add_1_r. simpl.
  rewrite nth_error_app2 by apply le_n. rewrite Nat.sub_diag. simpl.
  rewrite findLastQueryResult_loop_prefix by apply le_n.
  reflexivity.
Qed.

Lemma findLastQueryResult_skip (l : list Message) (m : Message) :
  carriesQueryResults m = false ->
  findLastQueryResult (l ++ [m]) = findLastQueryResult l.
Proof.
  intros Hm. rewrite findLastQueryResult_snoc.
  unfold carriesQueryResults in Hm.
  destruct (role m); try reflexivity.
  destruct (queryResults m) as [[|q qs]|]; try reflexivity.
  discriminate Hm.
Qed.

Lemma findLastQueryResult_hit (l : list Message) (m : Message)
    (results : list QueryResult) (lastResult : QueryResult) :
  role m = assistant ->
  queryResults m = Some (results ++ [lastResult]) ->
  findLastQueryResult (l ++ [m]) =
  Some {| qv_data := data lastResult; qv_columns := columns lastResult |}.
Proof.
  intros Hrole Hqrs. rewrite findLastQueryResult_snoc, Hrole, Hqrs.
  rewrite nonEmpty_snoc, last_elem_snoc. reflexivity.
Qed.

Lemma carriesQueryResults_last (m : Message) :
  carriesQueryResults m = true ->
  role m = assistant
  /\ exists results lastResult, queryResults m = Some (results ++ [lastResult]).
Proof.
  unfold carriesQueryResults. intros Hm.
  destruct (role m); try discriminate Hm.
  destruct (queryResults m) as [[|q qs]|]; try discriminate Hm.
  split; [reflexivity|].
  destruct (exists_last (l := q :: qs)) as (results & lastResult & ->).
  - discriminate.
  - eauto.
Qed.

(** C9.  [findLastQueryResult] returns the data and columns of the last
    element of [queryResults] of the most recent assistant message whose
    [queryResults] is non-empty; it returns null exactly when no assistant
    message carries a non-empty [queryResults]; and a successful
    [loadSession] stores this value in [currentQueryResult]. *)
Theorem findLastQueryResult_most_recent :
  (forall (earlier later : list Message) (msg : Message)
          (results : list QueryResult) (lastResult : QueryResult),
      role msg = assistant ->
      queryResults msg = Some (results ++ [lastResult]) ->
      Forall (fun m => carriesQueryResults m = false) later ->
      findLastQueryResult (earlier ++ msg :: later) =
      Some {| qv_data := data lastResult; qv_columns := columns lastResult |})
  /\ (forall messages : list Message,
        findLastQueryResult messages = None <->
        Forall (fun m => carriesQueryResults m = false) messages)
  /\ (forall (getSession : string -> Completion Session) (sid : string)
             (st : WorkspaceState) (stored : Session),
        getSession sid = Returned stored ->
        currentQueryResult (loadSession getSession sid st) =
        findLastQueryResult (messages stored)).
Proof.
  split; [|split].
  - intros earlier later. induction later as [|m later IH] using rev_ind;
      intros msg results lastResult Hrole Hqrs Hlater.
    + apply findLastQueryResult_hit with (results := results); assumption.
    + apply Forall_app in Hlater. destruct Hlater as [Hlater Hm].
      inversion Hm as [|? ? Hm' _]; subst.
      change (earlier ++ msg :: later ++ [m])
        with (earlier ++ (msg :: later) ++ [m]).
      rewrite app_assoc, findLastQueryResult_skip by exact Hm'.
      apply IH with (results := results); assumption.
  - intros messages. induction messages as [|m ms IH] using rev_ind.
    + split; [constructor | reflexivity].
    + destruct (carriesQueryResults m) eqn:Hm.
      * destruct (carriesQueryResults_last _ Hm)
          as (Hrole & results & lastResult & Hqrs).
        rewrite (findLastQueryResult_hit ms _ results lastResult Hrole Hqrs).
        split; [discriminate|].
        intros Hall. apply Forall_app in Hall. destruct Hall as [_ Hlast].
        inversion Hlast as [|? ? Hm' _]; subst.
        rewrite Hm in Hm'. discriminate Hm'.
      * rewrite findLastQueryResult_skip by exact Hm. rewrite IH.
        split.
        -- intros Hms. apply Forall_app. split; [exact Hms|].
           constructor; [exact Hm|constructor].
        -- intros Hall. apply Forall_app in Hall. tauto.
  - intros getSession sid st stored Hget.
    unfold loadSession. rewrite Hget. reflexivity.
Qed.

End LastQueryResult.

(** C9 at a session where two assistant messages carry query results and a
    user message follows: the later one wins, with its last result. *)
Lemma findLastQueryResult_most_recent_witness :
  Workspace.findLastQueryResult
    ([Examples.greeting;
      Examples.queryAnswer "m-2" [Examples.countQuery]]
     ++ Examples.queryAnswer "m-3" ([Examples.salesQuery] ++ [Examples.countQuery])
     :: [Workspace.plainMessage "user-m-4" Api.user "thanks"
           "2026-01-01T00:00:09.000Z"])
  = Some {| Workspace.qv_data := Api.data Examples.countQuery;
            Workspace.qv_columns := Api.columns Examples.countQuery |}
  /\ Workspace.currentQueryResult
       (Examples.loaded [Examples.queryAnswer "m-2" [Examples.countQuery]])
     = Workspace.findLastQueryResult
         [Examples.queryAnswer "m-2" [Examples.countQuery]].
Proof.
  destruct findLastQueryResult_most_recent as (Hrecent & _ & Hload).
  split.
  - apply (Hrecent _ _ _ [Examples.salesQuery] Examples.countQuery).
    + reflexivity.
    + reflexivity.
    + repeat constructor.
  - exact (Hload (fun _ => Api.Returned
                    (Examples.session_of
                       [Examples.queryAnswer "m-2" [Examples.countQuery]]))
                 "s-1" Workspace.initialState
                 (Examples.session_of
                    [Examples.queryAnswer "m-2" [Examples.countQuery]])
                 eq_refl).
Defined.

(** ** Grouping of system messages in the chat panel *)
Section Grouping.
Import Api ChatPanel Described.

Lemma isSystem_role (m : Message) : isSystem m = true <-> role m = system.
Proof.
  unfold isSystem. destruct (role m); simpl; split; intros H;
    try reflexivity; discriminate H.
Qed.

Lemma groupMessages_loop_message (m : Message) (rest : list Message)
    (groups : list Group) :
  isSystem m = false ->
  groupMessages_loop (m :: rest) groups =
  groupMessages_loop rest (groups ++ [MessageGroup m]).
Proof.
  intros Hm. rewrite groupMessages_loop_equation_2.
  destruct (inspect (isSystem m)) as [[|] Hb].
  - discriminate (eq_trans (eq_sym Hm) Hb).
  - simp groupMessages_loop. reflexivity.
Qed.

Lemma groupMessages_loop_system (m : Message) (rest : list Message)
    (groups : list Group) :
  isSystem m = true ->
  groupMessages_loop (m :: rest) groups =
  groupMessages_loop
    (snd (collectSystem (m :: rest) []))
    (groups ++ [SystemGroup (fst (collectSystem (m :: rest) []))]).
Proof.
  intros Hm. rewrite groupMessages_loop_equation_2.
  destruct (inspect (isSystem m)) as [[|] Hb].
  - simp groupMessages_loop. reflexivity.
  - discriminate (eq_trans (eq_sym Hm) Hb).
Qed.

(** The inner loop splits what is left into the longest run of system
    messages and the rest, which is empty or starts with another message. *)
Lemma collectSystem_split (rest : list Message) :
  forall systemMsgs : list Message,
  exists run : list Message,
    fst (collectSystem rest systemMsgs) = systemMsgs ++ run
    /\ rest = run ++ snd (collectSystem rest systemMsgs)
    /\ Forall (fun m => role m = system) run
    /\ match snd (collectSystem rest systemMsgs) with
       | [] => True
       | m :: _ => isSystem m = false
       end.
Proof.
  induction rest as [|m rest IH]; intros systemMsgs; simpl.
  - exists []. rewrite app_nil_r. repeat split. constructor.
  - destruct (isSystem m) eqn:Hm.
    + destruct (IH (systemMsgs ++ [m])) as (run & Hfst & Hrest & Hrun & Hnext).
      exists (m :: run). rewrite Hfst, <- app_assoc. simpl.
      repeat split.
      * f_equal. exact Hrest.
      * constructor; [apply isSystem_role; exact Hm | exact Hrun].
      * exact Hnext.
    + exists []. rewrite app_nil_r. simpl. repeat split.
      * constructor.
      * exact Hm.
Qed.

(** The inner loop, entered at a system message, moves the cursor. *)
Lemma collectSystem_advances (m : Message) (rest : list Message) :
  isSystem m = true ->
  List.length (snd (collectSystem (m :: rest) [])) < List.length (m :: rest).
Proof.
  intros Hm. simpl. rewrite Hm.
  apply Nat.lt_succ_r, collectSystem_cursor.
Qed.

(** Groups already pushed are never touched again. *)
Lemma groupMessages_loop_acc (rest : list Message) :
  forall groups : list Group,
    groupMessages_loop rest groups = groups ++ groupMessages_loop rest [].
Proof.
  remember (List.length rest) as n eqn:Hn. revert rest Hn.
  induction n as [n IH] using lt_wf_ind. intros rest -> groups.
  destruct rest as [|m rest].
  - rewrite !groupMessages_loop_equation_1, app_nil_r. reflexivity.
  - destruct (isSystem m) eqn:Hm.
    + rewrite !(groupMessages_loop_system _ _ _ Hm).
      pose proof (collectSystem_advances m rest Hm) as Hlt.
      rewrite (IH _ Hlt _ eq_refl (groups ++ _)).
      rewrite (IH _ Hlt _ eq_refl ([] ++ _)).
      rewrite <- app_assoc. reflexivity.
    + rewrite !(groupMessages_loop_message _ _ _ Hm).
      pose proof (Nat.lt_succ_diag_r (List.length rest)) as Hlt.
      rewrite (IH _ Hlt _ eq_refl (groups ++ _)).
      rewrite (IH _ Hlt _ eq_refl ([] ++ _)).
      rewrite <- app_assoc. reflexivity.
Qed.

Lemma groupMessages_message (m : Message) (rest : list Message) :
  isSystem m = false ->
  groupMessages (m :: rest) = MessageGroup m :: groupMessages rest.
Proof.
  intros Hm. unfold groupMessages.
  rewrite (groupMessages_loop_message _ _ _ Hm), groupMessages_loop_acc.
  reflexivity.
Qed.

Lemma groupMessages_system (m : Message) (rest : list Message) :
  isSystem m = true ->
  groupMessages (m :: rest) =
  SystemGroup (fst (collectSystem (m :: rest) []))
  :: groupMessages (snd (collectSystem (m :: rest) [])).
Proof.
  intros Hm. unfold groupMessages.
  rewrite (groupMessages_loop_system _ _ _ Hm), groupMessages_loop_acc.
  reflexivity.
Qed.

(** What follows a run of system messages does not open with a system
    group. *)
Lemma groupMessages_opens_with_message (rest : list Message) :
  match rest with [] => True | m :: _ => isSystem m = false end ->
  match groupMessages rest with
  | [] => True
  | g :: _ => isSystemGroup g = false
  end.
Proof.
  destruct rest as [|m rest]; intros Hm.
  - exact I.
  - rewrite (groupMessages_message _ _ Hm). reflexivity.
Qed.

Lemma runsMaximal_cons (g : Group) (groups : list Group) :
  (isSystemGroup g = false
   \/ match groups with [] => True | g' :: _ => isSystemGroup g' = false end) ->
  runsMaximal groups ->
  runsMaximal (g :: groups).
Proof.
  intros Hg Hgroups. destruct groups as [|g' groups]; simpl.
  - exact I.
  - split; [|exact Hgroups].
    destruct Hg as [-> | ->]; [reflexivity | apply andb_false_r].
Qed.

(** C10.  [groupMessages] partitions its input without changing it: the
    groups laid end to end are the original list; a message group holds one
    message that is not a system message; a system group is non-empty and
    holds only system messages (consecutive ones, by the first part); and no
    two neighbouring groups are both system groups. *)
Theorem groupMessages_partitions (messages : list Message) :
  flatten (groupMessages messages) = messages
  /\ Forall wellFormedGroup (groupMessages messages)
  /\ runsMaximal (groupMessages messages).
Proof.
  remember (List.length messages) as n eqn:Hn. revert messages Hn.
  induction n as [n IH] using lt_wf_ind. intros messages ->.
  destruct messages as [|m rest].
  - repeat split. constructor.
  - destruct (isSystem m) eqn:Hm.
    + rewrite (groupMessages_system _ _ Hm).
      destruct (collectSystem_split (m :: rest) [])
        as (run & Hfst & Hrest & Hrun & Hnext).
      simpl app in Hfst.
      assert (Hrun_ne : run <> []).
      { intros ->. rewrite app_nil_l in Hrest. rewrite <- Hrest in Hnext.
        rewrite Hm in Hnext. discriminate Hnext. }
      destruct (IH _ (collectSystem_advances m rest Hm) _ eq_refl)
        as (Hflat & Hwf & Hmax).
      split; [|split].
      * unfold flatten in *.
        change (flat_map groupMembers (?g :: ?gs))
          with (groupMembers g ++ flat_map groupMembers gs).
        rewrite Hflat. unfold groupMembers. rewrite Hfst.
        symmetry. exact Hrest.
      * constructor; [|exact Hwf].
        unfold wellFormedGroup. rewrite Hfst. split; assumption.
      * apply runsMaximal_cons; [|exact Hmax].
        right. apply groupMessages_opens_with_message. exact Hnext.
    + rewrite (groupMessages_message _ _ Hm).
      destruct (IH _ (Nat.lt_succ_diag_r (List.length rest)) _ eq_refl)
        as (Hflat & Hwf & Hmax).
      split; [|split].
      * unfold flatten in *. simpl. rewrite Hflat. reflexivity.
      * constructor; [exact Hm | exact Hwf].
      * apply runsMaximal_cons; [left; reflexivity | exact Hmax].
Qed.

End Grouping.

(** A run of two background events between ordinary messages is folded into
    one group; a lone event after the reply forms a group of its own. *)
Example groupMessages_sample :
  ChatPanel.groupMessages
    [Examples.greeting; Examples.eventMessage "e-1"; Examples.eventMessage "e-2";
     Examples.chartAnswer "m-2"; Examples.eventMessage "e-3"]
  = [ChatPanel.MessageGroup Examples.greeting;
     ChatPanel.SystemGroup
       [Examples.eventMessage "e-1"; Examples.eventMessage "e-2"];
     ChatPanel.MessageGroup (Examples.chartAnswer "m-2");
     ChatPanel.SystemGroup [Examples.eventMessage "e-3"]].
Proof. reflexivity. Qed.

(** * Further properties of the client *)

(** ** Tab identifiers *)
Section TabIds.
Import Api Workspace Described.

(** The characters of a string. *)
Local Abbreviation chars := list_ascii_of_string.

Lemma chars_append (s t : string) : chars (s ++ t) = chars s ++ chars t.
Proof.
  induction s as [|c s IH]; simpl.
  - reflexivity.
  - rewrite IH. reflexivity.
Qed.

Lemma chars_length (s : string) : List.length (chars s) = String.length s.
Proof.
  induction s as [|c s IH]; simpl.
  - reflexivity.
  - rewrite IH. reflexivity.
Qed.

Lemma chars_inj (s t : string) : chars s = chars t -> s = t.
Proof.
  intros H. rewrite <- (string_of_list_ascii_of_string s).
  rewrite <- (string_of_list_ascii_of_string t). rewrite H. reflexivity.
Qed.

(** A decimal numeral holds no dash. *)
Lemma show_nat_no_dash (n : nat) : ~ In "-"%char (chars (show_nat n)).
Proof.
  unfold show_nat.
  assert (Hdigits : forall d, ~ In "-"%char (chars (NilEmpty.string_of_uint d))).
  { induction d; simpl; intros H; try (destruct H as [H | H];
      [discriminate H | exact (IHd H)]). exact H. }
  destruct (Nat.to_uint n) as [|d|d|d|d|d|d|d|d|d|d];
    try match goal with
        | |- ~ In _ (chars (NilZero.string_of_uint ?x)) => exact (Hdigits x)
        end.
  simpl. intros [H | []]. discriminate H.
Qed.

Lemma show_nat_inj (i j : nat) : show_nat i = show_nat j -> i = j.
Proof.
  unfold show_nat. intros H.
  assert (Hnonnil : forall n, Nat.to_uint n <> Nil).
  { intros n. rewrite <- (DecimalNat.Unsigned.of_to n) at 1.
    rewrite DecimalNat.Unsigned.to_of. apply DecimalFacts.unorm_nonnil. }
  apply DecimalNat.Unsigned.to_uint_inj.
  assert (Hsome : Some (Nat.to_uint i) = Some (Nat.to_uint j)).
  { rewrite <- (NilZero.usu _ (Hnonnil i)), <- (NilZero.usu _ (Hnonnil j)).
    rewrite H. reflexivity. }
  inversion Hsome. reflexivity.
Qed.

(** Two lists that agree after their first dash-free stretches and a dash
    agree on the stretches. *)
Lemma split_at_first_dash (d1 d2 x y : list ascii) :
  ~ In "-"%char d1 -> ~ In "-"%char d2 ->
  d1 ++ "-"%char :: x = d2 ++ "-"%char :: y ->
  d1 = d2 /\ x = y.
Proof.
  revert d2. induction d1 as [|c d1 IH]; intros [|c' d2] H1 H2 Heq; simpl in *.
  - inversion Heq. split; reflexivity.
  - inversion Heq; subst. exfalso. apply H2. left. reflexivity.
  - inversion Heq; subst. exfalso. apply H1. left. reflexivity.
  - inversion Heq; subst.
    destruct (IH d2) as [-> ->]; auto.
Qed.

Lemma split_at_last_dash (x1 x2 d1 d2 : list ascii) :
  ~ In "-"%char d1 -> ~ In "-"%char d2 ->
  x1 ++ "-"%char :: d1 = x2 ++ "-"%char :: d2 ->
  x1 = x2 /\ d1 = d2.
Proof.
  intros H1 H2 Heq. apply (f_equal (@List.rev ascii)) in Heq.
  rewrite !rev_app_distr in Heq. simpl in Heq. rewrite <- !app_assoc in Heq.
  simpl in Heq.
  apply split_at_first_dash in Heq.
  - destruct Heq as [Hd Hx]. split.
    + rewrite <- (rev_involutive x1), <- (rev_involutive x2), Hx. reflexivity.
    + rewrite <- (rev_involutive d1), <- (rev_involutive d2), Hd. reflexivity.
  - intros H. apply H1. apply in_rev. exact H.
  - intros H. apply H2. apply in_rev. exact H.
Qed.

Lemma same_length_suffix {A : Type} (x1 x2 k1 k2 : list A) :
  List.length k1 = List.length k2 ->
  x1 ++ k1 = x2 ++ k2 ->
  x1 = x2 /\ k1 = k2.
Proof.
  revert x2. induction x1 as [|a x1 IH]; intros [|b x2] Hlen Heq; simpl in *.
  - split; [reflexivity | exact Heq].
  - exfalso. subst k1. simpl in Hlen. rewrite length_app in Hlen. lia.
  - exfalso. subst k2. simpl in Hlen. rewrite length_app in Hlen. lia.
  - inversion Heq; subst. destruct (IH x2 Hlen) as [-> ->]; auto.
Qed.

(** An id of the shape [<message id><tag>-<numeral>] determines its three
    parts, for tags of one length. *)
Lemma tagged_id_inj (a b tag1 tag2 : string) (i j : nat) :
  String.length tag1 = String.length tag2 ->
  (a ++ tag1 ++ "-" ++ show_nat i)%string =
  (b ++ tag2 ++ "-" ++ show_nat j)%string ->
  a = b /\ tag1 = tag2 /\ i = j.
Proof.
  intros Hlen Heq. apply (f_equal chars) in Heq.
  rewrite !chars_append in Heq. simpl in Heq.
  rewrite !app_assoc in Heq.
  apply split_at_last_dash in Heq; try apply show_nat_no_dash.
  destruct Heq as [Hhead Hnum].
  apply same_length_suffix in Hhead.
  - destruct Hhead as [Ha Htag].
    repeat split.
    + apply chars_inj. exact Ha.
    + apply chars_inj. exact Htag.
    + apply show_nat_inj, chars_inj. exact Hnum.
  - rewrite !chars_length. exact Hlen.
Qed.

End TabIds.

(** ** Tabs of a session: identifiers are unique *)
Section UniqueTabs.
Import Api Workspace Described.

(** The ids of the tabs one message contributes, by position. *)
Lemma tab_ids_of_charts (a : string) (cs : list ChartSpec) (i : nat) :
  map tab_id (mapi_from (chartTab a) i cs) =
  map (fun k => (a ++ "-chart" ++ "-" ++ show_nat k)%string)
      (seq i (List.length cs)).
Proof.
  revert i. induction cs as [|c cs IH]; intros i; simpl.
  - reflexivity.
  - rewrite IH. reflexivity.
Qed.

Lemma tab_ids_of_graphs (a : string) (gs : list GraphSpec) (i : nat) :
  map tab_id (mapi_from (graphTab a) i gs) =
  map (fun k => (a ++ "-graph" ++ "-" ++ show_nat k)%string)
      (seq i (List.length gs)).
Proof.
  revert i. induction gs as [|g gs IH]; intros i; simpl.
  - reflexivity.
  - rewrite IH. reflexivity.
Qed.

(** Every tab of a message is named after an assistant message, a kind and
    a position. *)
Lemma messageTabs_id_shape (m : Message) (x : string) :
  In x (map tab_id (messageTabs m)) ->
  role m = assistant
  /\ exists (tag : string) (k : nat),
       (tag = "-chart" \/ tag = "-graph")
       /\ x = (id m ++ tag ++ "-" ++ show_nat k)%string.
Proof.
  unfold messageTabs. destruct (role m); simpl; try contradiction.
  rewrite map_app. unfold mapi.
  rewrite tab_ids_of_charts, tab_ids_of_graphs.
  intros Hin. split; [reflexivity|].
  apply in_app_or in Hin. destruct Hin as [Hin | Hin];
    apply in_map_iff in Hin; destruct Hin as (k & <- & _).
  - exists "-chart", k. split; [left|]; reflexivity.
  - exists "-graph", k. split; [right|]; reflexivity.
Qed.

Lemma tag_length (tag : string) :
  tag = "-chart" \/ tag = "-graph" -> String.length tag = 6.
Proof. intros [-> | ->]; reflexivity. Qed.

Lemma messageTabs_ids_unique (m : Message) :
  NoDup (map tab_id (messageTabs m)).
Proof.
  unfold messageTabs. destruct (role m); simpl; try constructor.
  rewrite map_app. unfold mapi.
  rewrite tab_ids_of_charts, tab_ids_of_graphs.
  apply NoDup_app.
  - apply NoDup_map_NoDup_ForallPairs; [|apply seq_NoDup].
    intros i j _ _ Heq. apply tagged_id_inj in Heq; [tauto | reflexivity].
  - apply NoDup_map_NoDup_ForallPairs; [|apply seq_NoDup].
    intros i j _ _ Heq. apply tagged_id_inj in Heq; [tauto | reflexivity].
  - intros x Hc Hg.
    apply in_map_iff in Hc. destruct Hc as (i & <- & _).
    apply in_map_iff in Hg. destruct Hg as (j & Heq & _).
    apply tagged_id_inj in Heq; [|reflexivity].
    destruct Heq as (_ & Htag & _). discriminate Htag.
Qed.

Lemma sessionTabs_ids_unique (messages : list Message) :
  NoDup (map id (filter (fun m => Role_eqb (role m) assistant) messages)) ->
  NoDup (map tab_id (sessionTabs messages)).
Proof.
  unfold sessionTabs.
  induction messages as [|m ms IH]; intros Hids; simpl.
  - constructor.
  - rewrite map_app.
    assert (Hrest : NoDup (map id (filter (fun m => Role_eqb (role m) assistant) ms))).
    { simpl in Hids. destruct (Role_eqb (role m) assistant); [|exact Hids].
      inversion Hids; assumption. }
    apply NoDup_app.
    + apply messageTabs_ids_unique.
    + apply IH. exact Hrest.
    + intros x Hm Hms.
      apply messageTabs_id_shape in Hm.
      destruct Hm as (Hrole & tag & k & Htag & ->).
      apply in_map_iff in Hms. destruct Hms as (t & Hid & Ht).
      apply in_flat_map in Ht. destruct Ht as (m' & Hm' & Ht).
      assert (Hshape : In (tab_id t) (map tab_id (messageTabs m')))
        by (apply in_map; exact Ht).
      apply messageTabs_id_shape in Hshape.
      destruct Hshape as (Hrole' & tag' & k' & Htag' & Hid').
      rewrite Hid in Hid'.
      apply tagged_id_inj in Hid';
        [|rewrite (tag_length _ Htag), (tag_length _ Htag'); reflexivity].
      destruct Hid' as (Hsame & _ & _).
      simpl in Hids. rewrite Hrole in Hids. simpl in Hids.
      inversion Hids as [|? ? Hnotin _]; subst. apply Hnotin.
      rewrite Hsame. apply in_map. apply filter_In. split; [exact Hm'|].
      rewrite Hrole'. reflexivity.
Qed.

(** X3.  When the assistant messages of a session carry pairwise distinct
    ids, the tabs [buildVizTabs] builds carry pairwise distinct ids. *)
Theorem buildVizTabs_ids_unique (messages : list Message) :
  NoDup (map id (filter (fun m => Role_eqb (role m) assistant) messages)) ->
  NoDup (map tab_id (buildVizTabs messages)).
Proof.
  intros Hids. rewrite buildVizTabs_described.
  apply sessionTabs_ids_unique. exact Hids.
Qed.

End UniqueTabs.

(** X3 at a session with a greeting and two chart answers. *)
Lemma buildVizTabs_ids_unique_witness :
  NoDup (map Workspace.tab_id
           (Workspace.buildVizTabs
              [Examples.greeting; Examples.chartAnswer "m-2";
               Examples.chartAnswer "m-3"])).
Proof.
  apply buildVizTabs_ids_unique. simpl.
  repeat constructor; simpl; intuition discriminate.
Defined.

(** ** Selecting a tab *)
Section SelectTab.
Import Api Workspace Described Store.

Lemma findIndex_from_none {A : Type} (p : A -> bool) (xs : list A) (i : Z) :
  Forall (fun x => p x = false) xs -> findIndex_from p i xs = (-1)%Z.
Proof.
  intros Hall. revert i. induction Hall as [|x xs Hx _ IH]; intros i; simpl.
  - reflexivity.
  - rewrite Hx. apply IH.
Qed.

Lemma findIndex_from_first {A : Type} (p : A -> bool)
    (pre post : list A) (x : A) (i : Z) :
  Forall (fun y => p y = false) pre -> p x = true ->
  findIndex_from p i (pre ++ x :: post) = (i + Z.of_nat (List.length pre))%Z.
Proof.
  intros Hpre Hx. revert i.
  induction Hpre as [|y pre Hy _ IH]; intros i; simpl.
  - rewrite Hx. lia.
  - rewrite Hy, IH. lia.
Qed.

(** A list with a match splits at its first match. *)
Lemma first_match {A : Type} (p : A -> bool) (xs : list A) (a : A) :
  In a xs -> p a = true ->
  exists pre x post,
    xs = pre ++ x :: post
    /\ Forall (fun y => p y = false) pre /\ p x = true.
Proof.
  induction xs as [|y xs IH]; intros Hin Ha; [contradiction|].
  destruct (p y) eqn:Hy.
  - exists [], y, xs. repeat split; [constructor | exact Hy].
  - destruct Hin as [-> | Hin]; [rewrite Ha in Hy; discriminate Hy|].
    destruct (IH Hin Ha) as (pre & x & post & -> & Hpre & Hx).
    exists (y :: pre), x, post. repeat split; [constructor|]; assumption.
Qed.

(** The state in which the tab [t], at position [i], is shown. *)
Local Abbreviation showing i t st :=
  (set_activeTab viz
     (set_core
        (set_currentVisualization (Some (spec t))
           (set_activeVizTabIndex (Some i) (core st)))
        st)).

(** [setActiveVizTab] ignores an index outside the tab list and shows the
    tab at an index inside it. *)
Lemma setActiveVizTab_bounds (index : Z) (st : State) :
  ((index < 0 \/ Z.of_nat (List.length (visualizationTabs (core st))) <= index)%Z ->
   setActiveVizTab index st = st)
  /\ (forall (i : nat) (t : ChartTab),
        index = Z.of_nat i ->
        nth_error (visualizationTabs (core st)) i = Some t ->
        setActiveVizTab index st = showing i t st).
Proof.
  unfold setActiveVizTab. split.
  - intros Hout.
    destruct ((0 <=? index)%Z && (index <? _)%Z) eqn:Hin; [|reflexivity].
    apply andb_true_iff in Hin. destruct Hin as [H0 Hlen].
    apply Z.leb_le in H0. apply Z.ltb_lt in Hlen. lia.
  - intros i t -> Hnth.
    assert (Hlt : i < List.length (visualizationTabs (core st)))
      by (apply nth_error_Some; rewrite Hnth; discriminate).
    replace ((0 <=? Z.of_nat i)%Z
             && (Z.of_nat i <? Z.of_nat (List.length (visualizationTabs (core st))))%Z)
      with true.
    + rewrite Nat2Z.id, Hnth. reflexivity.
    + symmetry. apply andb_true_iff. split.
      * apply Z.leb_le. lia.
      * apply Z.ltb_lt. lia.
Qed.

Lemma selectVizByTabId_unknown (tabId : string) (st : State) :
  Forall (fun t => tab_id t <> tabId) (visualizationTabs (core st)) ->
  selectVizByTabId tabId st = st.
Proof.
  unfold selectVizByTabId, findIndex.
  intros Hnone. rewrite findIndex_from_none; [reflexivity|].
  eapply Forall_impl; [|exact Hnone]. intros t Ht.
  apply String.eqb_neq. exact Ht.
Qed.

Lemma selectVizByTabId_at_first (tabId : string) (st : State)
    (pre post : list ChartTab) (t : ChartTab) :
  visualizationTabs (core st) = pre ++ t :: post ->
  Forall (fun t' => tab_id t' <> tabId) pre ->
  tab_id t = tabId ->
  selectVizByTabId tabId st = showing (List.length pre) t st.
Proof.
  unfold selectVizByTabId, findIndex.
  intros Htabs Hpre Ht. rewrite Htabs.
  rewrite findIndex_from_first.
  - replace (negb (0 + Z.of_nat (List.length pre) =? -1)%Z) with true
      by (symmetry; apply negb_true_iff, Z.eqb_neq; lia).
    apply (proj2 (setActiveVizTab_bounds _ st)).
    + lia.
    + rewrite Htabs, nth_error_app2 by apply le_n.
      rewrite Nat.sub_diag. reflexivity.
  - eapply Forall_impl; [|exact Hpre]. intros t' Ht'.
    apply String.eqb_neq. exact Ht'.
  - apply String.eqb_eq. exact Ht.
Qed.

(** X2.  [selectVizByTabId] leaves the store exactly as it is when no tab
    carries the id, and otherwise shows the first tab that carries it: that
    tab's index becomes active, its spec becomes the current visualization
    and the panel switches to the viz tab. *)
Theorem selectVizByTabId_first_match (tabId : string) (st : State) :
  (Forall (fun t => tab_id t <> tabId) (visualizationTabs (core st)) ->
   selectVizByTabId tabId st = st)
  /\ (forall (pre post : list ChartTab) (t : ChartTab),
        visualizationTabs (core st) = pre ++ t :: post ->
        Forall (fun t' => tab_id t' <> tabId) pre ->
        tab_id t = tabId ->
        selectVizByTabId tabId st = showing (List.length pre) t st).
Proof.
  split.
  - apply selectVizByTabId_unknown.
  - intros pre post t. apply selectVizByTabId_at_first.
Qed.

Lemma nth_error_mapi_from {A B : Type} (f : A -> nat -> B) (xs : list A)
    (i k : nat) (x : A) :
  nth_error xs k = Some x -> In (f x (i + k)) (mapi_from f i xs).
Proof.
  revert i k. induction xs as [|y xs IH]; intros i [|k] Hnth; simpl in *;
    try discriminate Hnth.
  - inversion Hnth. rewrite Nat.add_0_r. left. reflexivity.
  - right. rewrite <- Nat.add_succ_comm. apply IH. exact Hnth.
Qed.

Lemma NoDup_map_eq {A B : Type} (f : A -> B) (l : list A) (a b : A) :
  NoDup (map f l) -> In a l -> In b l -> f a = f b -> a = b.
Proof.
  induction l as [|x l IH]; intros Hnd Ha Hb Heq; [contradiction|].
  simpl in Hnd. inversion Hnd as [|? ? Hnotin Hnd']; subst.
  destruct Ha as [-> | Ha], Hb as [-> | Hb].
  - reflexivity.
  - exfalso. apply Hnotin. rewrite Heq. apply in_map. exact Hb.
  - exfalso. apply Hnotin. rewrite <- Heq. apply in_map. exact Ha.
  - apply IH; assumption.
Qed.

(** Clicking a known tab id, when ids are unique, shows that very tab. *)
Lemma select_known_tab (st : State) (t : ChartTab) :
  NoDup (map tab_id (visualizationTabs (core st))) ->
  In t (visualizationTabs (core st)) ->
  exists j : nat,
    nth_error (visualizationTabs (core st)) j = Some t
    /\ selectVizByTabId (tab_id t) st = showing j t st.
Proof.
  intros Hnd Hin.
  destruct (first_match (fun t' => String.eqb (tab_id t') (tab_id t))
              _ t Hin (String.eqb_refl _))
    as (pre & t' & post & Htabs & Hpre & Ht').
  apply String.eqb_eq in Ht'.
  assert (t' = t).
  { apply (NoDup_map_eq tab_id (visualizationTabs (core st))); auto.
    rewrite Htabs. apply in_or_app. right. left. reflexivity. }
  subst t'. exists (List.length pre). split.
  - rewrite Htabs, nth_error_app2 by apply le_n.
    rewrite Nat.sub_diag. reflexivity.
  - apply (selectVizByTabId_at_first (tab_id t) st pre post t Htabs);
      [|reflexivity].
    eapply Forall_impl; [|exact Hpre]. intros x Hx.
    apply String.eqb_neq. exact Hx.
Qed.

End SelectTab.

(** X2 at a loaded session with charts [m-2] and [m-3]: the badge id of the
    second one selects index 1, an unknown id changes nothing. *)
Lemma selectVizByTabId_first_match_witness :
  Store.selectVizByTabId "no-such-tab"
    (Samples.loaded [Examples.chartAnswer "m-2"; Examples.chartAnswer "m-3"])
  = Samples.loaded [Examples.chartAnswer "m-2"; Examples.chartAnswer "m-3"]
  /\ Workspace.activeVizTabIndex
       (Store.core
          (Store.selectVizByTabId "m-2-chart-0"
             (Samples.loaded
                [Examples.chartAnswer "m-2"; Examples.chartAnswer "m-3"])))
     = Some 0.
Proof.
  split.
  - apply (proj1 (selectVizByTabId_first_match "no-such-tab" _)).
    repeat constructor; discriminate.
  - rewrite (proj2 (selectVizByTabId_first_match "m-2-chart-0"
                      (Samples.loaded [Examples.chartAnswer "m-2";
                                       Examples.chartAnswer "m-3"]))
               [] _ _ eq_refl (Forall_nil _) eq_refl).
    reflexivity.
Defined.

(** ** From a badge in the chat to the tab it names *)
Section Badges.
Import Api Workspace Described Store.

Variables (st : State) (messages : list Message) (m : Message) (i : nat).

Hypothesis Htabs : visualizationTabs (core st) = buildVizTabs messages.
Hypothesis Hids :
  NoDup (map id (filter (fun m => Role_eqb (role m) assistant) messages)).
Hypothesis Hin : In m messages.
Hypothesis Hrole : role m = assistant.

Lemma tabs_ids_unique : NoDup (map tab_id (visualizationTabs (core st))).
Proof.
  rewrite Htabs, buildVizTabs_described.
  apply sessionTabs_ids_unique. exact Hids.
Qed.

Lemma tab_of_message (t : ChartTab) :
  In t (messageTabs m) -> In t (visualizationTabs (core st)).
Proof.
  intros Ht. rewrite Htabs, buildVizTabs_described.
  apply in_flat_map. exists m. split; assumption.
Qed.

Lemma badge_shows (t : ChartTab) :
  In t (messageTabs m) ->
  let st' := WorkspacePage.handleViewVisualization (tab_id t) st in
  currentVisualization (core st') = Some (spec t)
  /\ activeTab st' = viz
  /\ exists j : nat,
       activeVizTabIndex (core st') = Some j
       /\ nth_error (visualizationTabs (core st')) j = Some t.
Proof.
  intros Ht. cbv zeta. unfold WorkspacePage.handleViewVisualization.
  destruct (select_known_tab st t tabs_ids_unique (tab_of_message t Ht))
    as (j & Hnth & ->).
  repeat split. exists j. split; [reflexivity | exact Hnth].
Qed.

(** X4.  In a store whose tabs are [buildVizTabs] of a message list whose
    assistant messages carry distinct ids, clicking the [i]-th chart badge
    (or graph badge) of an assistant message of that list shows exactly that
    chart (or graph): it becomes the current visualization, the active index
    points at its tab, and the panel switches to the viz tab. *)
Theorem badge_opens_its_visualization :
  (forall (cs : list ChartSpec) (c : ChartSpec),
      charts m = Some cs -> nth_error cs i = Some c ->
      let st' :=
        WorkspacePage.handleViewVisualization (ChatMessage.chartBadge m i) st in
      currentVisualization (core st') = Some (VChart c)
      /\ activeTab st' = viz
      /\ exists j : nat,
           activeVizTabIndex (core st') = Some j
           /\ option_map tab_id (nth_error (visualizationTabs (core st')) j)
              = Some (ChatMessage.chartBadge m i))
  /\ (forall (gs : list GraphSpec) (g : GraphSpec),
        graphs m = Some gs -> nth_error gs i = Some g ->
        let st' :=
          WorkspacePage.handleViewVisualization (ChatMessage.graphBadge m i) st in
        currentVisualization (core st') = Some (VGraph g)
        /\ activeTab st' = viz
        /\ exists j : nat,
             activeVizTabIndex (core st') = Some j
             /\ option_map tab_id (nth_error (visualizationTabs (core st')) j)
                = Some (ChatMessage.graphBadge m i)).
Proof.
  split.
  - intros cs c Hcs Hc.
    assert (Ht : In (chartTab (id m) c i) (messageTabs m)).
    { unfold messageTabs. rewrite Hrole, Hcs. apply in_or_app. left.
      apply (nth_error_mapi_from (chartTab (id m)) cs 0 i c Hc). }
    destruct (badge_shows _ Ht) as (Hviz & Htab & j & Hj & Hnth).
    change (ChatMessage.chartBadge m i) with (tab_id (chartTab (id m) c i)).
    repeat split; try assumption.
    exists j. split; [exact Hj|]. rewrite Hnth. reflexivity.
  - intros gs g Hgs Hg.
    assert (Ht : In (graphTab (id m) g i) (messageTabs m)).
    { unfold messageTabs. rewrite Hrole, Hgs. apply in_or_app. right.
      apply (nth_error_mapi_from (graphTab (id m)) gs 0 i g Hg). }
    destruct (badge_shows _ Ht) as (Hviz & Htab & j & Hj & Hnth).
    change (ChatMessage.graphBadge m i) with (tab_id (graphTab (id m) g i)).
    repeat split; try assumption.
    exists j. split; [exact Hj|]. rewrite Hnth. reflexivity.
Qed.

End Badges.

(** X4 at the second chart of the answer [m-3], in a session where the
    answer [m-2] comes first. *)
Lemma badge_opens_its_visualization_witness :
  Workspace.currentVisualization
    (Store.core
       (WorkspacePage.handleViewVisualization
          (ChatMessage.chartBadge (Samples.richAnswer "m-3") 1)
          (Samples.loaded [Examples.chartAnswer "m-2";
                           Samples.richAnswer "m-3"])))
  = Some (Api.VChart Examples.salesChart).
Proof.
  destruct (badge_opens_its_visualization
              (Samples.loaded [Examples.chartAnswer "m-2";
                               Samples.richAnswer "m-3"])
              [Examples.chartAnswer "m-2"; Samples.richAnswer "m-3"]
              (Samples.richAnswer "m-3") 1)
    as [Hchart _].
  - reflexivity.
  - simpl. repeat constructor; simpl; intuition discriminate.
  - right. left. reflexivity.
  - reflexivity.
  - exact (proj1 (Hchart _ Examples.salesChart eq_refl eq_refl)).
Defined.

(** ** Invariants of every run of the store *)
Section Runs.
Import Api Workspace Store Trace.

Lemma nonEmpty_length {A : Type} (xs : list A) :
  nonEmpty xs = true -> List.length xs - 1 < List.length xs.
Proof.
  unfold nonEmpty. intros H. apply Nat.ltb_lt in H. lia.
Qed.

Lemma nonEmpty_nil {A : Type} (xs : list A) : nonEmpty xs = false -> xs = [].
Proof. destruct xs; [reflexivity | discriminate]. Qed.

(** An action that touches neither the tabs nor the active index keeps the
    index in range. *)
Lemma activeIndexInRange_same (st st' : State) :
  visualizationTabs (core st') = visualizationTabs (core st) ->
  activeVizTabIndex (core st') = activeVizTabIndex (core st) ->
  activeIndexInRange st -> activeIndexInRange st'.
Proof.
  unfold activeIndexInRange. intros -> ->. exact (fun H => H).
Qed.

Lemma loadSession_activeIndexInRange getSession id (st : State) :
  activeIndexInRange st -> activeIndexInRange (Store.loadSession getSession id st).
Proof.
  unfold activeIndexInRange, Store.loadSession, Workspace.loadSession.
  destruct (getSession id) as [s | e]; simpl; [intros _ | exact (fun H => H)].
  destruct (nonEmpty (buildVizTabs (messages s))) eqn:Hne.
  - apply nonEmpty_length. exact Hne.
  - apply nonEmpty_nil. exact Hne.
Qed.

Lemma sendMessage_activeIndexInRange fetch selectedModel clk content (st : State) :
  activeIndexInRange st ->
  activeIndexInRange (Store.sendMessage fetch selectedModel clk content st).
Proof.
  unfold activeIndexInRange, Store.sendMessage, Workspace.sendMessage.
  destruct (session (core st)) as [s|]; [|exact (fun H => H)].
  destruct (Api.sendMessage _ _ _ _) as [resp | e]; simpl;
    [intros _ | exact (fun H => H)].
  match goal with
  | |- match (if nonEmpty ?tabs then _ else _) with _ => _ end =>
      destruct (nonEmpty tabs) eqn:Hne;
      [apply nonEmpty_length | apply nonEmpty_nil]; exact Hne
  end.
Qed.

Lemma setActiveVizTab_activeIndexInRange index (st : State) :
  activeIndexInRange st -> activeIndexInRange (setActiveVizTab index st).
Proof.
  unfold setActiveVizTab.
  destruct ((0 <=? index)%Z && (index <? _)%Z) eqn:Hin; [|exact (fun H => H)].
  destruct (nth_error _ (Z.to_nat index)) as [t|] eqn:Hnth; [|exact (fun H => H)].
  intros _. unfold activeIndexInRange. simpl.
  apply nth_error_Some. rewrite Hnth. discriminate.
Qed.

Lemma perform_activeIndexInRange (a : Action) (st : State) :
  activeIndexInRange st -> activeIndexInRange (perform a st).
Proof.
  destruct a; simpl.
  - apply loadSession_activeIndexInRange.
  - apply sendMessage_activeIndexInRange.
  - apply setActiveVizTab_activeIndexInRange.
  - unfold selectVizByTabId. destruct (negb _); [|exact (fun H => H)].
    apply setActiveVizTab_activeIndexInRange.
  - apply activeIndexInRange_same; reflexivity.
  - apply activeIndexInRange_same; reflexivity.
  - apply activeIndexInRange_same; reflexivity.
  - intros _. reflexivity.
  - apply activeIndexInRange_same; reflexivity.
  - apply activeIndexInRange_same; unfold uploadCSV;
      destruct (session (core st)); try reflexivity;
      destruct (uploadDataset _ _ _ _); try reflexivity;
      destruct (attachDatasetToSession _ _ _); try reflexivity;
      destruct (listSessionDatasets _ _); try reflexivity;
      destruct (buildUploadSummary _ _ _); reflexivity.
  - destruct (applyInteractResult vizId result st) as [st'|] eqn:Happly;
      [|exact (fun H => H)].
    apply activeIndexInRange_same;
      unfold applyInteractResult in Happly;
      destruct (isChartOverlay result); try (inversion Happly; reflexivity);
      destruct result; try (inversion Happly; reflexivity);
      destruct (member _ _); inversion Happly; reflexivity.
  - apply activeIndexInRange_same; reflexivity.
Qed.

Lemma run_snoc (actions : list Action) (a : Action) :
  run (actions ++ [a]) = perform a (run actions).
Proof. unfold run. rewrite fold_left_app. reflexivity. Qed.

(** X1.  After every run of completed store actions from the initial state,
    the active tab index is null exactly when there is no tab, and otherwise
    points at a tab of the list. *)
Theorem run_keeps_active_index_in_range (actions : list Action) :
  activeIndexInRange (run actions)
  /\ (activeVizTabIndex (core (run actions)) = None <->
      visualizationTabs (core (run actions)) = []).
Proof.
  assert (Hrange : activeIndexInRange (run actions)).
  { induction actions as [|a actions IH] using rev_ind.
    - reflexivity.
    - rewrite run_snoc. apply perform_activeIndexInRange. exact IH. }
  split; [exact Hrange|].
  unfold activeIndexInRange in Hrange.
  destruct (activeVizTabIndex (core (run actions))) as [i|].
  - split; [discriminate|]. intros Hnil. rewrite Hnil in Hrange.
    simpl in Hrange. lia.
  - split; [intros _; exact Hrange | reflexivity].
Qed.

Lemma perform_idle (a : Action) (st : State) : idle st -> idle (perform a st).
Proof.
  unfold idle. intros (Hsend & Hstart & Hload & Hup).
  assert (Hsame : forall st' : State,
             isSending (core st') = isSending (core st) ->
             sendStartedAt (core st') = sendStartedAt (core st) ->
             isLoading (core st') = isLoading (core st) ->
             isUploading st' = isUploading st ->
             isSending (core st') = false /\ sendStartedAt (core st') = None
             /\ isLoading (core st') = false /\ isUploading st' = false).
  { intros st' -> -> -> ->. repeat split; assumption. }
  destruct a; simpl.
  - unfold Workspace.loadSession. destruct (getSession _);
      repeat split; assumption.
  - unfold Workspace.sendMessage. destruct (session (core st));
      [|repeat split; assumption].
    destruct (Api.sendMessage _ _ _ _); repeat split; assumption.
  - unfold setActiveVizTab. destruct (_ && _); [|repeat split; assumption].
    destruct (nth_error _ _); repeat split; assumption.
  - unfold selectVizByTabId, setActiveVizTab.
    destruct (negb _); [|repeat split; assumption].
    destruct (_ && _); [|repeat split; assumption].
    destruct (nth_error _ _); repeat split; assumption.
  - apply Hsame; reflexivity.
  - apply Hsame; reflexivity.
  - apply Hsame; reflexivity.
  - repeat split; reflexivity.
  - apply Hsame; reflexivity.
  - unfold uploadCSV. destruct (session (core st)); [|repeat split; assumption].
    destruct (uploadDataset _ _ _ _); [|repeat split; assumption].
    destruct (attachDatasetToSession _ _ _); [|repeat split; assumption].
    destruct (listSessionDatasets _ _); [|repeat split; assumption].
    destruct (buildUploadSummary _ _ _). repeat split; assumption.
  - destruct (applyInteractResult vizId result st) as [st'|] eqn:Happly;
      [|repeat split; assumption].
    apply Hsame;
      unfold applyInteractResult in Happly;
      destruct (isChartOverlay result);
      try (inversion Happly; reflexivity);
      destruct result; try (inversion Happly; reflexivity);
      destruct (member _ _); inversion Happly; reflexivity.
  - apply Hsame; reflexivity.
Qed.

(** X5.  After every run of completed store actions no progress flag is left
    raised: [isSending] and [isLoading] are false, [sendStartedAt] is null
    and [isUploading] is false, whatever the requests settled to. *)
Theorem run_ends_idle (actions : list Action) : idle (run actions).
Proof.
  induction actions as [|a actions IH] using rev_ind.
  - repeat split.
  - rewrite run_snoc. apply perform_idle. exact IH.
Qed.

End Runs.

(** ** What a turn does to the visualization panel *)
Section TurnView.
Import Api Workspace Described.

Lemma length_mapi_from {A B : Type} (f : A -> nat -> B) (xs : list A) (i : nat) :
  List.length (mapi_from f i xs) = List.length xs.
Proof.
  revert i. induction xs as [|x xs IH]; intros i; simpl.
  - reflexivity.
  - rewrite IH. reflexivity.
Qed.

Lemma chartType_is_not_network (t : ChartType) :
  String.eqb (chartType_name t) "network" = false.
Proof. destruct t; reflexivity. Qed.

(** Every visualization of a response is either a chart or a graph of the
    assistant message, never both and never dropped. *)
Lemma filter_charts_graphs_length (vs : list Visualization) :
  List.length (filter_charts vs) + List.length (filter_graphs vs)
  = List.length vs.
Proof.
  unfold filter_charts, filter_graphs.
  induction vs as [|v vs IH]; simpl.
  - reflexivity.
  - destruct v as [c | g]; simpl.
    + rewrite chartType_is_not_network. simpl. rewrite IH. reflexivity.
    + rewrite <- IH. rewrite Nat.add_succ_r. reflexivity.
Qed.

Lemma in_filter_charts (vs : list Visualization) (c : ChartSpec) :
  In (VChart c) vs -> In c (filter_charts vs).
Proof.
  unfold filter_charts. intros Hin. apply in_flat_map.
  exists (VChart c). split; [exact Hin|]. simpl.
  rewrite chartType_is_not_network. left. reflexivity.
Qed.

Lemma in_filter_graphs (vs : list Visualization) (g : GraphSpec) :
  In (VGraph g) vs -> In g (filter_graphs vs).
Proof.
  unfold filter_graphs. intros Hin. apply in_flat_map.
  exists (VGraph g). split; [exact Hin|]. left. reflexivity.
Qed.

Lemma in_mapi_from {A B : Type} (f : A -> nat -> B) (xs : list A) (x : A) :
  In x xs -> forall i, exists k, In (f x k) (mapi_from f i xs).
Proof.
  induction xs as [|y xs IH]; intros Hin i; [contradiction|].
  destruct Hin as [-> | Hin].
  - exists i. left. reflexivity.
  - destruct (IH Hin (S i)) as [k Hk]. exists k. right. exact Hk.
Qed.

Lemma lengthOrZero_nonEmptyOrUndefined {A : Type} (xs : list A) :
  ChatMessage.lengthOrZero (nonEmptyOrUndefined xs) = List.length xs.
Proof. destruct xs; reflexivity. Qed.

Lemma last_elem_nonEmpty {A : Type} (xs : list A) :
  nonEmpty xs = true -> exists x, last_elem xs = Some x.
Proof.
  destruct xs as [|y ys]; [discriminate|]. intros _.
  destruct (exists_last (l := y :: ys)) as (init & x & ->); [discriminate|].
  exists x. apply last_elem_snoc.
Qed.

Lemma resolved_activeVizTabIndex s clk question resp st :
  activeVizTabIndex (sendMessage_resolved s clk question resp st) =
  if nonEmpty (visualizationTabs (sendMessage_resolved s clk question resp st))
  then Some (List.length
               (visualizationTabs (sendMessage_resolved s clk question resp st))
             - 1)
  else None.
Proof. reflexivity. Qed.

Lemma resolved_currentVisualization s clk question resp st :
  currentVisualization (sendMessage_resolved s clk question resp st) =
  if nonEmpty (visualizationTabs (sendMessage_resolved s clk question resp st))
  then option_map spec
         (last_elem
            (visualizationTabs (sendMessage_resolved s clk question resp st)))
  else currentVisualization st.
Proof.
  unfold sendMessage_resolved, last_elem. simpl.
  match goal with
  | |- context [nonEmpty ?tabs] => destruct (nonEmpty tabs)
  end; reflexivity.
Qed.

Variables (fetch : Fetch) (selectedModel : string) (clk : SendClock).
Variables (question : string) (st0 : WorkspaceState) (s : Session).

Hypothesis Hsession : session st0 = Some s.

Local Abbreviation request_outcome :=
  (Api.sendMessage fetch (s_id s) question (modelArgument selectedModel)).

Local Abbreviation after_send :=
  (Workspace.sendMessage fetch selectedModel clk question st0).

(** X6.  A successful turn appends exactly one tab per visualization of the
    response, after the tabs that were there; every visualization of the
    response is the spec of one of the new tabs; the chat bubble of the new
    assistant message offers badges exactly when the response brought a
    visualization; and when there is any tab afterwards, the last one is
    active and shown, while with no tab the shown visualization stays. *)
Theorem sendMessage_one_tab_per_visualization (resp : ChatResponse) :
  request_outcome = Returned resp ->
  exists newTabs : list ChartTab,
    visualizationTabs after_send = visualizationTabs st0 ++ newTabs
    /\ List.length newTabs = List.length (visualizations resp)
    /\ (forall v, In v (visualizations resp) ->
                  exists t, In t newTabs /\ spec t = v)
    /\ ChatMessage.hasViz (assistantMessage clk resp)
       = nonEmpty (visualizations resp)
    /\ (if nonEmpty (visualizationTabs after_send) then
          activeVizTabIndex after_send
            = Some (List.length (visualizationTabs after_send) - 1)
          /\ exists t, last_elem (visualizationTabs after_send) = Some t
                       /\ currentVisualization after_send = Some (spec t)
        else
          activeVizTabIndex after_send = None
          /\ currentVisualization after_send = currentVisualization st0).
Proof.
  intros Hsent.
  rewrite (sendMessage_on_response _ _ _ _ _ _ Hsession _ Hsent).
  eexists. split; [reflexivity|]. split; [|split; [|split]].
  - rewrite length_app. unfold mapi. rewrite !length_mapi_from.
    apply filter_charts_graphs_length.
  - intros [c | g] Hin.
    + destruct (in_mapi_from
                  (fun chart i =>
                     {| tab_id := (messageId resp ++ "-chart-" ++ show_nat i)%string;
                        title := or_else (chart_title chart)
                                   ("Chart " ++ show_nat (i + 1))%string;
                        vizType := Workspace.chart;
                        spec := VChart chart |})
                  _ c (in_filter_charts _ _ Hin) 0) as [k Hk].
      eexists. split; [apply in_or_app; left; exact Hk | reflexivity].
    + destruct (in_mapi_from
                  (fun graph i =>
                     {| tab_id := (messageId resp ++ "-graph-" ++ show_nat i)%string;
                        title := or_else (graph_title graph)
                                   ("Graph " ++ show_nat (i + 1))%string;
                        vizType := Workspace.graph;
                        spec := VGraph graph |})
                  _ g (in_filter_graphs _ _ Hin) 0) as [k Hk].
      eexists. split; [apply in_or_app; right; exact Hk | reflexivity].
  - unfold ChatMessage.hasViz, assistantMessage. simpl.
    rewrite !lengthOrZero_nonEmptyOrUndefined, filter_charts_graphs_length.
    reflexivity.
  - rewrite resolved_activeVizTabIndex, resolved_currentVisualization.
    destruct (nonEmpty (visualizationTabs _)) eqn:Hne.
    + split; [reflexivity|].
      destruct (last_elem_nonEmpty _ Hne) as [t Ht].
      exists t. split; [exact Ht|]. rewrite Ht. reflexivity.
    + split; reflexivity.
Qed.


End TurnView.

(** X6 at a reply that brings a graph and a chart into a session with one
    earlier chart. *)
Lemma sendMessage_one_tab_per_visualization_witness :
  exists newTabs : list Workspace.ChartTab,
    Workspace.visualizationTabs
      (Workspace.sendMessage
         (Examples.answering
            (Examples.reply "m-2"
               [Api.VGraph Examples.teamGraph; Api.VChart Examples.salesChart]
               [] None))
         "" (Examples.clock 5) "Show me the team"
         (Examples.loaded [Examples.chartAnswer "m-1"]))
    = Workspace.visualizationTabs (Examples.loaded [Examples.chartAnswer "m-1"])
      ++ newTabs
    /\ List.length newTabs = 2.
Proof.
  destruct (sendMessage_one_tab_per_visualization
              (Examples.answering
                 (Examples.reply "m-2"
                    [Api.VGraph Examples.teamGraph;
                     Api.VChart Examples.salesChart] [] None))
              "" (Examples.clock 5) "Show me the team"
              (Examples.loaded [Examples.chartAnswer "m-1"])
              (Examples.session_of [Examples.chartAnswer "m-1"]) eq_refl
              _ eq_refl)
    as (newTabs & Htabs & Hlen & _).
  exists newTabs. split; [exact Htabs | exact Hlen].
Defined.


(** ** The query result: incremental update against reload *)
Section TurnQuery.
Import Api Workspace Described.

Lemma filter_snoc {A : Type} (keep : A -> bool) (l : list A) (x : A) :
  filter keep (l ++ [x]) = filter keep l ++ (if keep x then [x] else []).
Proof. rewrite filter_app. reflexivity. Qed.

(** Dropping messages that are not assistant messages changes no query
    result. *)
Lemma findLastQueryResult_filter (keep : Message -> bool)
    (messages : list Message) :
  (forall m, In m messages -> role m = assistant -> keep m = true) ->
  findLastQueryResult (filter keep messages) = findLastQueryResult messages.
Proof.
  induction messages as [|m ms IH] using rev_ind; intros Hkeep.
  - reflexivity.
  - assert (IH' : findLastQueryResult (filter keep ms) = findLastQueryResult ms).
    { apply IH. intros m' Hin. apply Hkeep. apply in_or_app. left. exact Hin. }
    rewrite filter_snoc. destruct (keep m) eqn:Hm.
    + rewrite !findLastQueryResult_snoc, IH'. reflexivity.
    + rewrite app_nil_r, IH'. symmetry. apply findLastQueryResult_skip.
      unfold carriesQueryResults. destruct (role m) eqn:Hrole; try reflexivity.
      rewrite (Hkeep m) in Hm; [discriminate Hm | | exact Hrole].
      apply in_or_app. right. left. reflexivity.
Qed.

Variables (clk : SendClock) (question : string) (s : Session).

(** X8.  Let [s] be the session a call of [sendMessage] read at its start,
    with no assistant message that carries the temporary id of the call.  If
    [currentQueryResult], at the moment the response arrives, is
    [findLastQueryResult] of the messages of [s], then after the call it is
    [findLastQueryResult] of the updated messages, so [loadSession] on the
    updated session shows the same result; and the data view is switched to
    the query view exactly when there is a result to show.  This is the case
    for a call that runs with no other action in between, from a store whose
    [currentQueryResult] is [findLastQueryResult] of its messages (as
    [loadSession] leaves it). *)
Theorem sendMessage_query_result_matches_reload (resp : ChatResponse) :
  (forall m, In m (messages s) -> role m = assistant ->
             id m <> temp_id (tempNow clk)) ->
  (forall st1 : WorkspaceState,
      currentQueryResult st1 = findLastQueryResult (messages s) ->
      let after := sendMessage_resolved s clk question resp st1 in
      currentQueryResult after = findLastQueryResult (shownMessages after)
      /\ activeDataView after
         = match currentQueryResult after with
           | Some _ => query
           | None => activeDataView st1
           end
      /\ forall (getSession : string -> Completion Session) (sid : string)
                (st : WorkspaceState) (stored : Session),
           session after = Some stored ->
           getSession sid = Returned stored ->
           currentQueryResult (loadSession getSession sid st)
           = currentQueryResult after)
  /\ (forall (fetch : Fetch) (selectedModel : string) (st0 : WorkspaceState),
        session st0 = Some s ->
        currentQueryResult st0 = findLastQueryResult (messages s) ->
        Api.sendMessage fetch (s_id s) question (modelArgument selectedModel)
          = Returned resp ->
        let after := Workspace.sendMessage fetch selectedModel clk question st0 in
        currentQueryResult after = findLastQueryResult (shownMessages after)
        /\ activeDataView after
           = match currentQueryResult after with
             | Some _ => query
             | None => activeDataView st0
             end).
Proof.
  intros Hfresh.
  assert (Hgeneral : forall st1 : WorkspaceState,
             currentQueryResult st1 = findLastQueryResult (messages s) ->
             currentQueryResult (sendMessage_resolved s clk question resp st1)
             = findLastQueryResult
                 (shownMessages (sendMessage_resolved s clk question resp st1))
             /\ activeDataView (sendMessage_resolved s clk question resp st1)
                = match currentQueryResult
                          (sendMessage_resolved s clk question resp st1) with
                  | Some _ => query
                  | None => activeDataView st1
                  end).
  { intros st1 Hquery.
    assert (Hkept : findLastQueryResult
                      (filter (fun m => negb (String.eqb (id m)
                                               (temp_id (tempNow clk))))
                         (messages s))
                    = currentQueryResult st1).
    { rewrite Hquery. apply findLastQueryResult_filter.
      intros m Hin Hrole. apply negb_true_iff, String.eqb_neq.
      apply Hfresh; assumption. }
    split.
    - rewrite sendMessage_resolved_messages.
      change (?kept ++ [?u; ?a]) with (kept ++ [u] ++ [a]).
      rewrite app_assoc, findLastQueryResult_snoc.
      rewrite findLastQueryResult_skip by reflexivity. rewrite Hkept.
      unfold sendMessage_resolved, assistantMessage. simpl.
      destruct (resp_queryResults resp) as [qrs|]; [|reflexivity].
      unfold nonEmptyOrUndefined.
      destruct (nonEmpty qrs) eqn:Hne; [|reflexivity].
      rewrite Hne.
      destruct (last_elem_nonEmpty _ Hne) as [lastResult ->]. reflexivity.
    - unfold sendMessage_resolved. simpl.
      destruct (resp_queryResults resp) as [qrs|]; [|reflexivity].
      destruct (nonEmpty qrs); [|reflexivity].
      destruct (last_elem qrs); reflexivity. }
  split.
  - intros st1 Hquery. cbv zeta.
    destruct (Hgeneral st1 Hquery) as [Hmatch Hview].
    split; [exact Hmatch|]. split; [exact Hview|].
    intros getSession sid st stored Hstored Hget.
    unfold loadSession. rewrite Hget.
    transitivity (findLastQueryResult (messages stored)); [reflexivity|].
    rewrite Hmatch. unfold shownMessages. rewrite Hstored. reflexivity.
  - intros fetch selectedModel st0 Hsession Hquery Hsent. cbv zeta.
    rewrite (sendMessage_on_response _ _ _ _ _ _ Hsession _ Hsent).
    exact (Hgeneral (sendMessage_pending s clk question st0) Hquery).
Qed.

End TurnQuery.

(** X8 at a loaded session with one query answer; the reply brings two
    results, of which the last is shown. *)
Lemma sendMessage_query_result_matches_reload_witness :
  let after :=
    Workspace.sendMessage
      (Examples.answering
         (Examples.reply "m-3" [] []
            (Some [Examples.countQuery; Examples.salesQuery])))
      "" (Examples.clock 5) "And by region?"
      (Examples.loaded [Examples.queryAnswer "m-2" [Examples.countQuery]]) in
  Workspace.currentQueryResult after
  = Workspace.findLastQueryResult (Workspace.shownMessages after)
  /\ Workspace.currentQueryResult after
     = Some {| Workspace.qv_data := Api.data Examples.salesQuery;
               Workspace.qv_columns := Api.columns Examples.salesQuery |}.
Proof.
  cbv zeta. split; [|reflexivity].
  destruct (sendMessage_query_result_matches_reload
              (Examples.clock 5) "And by region?"
              (Examples.session_of
                 [Examples.queryAnswer "m-2" [Examples.countQuery]])
              (Examples.reply "m-3" [] []
                 (Some [Examples.countQuery; Examples.salesQuery])))
    as [_ Hcall].
  - intros m [<- | []] _. discriminate.
  - exact (proj1 (Hcall (Examples.answering
                           (Examples.reply "m-3" [] []
                              (Some [Examples.countQuery; Examples.salesQuery])))
                        ""
                        (Examples.loaded
                           [Examples.queryAnswer "m-2" [Examples.countQuery]])
                        eq_refl eq_refl eq_refl)).
Defined.

(** ** Uploading a dataset *)
Section Upload.
Import Api Workspace Described Store.

Variables (api : UploadApi) (toLocaleString : Z -> string).
Variables (clk : UploadClock) (files : list File).
Variables (st0 : State) (s : Session).

Hypothesis Hsession : session (core st0) = Some s.

Local Abbreviation after_upload := (uploadCSV api toLocaleString clk files st0).


(** X10.  When any of the three requests of an upload throws, the session,
    its messages, the attached datasets, the active tab and the tabs stay as
    they were; the store records the error's message and lowers
    [isUploading]. *)
Theorem uploadCSV_failure_keeps_session (text : string) :
  (uploadDataset api files None (Some (s_id s)) = Threw (JsError text)
   \/ (exists dataset,
         uploadDataset api files None (Some (s_id s)) = Returned dataset
         /\ (attachDatasetToSession api (s_id s) (ds_id dataset)
               = Threw (JsError text)
             \/ (exists attached,
                   attachDatasetToSession api (s_id s) (ds_id dataset)
                     = Returned attached
                   /\ listSessionDatasets api (s_id s)
                        = Threw (JsError text))))) ->
  session (core (uploadCSV api toLocaleString clk files st0))
    = session (core st0)
  /\ sessionDatasets after_upload = sessionDatasets st0
  /\ activeTab after_upload = activeTab st0
  /\ visualizationTabs (core after_upload) = visualizationTabs (core st0)
  /\ Workspace.error (core after_upload) = Some text
  /\ isUploading after_upload = false.
Proof.
  unfold uploadCSV. rewrite Hsession.
  intros [Hupload | (dataset & Hupload & [Hattach | (attached & Hattach & Hlist)])];
    rewrite Hupload; try rewrite Hattach; try rewrite Hlist; repeat split;
    exact Hsession.
Qed.

End Upload.


(** X10 at an upload whose attach step fails. *)
Lemma uploadCSV_failure_keeps_session_witness :
  Workspace.session
    (Store.core
       (Store.uploadCSV Samples.attachFails show_Z Samples.uploadClock
          [ {| Store.file_name := "orders.csv" |} ]
          (Samples.loaded [Examples.greeting])))
  = Workspace.session (Store.core (Samples.loaded [Examples.greeting]))
  /\ Workspace.error
       (Store.core
          (Store.uploadCSV Samples.attachFails show_Z Samples.uploadClock
             [ {| Store.file_name := "orders.csv" |} ]
             (Samples.loaded [Examples.greeting])))
     = Some "Failed to attach dataset".
Proof.
  destruct (uploadCSV_failure_keeps_session
              Samples.attachFails show_Z Samples.uploadClock
              [ {| Store.file_name := "orders.csv" |} ]
              (Samples.loaded [Examples.greeting])
              (Examples.session_of [Examples.greeting]) eq_refl
              "Failed to attach dataset")
    as (Hsame & _ & _ & _ & Herr & _).
  - right. exists Samples.ordersDataset. split; [reflexivity|].
    left. reflexivity.
  - split; [exact Hsame | exact Herr].
Defined.

(** ** Interaction state *)
Section Interactions.
Import Api Workspace Store.

Lemma member_withProperty_same {V : Type} (obj : JsObject V) (key : string) (v : V) :
  member (withProperty obj key v) key = Own v.
Proof. unfold member, withProperty. rewrite String.eqb_refl. reflexivity. Qed.

Lemma member_withProperty_other {V : Type} (obj : JsObject V)
    (key other : string) (v : V) :
  other <> key -> member (withProperty obj key v) other = member obj other.
Proof.
  intros Hne. unfold member, withProperty.
  apply String.eqb_neq in Hne. rewrite Hne. reflexivity.
Qed.

Lemma member_withoutProperty_same {V : Type} (obj : JsObject V) (key : string) :
  member (withoutProperty obj key) key
  = if isInherited key then Inherited else Undefined.
Proof. unfold member, withoutProperty. rewrite String.eqb_refl. reflexivity. Qed.

Lemma member_withoutProperty_other {V : Type} (obj : JsObject V)
    (key other : string) :
  other <> key -> member (withoutProperty obj key) other = member obj other.
Proof.
  intros Hne. unfold member, withoutProperty.
  apply String.eqb_neq in Hne. rewrite Hne. reflexivity.
Qed.

(** X11.  Applying an interaction result and reading it back.  A result that
    is not a chart overlay is stored under its visualization id and is what
    [getInteractState] returns for that id afterwards.  A chart overlay is
    turned into an overlay with the result's [overlay_type], [axis], [value],
    [x1] and [x2] and no label, which is appended, in order, to the overlays
    [getChartOverlays] returned for that id before.  Either way every other
    id reads as before, the other of the two maps is the one it was, and so
    are the session state, the active tab, the upload flag and the attached
    datasets.  The one call that throws is a chart overlay for an id that
    names an inherited member of [Object.prototype] and holds no overlays of
    its own. *)
Theorem applyInteractResult_round_trip (vizId : string)
    (result : InteractResult) (st : State) :
  (isChartOverlay result = false ->
   exists st',
     applyInteractResult vizId result st = Returned st'
     /\ getInteractState vizId st' = Value (Some result)
     /\ (forall other, other <> vizId ->
           getInteractState other st' = getInteractState other st)
     /\ chartOverlays st' = chartOverlays st
     /\ (forall k, getChartOverlays k st' = getChartOverlays k st)
     /\ core st' = core st
     /\ activeTab st' = activeTab st
     /\ isUploading st' = isUploading st
     /\ sessionDatasets st' = sessionDatasets st)
  /\ (forall chartResult : ChartInteractResult,
        result = ChartResult chartResult ->
        c_type chartResult = chart_overlay ->
        forall overlays, getChartOverlays vizId st = Value overlays ->
        exists st',
          applyInteractResult vizId result st = Returned st'
          /\ getChartOverlays vizId st'
             = Value (overlays
                      ++ [ {| overlay_type := c_overlay_type chartResult;
                              axis := c_axis chartResult;
                              value := c_value chartResult;
                              x1 := c_x1 chartResult;
                              x2 := c_x2 chartResult;
                              label := None |} ])
          /\ (forall other, other <> vizId ->
                getChartOverlays other st' = getChartOverlays other st)
          /\ interactStates st' = interactStates st
          /\ (forall k, getInteractState k st' = getInteractState k st)
          /\ core st' = core st
          /\ activeTab st' = activeTab st
          /\ isUploading st' = isUploading st
          /\ sessionDatasets st' = sessionDatasets st)
  /\ (isChartOverlay result = true ->
      getChartOverlays vizId st = PrototypeMember ->
      exists e, applyInteractResult vizId result st = Threw e).
Proof.
  unfold applyInteractResult. split; [|split].
  - intros ->. eexists. split; [reflexivity|].
    split; [|split; [|repeat split]].
    + unfold getInteractState. simpl. rewrite member_withProperty_same.
      reflexivity.
    + intros other Hother. unfold getInteractState. simpl.
      rewrite member_withProperty_other by exact Hother. reflexivity.
  - intros chartResult -> Htype overlays Hread.
    unfold isChartOverlay. rewrite Htype.
    unfold getChartOverlays in Hread.
    destruct (member (chartOverlays st) vizId) as [own | | ] eqn:Hmember;
      inversion Hread; subst.
    + eexists. split; [reflexivity|]. split; [|split; [|repeat split]].
      * unfold getChartOverlays. simpl. rewrite member_withProperty_same.
        reflexivity.
      * intros other Hother. unfold getChartOverlays. simpl.
        rewrite member_withProperty_other by exact Hother. reflexivity.
    + eexists. split; [reflexivity|]. split; [|split; [|repeat split]].
      * unfold getChartOverlays. simpl. rewrite member_withProperty_same.
        reflexivity.
      * intros other Hother. unfold getChartOverlays. simpl.
        rewrite member_withProperty_other by exact Hother. reflexivity.
  - intros Hoverlay Hread. rewrite Hoverlay.
    destruct result as [g | c]; [discriminate Hoverlay|].
    unfold getChartOverlays in Hread.
    destruct (member (chartOverlays st) vizId); try discriminate Hread.
    eexists. reflexivity.
Qed.

(** X12.  [clearInteractState] forgets what was stored for one visualization
    and nothing else: afterwards that id reads as on a fresh store (no
    interaction result and no overlays, unless the id names an inherited
    member), every other id reads as before, and the session state, the
    active tab, the upload flag and the attached datasets are the ones they
    were; clearing undoes a preceding apply for every reader. *)
Theorem clearInteractState_forgets (vizId : string) (st : State) :
  getInteractState vizId (clearInteractState vizId st)
    = getInteractState vizId Store.initialState
  /\ getChartOverlays vizId (clearInteractState vizId st)
     = getChartOverlays vizId Store.initialState
  /\ (isInherited vizId = false ->
      getInteractState vizId (clearInteractState vizId st) = Value None
      /\ getChartOverlays vizId (clearInteractState vizId st) = Value [])
  /\ (forall other, other <> vizId ->
        interactStates (clearInteractState vizId st) other
          = interactStates st other
        /\ chartOverlays (clearInteractState vizId st) other
           = chartOverlays st other
        /\ getInteractState other (clearInteractState vizId st)
           = getInteractState other st
        /\ getChartOverlays other (clearInteractState vizId st)
           = getChartOverlays other st)
  /\ core (clearInteractState vizId st) = core st
  /\ activeTab (clearInteractState vizId st) = activeTab st
  /\ isUploading (clearInteractState vizId st) = isUploading st
  /\ sessionDatasets (clearInteractState vizId st) = sessionDatasets st
  /\ (forall result st' k,
        applyInteractResult vizId result st = Returned st' ->
        getInteractState k (clearInteractState vizId st')
          = getInteractState k (clearInteractState vizId st)
        /\ getChartOverlays k (clearInteractState vizId st')
           = getChartOverlays k (clearInteractState vizId st)).
Proof.
  unfold getInteractState, getChartOverlays, clearInteractState. simpl.
  rewrite !member_withoutProperty_same.
  split; [|split; [|split; [|split; [|split; [|split; [|split; [|split]]]]]]].
  - unfold member, emptyObject. reflexivity.
  - unfold member, emptyObject. reflexivity.
  - intros ->. split; reflexivity.
  - intros other Hother.
    rewrite !member_withoutProperty_other by exact Hother.
    unfold withoutProperty.
    apply String.eqb_neq in Hother. rewrite Hother. repeat split.
  - reflexivity.
  - reflexivity.
  - reflexivity.
  - reflexivity.
  - intros result st' k Happly. unfold applyInteractResult in Happly.
    assert (Hk : forall (V : Type) (obj : JsObject V) (v : V),
               member (withoutProperty (withProperty obj vizId v) vizId) k
               = member (withoutProperty obj vizId) k).
    { intros V obj v. unfold member, withoutProperty, withProperty.
      destruct (String.eqb k vizId); reflexivity. }
    destruct (isChartOverlay result).
    + destruct result as [g | c]; [inversion Happly; split; reflexivity|].
      destruct (member (chartOverlays st) vizId); inversion Happly; simpl;
        rewrite Hk; split; reflexivity.
    + inversion Happly. simpl. rewrite Hk. split; reflexivity.
Qed.

End Interactions.

(** X11 at a zoom followed by a reference line on the chart [m-2-chart-0]. *)
Lemma applyInteractResult_round_trip_witness :
  exists st1 st2,
    Store.applyInteractResult "m-2-chart-0" Samples.zoom Store.initialState
      = Api.Returned st1
    /\ Store.applyInteractResult "m-2-chart-0" Samples.referenceLine st1
       = Api.Returned st2
    /\ Store.getInteractState "m-2-chart-0" st2
       = Store.Value (Some Samples.zoom)
    /\ Store.getChartOverlays "m-2-chart-0" st2
       = Store.Value
           [ {| Store.overlay_type := Some "reference_line";
                Store.axis := Some Store.axis_y;
                Store.value := Some 100%Z;
                Store.x1 := None; Store.x2 := None;
                Store.label := None |} ].
Proof.
  destruct (proj1 (applyInteractResult_round_trip "m-2-chart-0" Samples.zoom
                     Store.initialState) eq_refl)
    as (st1 & Hst1 & Hread1 & _ & _ & Hoverlays1 & _).
  destruct (proj1 (proj2 (applyInteractResult_round_trip "m-2-chart-0"
                            Samples.referenceLine st1))
              _ eq_refl eq_refl [])
    as (st2 & Hst2 & Hread2 & _ & _ & Hstates2 & _).
  - rewrite Hoverlays1. reflexivity.
  - exists st1, st2. repeat split; try assumption.
    rewrite Hstates2. exact Hread1.
Defined.

(** X12 at a store holding a zoom for [m-2-chart-0]. *)
Lemma clearInteractState_forgets_witness :
  Store.getInteractState "m-2-chart-0"
    (Store.clearInteractState "m-2-chart-0"
       (Trace.perform (Trace.ApplyInteractResult "m-2-chart-0" Samples.zoom)
          Store.initialState))
  = Store.Value None.
Proof.
  destruct (clearInteractState_forgets "m-2-chart-0"
              (Trace.perform
                 (Trace.ApplyInteractResult "m-2-chart-0" Samples.zoom)
                 Store.initialState))
    as (_ & _ & Hfresh & _).
  exact (proj1 (Hfresh eq_refl)).
Defined.

(** ** Loading a session over HTTP *)
Section LoadOverHttp.
Import Api Workspace.

Variables (API_BASE_URL : string) (fetch : Http.Request -> Http.Settled Session).
Variables (sid : string) (st : WorkspaceState).

Local Abbreviation request :=
  {| Http.method := "GET";
     Http.url := (API_BASE_URL ++ "/api/sessions/" ++ sid)%string |}.

Local Abbreviation after_load :=
  (loadSession (Http.getSession API_BASE_URL fetch) sid st).

(** [getSession] hands a session back only for a status in 200-299. *)
Lemma getSession_returns_only_ok (r : Http.Response Session) (stored : Session) :
  fetch request = Http.Answered r ->
  Http.getSession API_BASE_URL fetch sid = Returned stored ->
  (200 <= Http.status r <= 299)%Z /\ Http.json r = Parsed stored.
Proof.
  unfold Http.getSession. intros ->.
  destruct (Http.ok r) eqn:Hok; simpl.
  - intros Hret. unfold Http.ok in Hok. apply andb_true_iff in Hok.
    destruct Hok as [Hlo Hhi]. apply Z.leb_le in Hlo. apply Z.leb_le in Hhi.
    split; [lia|]. destruct (Http.json r); inversion Hret. reflexivity.
  - destruct (Http.status r =? 404)%Z; discriminate.
Qed.

(** X13.  Loading a session the server answers with a non-2xx status keeps
    everything that was shown (session, tabs, active index, visualization and
    query result), lowers [isLoading] and records an error: "Session not
    found" for 404 and "Failed to fetch session: <status>" for every other
    status; and when the load does replace the session, the status was in
    200-299 and the session is the parsed body. *)
Theorem loadSession_over_http (r : Http.Response Session) :
  fetch request = Http.Answered r ->
  ((Http.status r < 200 \/ 299 < Http.status r)%Z ->
   session after_load = session st
   /\ visualizationTabs after_load = visualizationTabs st
   /\ activeVizTabIndex after_load = activeVizTabIndex st
   /\ currentVisualization after_load = currentVisualization st
   /\ currentQueryResult after_load = currentQueryResult st
   /\ isLoading after_load = false
   /\ Workspace.error after_load
      = Some (if (Http.status r =? 404)%Z then "Session not found"
              else "Failed to fetch session: " ++ show_Z (Http.status r))%string)
  /\ (forall stored,
        Http.getSession API_BASE_URL fetch sid = Returned stored ->
        (200 <= Http.status r <= 299)%Z
        /\ Http.json r = Parsed stored
        /\ session after_load = Some stored
        /\ visualizationTabs after_load = buildVizTabs (messages stored)
        /\ Workspace.error after_load = None).
Proof.
  intros Hfetch. split.
  - intros Hstatus. unfold loadSession, Http.getSession. rewrite Hfetch.
    assert (Hok : Http.ok r = false).
    { unfold Http.ok. apply andb_false_iff.
      destruct Hstatus; [left; apply Z.leb_gt | right; apply Z.leb_gt]; lia. }
    rewrite Hok. simpl.
    destruct (Http.status r =? 404)%Z; repeat split.
  - intros stored Hret.
    destruct (getSession_returns_only_ok r stored Hfetch Hret) as [Hrange Hjson].
    unfold loadSession. rewrite Hret. repeat split; try lia. exact Hjson.
Qed.

End LoadOverHttp.

(** X13 at a server that answers 404 for every session. *)
Lemma loadSession_over_http_witness :
  Workspace.error
    (Workspace.loadSession
       (Http.getSession "http://localhost:8787"
          (fun _ => Http.Answered
                      {| Http.status := 404;
                         Http.json := Api.Malformed "Unexpected token" |}))
       "s-9" (Examples.loaded [Examples.chartAnswer "m-1"]))
  = Some "Session not found"
  /\ Workspace.session
       (Workspace.loadSession
          (Http.getSession "http://localhost:8787"
             (fun _ => Http.Answered
                         {| Http.status := 404;
                            Http.json := Api.Malformed "Unexpected token" |}))
          "s-9" (Examples.loaded [Examples.chartAnswer "m-1"]))
     = Some (Examples.session_of [Examples.chartAnswer "m-1"]).
Proof.
  destruct (proj1 (loadSession_over_http "http://localhost:8787"
                     (fun _ => Http.Answered
                                 {| Http.status := 404;
                                    Http.json := Api.Malformed "Unexpected token" |})
                     "s-9" (Examples.loaded [Examples.chartAnswer "m-1"])
                     _ eq_refl))
    as (Hsession & _ & _ & _ & _ & _ & Herror).
  - right. reflexivity.
  - split; [exact Herror | exact Hsession].
Defined.

(** ** The sessions list *)
Section SessionsList.
Import Api.

Variables (API_BASE_URL : string) (fetch : Http.Request -> Http.Settled unit).
Variables (sid : string) (st : Sessions.SessionsState).

Local Abbreviation request :=
  {| Http.method := "DELETE";
     Http.url := (API_BASE_URL ++ "/api/sessions/" ++ sid)%string |}.

Local Abbreviation after_delete :=
  (Sessions.deleteSession (Http.deleteSession API_BASE_URL fetch) sid st).

(** X14.  Deleting a session from the list.  When the server answers with a
    status in 200-299, the summaries that carry the id are removed and all
    others stay in their order, the error is untouched and the promise
    resolves.  For every other status, 404 included, the list stays as it
    was (the entry is still listed), the error names the failure and the
    promise rejects with it. *)
Theorem deleteSession_from_list (r : Http.Response unit) :
  fetch request = Http.Answered r ->
  ((200 <= Http.status r <= 299)%Z ->
   Sessions.sessions (fst after_delete)
     = filter (fun x => negb (String.eqb (Sessions.id x) sid))
         (Sessions.sessions st)
   /\ Forall (fun x => Sessions.id x <> sid) (Sessions.sessions (fst after_delete))
   /\ (forall x, In x (Sessions.sessions st) -> Sessions.id x <> sid ->
                 In x (Sessions.sessions (fst after_delete)))
   /\ Sessions.error (fst after_delete) = Sessions.error st
   /\ snd after_delete = Returned tt)
  /\ ((Http.status r < 200 \/ 299 < Http.status r)%Z ->
      Sessions.sessions (fst after_delete) = Sessions.sessions st
      /\ exists text,
           Sessions.error (fst after_delete) = Some text
           /\ snd after_delete = Threw (JsError text)
           /\ text = (if (Http.status r =? 404)%Z then "Session not found"
                      else "Failed to delete session: "
                           ++ show_Z (Http.status r))%string).
Proof.
  intros Hfetch. unfold Sessions.deleteSession, Http.deleteSession.
  rewrite Hfetch. split.
  - intros Hstatus.
    assert (Hok : Http.ok r = true).
    { unfold Http.ok. apply andb_true_iff. split; apply Z.leb_le; lia. }
    rewrite Hok. simpl. repeat split.
    + apply Forall_forall. intros x Hx. apply filter_In in Hx.
      destruct Hx as [_ Hx]. apply negb_true_iff in Hx.
      apply String.eqb_neq. exact Hx.
    + intros x Hin Hne. apply filter_In. split; [exact Hin|].
      apply negb_true_iff, String.eqb_neq. exact Hne.
  - intros Hstatus.
    assert (Hok : Http.ok r = false).
    { unfold Http.ok. apply andb_false_iff.
      destruct Hstatus; [left; apply Z.leb_gt | right; apply Z.leb_gt]; lia. }
    rewrite Hok. simpl.
    destruct (Http.status r =? 404)%Z; simpl;
      (split; [reflexivity | eexists; repeat split]).
Qed.

End SessionsList.

(** ** The log panel and the header counter *)
Section Logs.
Import Api Workspace Described.

(** X15.  [truncate] returns a text of at most [maxLength] code units
    unchanged and otherwise its first [maxLength] code units followed by
    three full stops, so the result is never longer than [maxLength + 3] and
    always starts with the first [maxLength] code units of the text;
    truncating twice is truncating once. *)
Theorem truncate_bounds (text : LogPanel.JsString) (maxLength : nat) :
  List.length (LogPanel.truncate text maxLength) <= maxLength + 3
  /\ (List.length text <= maxLength ->
      LogPanel.truncate text maxLength = text)
  /\ (maxLength < List.length text ->
      LogPanel.truncate text maxLength
        = (firstn maxLength text ++ [46%N; 46%N; 46%N])%list
      /\ List.length (LogPanel.truncate text maxLength) = maxLength + 3)
  /\ (exists tail,
        LogPanel.truncate text maxLength
          = (firstn maxLength text ++ tail)%list
        /\ (tail = [] \/ tail = [46%N; 46%N; 46%N]))
  /\ LogPanel.truncate (LogPanel.truncate text maxLength) maxLength
     = LogPanel.truncate text maxLength.
Proof.
  unfold LogPanel.truncate, LogPanel.ellipsis.
  destruct (Nat.leb (List.length text) maxLength) eqn:Hfit.
  - apply Nat.leb_le in Hfit.
    split; [|split; [|split; [|split]]].
    + lia.
    + reflexivity.
    + intros Hlong. lia.
    + exists []. rewrite firstn_all2 by exact Hfit. rewrite app_nil_r.
      split; [reflexivity | left; reflexivity].
    + apply Nat.leb_le in Hfit. rewrite Hfit. reflexivity.
  - apply Nat.leb_gt in Hfit.
    assert (Hsub : List.length (firstn maxLength text) = maxLength)
      by (rewrite length_firstn; lia).
    assert (Hlen : List.length (firstn maxLength text ++ [46%N; 46%N; 46%N])
                   = maxLength + 3)
      by (rewrite length_app, Hsub; reflexivity).
    split; [|split; [|split; [|split]]].
    + rewrite Hlen. lia.
    + intros Hshort. lia.
    + intros _. split; [reflexivity | exact Hlen].
    + exists [46%N; 46%N; 46%N]. split; [reflexivity | right; reflexivity].
    + rewrite Hlen.
      replace (Nat.leb (maxLength + 3) maxLength) with false
        by (symmetry; apply Nat.leb_gt; lia).
      rewrite firstn_app, Hsub, Nat.sub_diag, firstn_firstn, Nat.min_id.
      simpl. rewrite app_nil_r. reflexivity.
Qed.

(** A text with a character outside ASCII: the five code units of the word
    that starts with the euro sign (U+20AC) fit in five. *)
Example truncate_euro :
  LogPanel.truncate [8364%N; 117%N; 114%N; 111%N; 33%N] 5
  = [8364%N; 117%N; 114%N; 111%N; 33%N]
  /\ LogPanel.truncate [8364%N; 117%N; 114%N; 111%N; 33%N] 4
     = [8364%N; 117%N; 114%N; 111%N; 46%N; 46%N; 46%N].
Proof. split; reflexivity. Qed.

Lemma getLastTokenUsage_loop_prefix (l rest : list Message) (k : nat) :
  k <= List.length l ->
  LogPanel.getLastTokenUsage_loop (l ++ rest) k
  = LogPanel.getLastTokenUsage_loop l k.
Proof.
  induction k as [|i IH]; intros Hk; simpl.
  - reflexivity.
  - rewrite nth_error_app1 by exact Hk.
    rewrite IH by (apply Nat.lt_le_incl; exact Hk). reflexivity.
Qed.

Lemma getLastTokenUsage_snoc (l : list Message) (m : Message) :
  LogPanel.getLastTokenUsage (l ++ [m]) =
  match role m, tokenUsage m with
  | assistant, Some usage => Some usage
  | _, _ => LogPanel.getLastTokenUsage l
  end.
Proof.
  unfold LogPanel.getLastTokenUsage. rewrite length_app. simpl.
  rewrite Nat.add_1_r. simpl.
  rewrite nth_error_app2 by apply le_n. rewrite Nat.sub_diag. simpl.
  rewrite getLastTokenUsage_loop_prefix by apply le_n. reflexivity.
Qed.

Lemma toolCallCount_loop_prefix (l rest : list Message) (k : nat) :
  k <= List.length l ->
  WorkspacePage.toolCallCount_loop (l ++ rest) k
  = WorkspacePage.toolCallCount_loop l k.
Proof.
  induction k as [|i IH]; intros Hk; simpl.
  - reflexivity.
  - rewrite nth_error_app1 by exact Hk.
    rewrite IH by (apply Nat.lt_le_incl; exact Hk). reflexivity.
Qed.

Lemma toolCallCount_snoc (s : Session) (l : list Message) (m : Message) :
  WorkspacePage.toolCallCount (Some (with_messages s (l ++ [m]))) =
  match role m, toolCalls m with
  | assistant, Some tcs => List.length tcs
  | _, _ => WorkspacePage.toolCallCount (Some (with_messages s l))
  end.
Proof.
  unfold WorkspacePage.toolCallCount. simpl. rewrite length_app. simpl.
  rewrite Nat.add_1_r. simpl.
  rewrite nth_error_app2 by apply le_n. rewrite Nat.sub_diag. simpl.
  rewrite toolCallCount_loop_prefix by apply le_n. reflexivity.
Qed.

Lemma toolCallCount_hit (s : Session) (l : list Message) (m : Message)
    (tcs : list ToolCall) :
  role m = assistant -> toolCalls m = Some tcs ->
  WorkspacePage.toolCallCount (Some (with_messages s (l ++ [m])))
  = List.length tcs.
Proof. intros Hrole Htcs. rewrite toolCallCount_snoc, Hrole, Htcs. reflexivity. Qed.

Lemma toolCallCount_skip (s : Session) (l : list Message) (m : Message) :
  role m <> assistant \/ toolCalls m = None ->
  WorkspacePage.toolCallCount (Some (with_messages s (l ++ [m])))
  = WorkspacePage.toolCallCount (Some (with_messages s l)).
Proof.
  intros Hm. rewrite toolCallCount_snoc.
  destruct (role m); try reflexivity.
  destruct Hm as [Hm | ->]; [contradiction | reflexivity].
Qed.

Lemma messageGroups_loop_acc (rest : list Message) :
  forall acc : list LogPanel.MessageGroup,
    LogPanel.messageGroups_loop rest acc
    = acc ++ LogPanel.messageGroups_loop rest [].
Proof.
  induction rest as [|msg later IH]; intros acc; simpl.
  - rewrite app_nil_r. reflexivity.
  - rewrite IH. rewrite (IH (match role msg, later with
                             | user, nextMsg :: _ => _
                             | _, _ => []
                             end)).
    rewrite app_assoc. f_equal.
    destruct (role msg); try (rewrite app_nil_r; reflexivity).
    destruct later as [|nextMsg later']; [rewrite app_nil_r; reflexivity|].
    destruct (role nextMsg); try (rewrite app_nil_r; reflexivity).
    destruct (toolCalls nextMsg) as [tcs|]; [|rewrite app_nil_r; reflexivity].
    destruct (nonEmpty tcs); [reflexivity | rewrite app_nil_r; reflexivity].
Qed.

(** The log entry a message closes, if any. *)
Local Abbreviation closes_entry x :=
  (match role x, toolCalls x with
   | assistant, Some tcs => nonEmpty tcs
   | _, _ => false
   end).

(** A message that closes no entry adds none. *)
Lemma messageGroups_snoc_plain (l : list Message) (x : Message) :
  closes_entry x = false ->
  LogPanel.messageGroups (l ++ [x]) = LogPanel.messageGroups l.
Proof.
  intros Hx. unfold LogPanel.messageGroups.
  induction l as [|m l IH]; simpl.
  - destruct (role x); reflexivity.
  - rewrite messageGroups_loop_acc, IH.
    rewrite (messageGroups_loop_acc l (match role m, l with
                                       | user, nextMsg :: _ => _
                                       | _, _ => []
                                       end)).
    f_equal. destruct (role m); try reflexivity.
    destruct l as [|y l']; [|reflexivity]. simpl.
    destruct (role x); try reflexivity.
    destruct (toolCalls x) as [tcs|]; [|reflexivity].
    rewrite Hx. reflexivity.
Qed.

(** An assistant message with tool calls right after a user message adds the
    entry that pairs the two. *)
Lemma messageGroups_snoc_entry (l : list Message) (u x : Message)
    (tcs : list ToolCall) :
  role u = user -> role x = assistant ->
  toolCalls x = Some tcs -> nonEmpty tcs = true ->
  LogPanel.messageGroups ((l ++ [u]) ++ [x])
  = LogPanel.messageGroups (l ++ [u])
    ++ [ {| LogPanel.userMessage := u; LogPanel.assistantMessage := x |} ].
Proof.
  intros Hu Hx Htcs Hne. unfold LogPanel.messageGroups.
  induction l as [|m l IH]; simpl.
  - rewrite Hu, Hx, Htcs, Hne. reflexivity.
  - rewrite messageGroups_loop_acc, IH.
    rewrite (messageGroups_loop_acc (l ++ [u]) (match role m, l ++ [u] with
                                                | user, nextMsg :: _ => _
                                                | _, _ => []
                                                end)).
    rewrite app_assoc. f_equal. f_equal.
    destruct (role m); try reflexivity.
    destruct l as [|y l']; reflexivity.
Qed.

Variables (fetch : Fetch) (selectedModel : string) (clk : SendClock).
Variables (question : string) (st0 : WorkspaceState) (s : Session).

Hypothesis Hsession : session st0 = Some s.

Local Abbreviation request_outcome :=
  (Api.sendMessage fetch (s_id s) question (modelArgument selectedModel)).

Local Abbreviation after_send :=
  (Workspace.sendMessage fetch selectedModel clk question st0).

Local Abbreviation kept :=
  (filter (fun m => negb (String.eqb (id m) (temp_id (tempNow clk))))
          (messages s)).

(** X16.  What the log panel shows after a turn.  A successful turn whose
    response lists tool calls adds exactly one entry, pairing the confirmed
    user message with the assistant message, after the entries of the
    messages that were kept; a successful turn without tool calls and a failed
    turn add none.  The context meter reads the token usage of the response
    when it has one, and what it read before otherwise. *)
Theorem log_panel_after_turn :
  match request_outcome with
  | Returned resp =>
      LogPanel.messageGroups (shownMessages after_send)
      = LogPanel.messageGroups kept
        ++ (if nonEmpty (resp_toolCalls resp)
            then [ {| LogPanel.userMessage := userMessage clk question resp;
                      LogPanel.assistantMessage := assistantMessage clk resp |} ]
            else [])
      /\ LogPanel.getLastTokenUsage (shownMessages after_send)
         = match resp_tokenUsage resp with
           | Some usage => Some usage
           | None => LogPanel.getLastTokenUsage kept
           end
  | Threw _ =>
      LogPanel.messageGroups (shownMessages after_send)
      = LogPanel.messageGroups (messages s)
      /\ LogPanel.getLastTokenUsage (shownMessages after_send)
         = LogPanel.getLastTokenUsage (messages s)
  end.
Proof.
  destruct request_outcome as [resp | e] eqn:Hsent.
  - rewrite (sendMessage_on_response _ _ _ _ _ _ Hsession _ Hsent).
    rewrite sendMessage_resolved_messages.
    change (kept ++ [?u; ?a]) with (kept ++ [u] ++ [a]).
    rewrite app_assoc. split.
    + destruct (nonEmpty (resp_toolCalls resp)) eqn:Hne.
      * rewrite (messageGroups_snoc_entry kept _ _ (resp_toolCalls resp));
          try reflexivity.
        -- rewrite messageGroups_snoc_plain by reflexivity. reflexivity.
        -- unfold assistantMessage, nonEmptyOrUndefined. simpl.
           rewrite Hne. reflexivity.
        -- exact Hne.
      * rewrite messageGroups_snoc_plain.
        -- rewrite messageGroups_snoc_plain by reflexivity.
           rewrite app_nil_r. reflexivity.
        -- unfold assistantMessage, nonEmptyOrUndefined. simpl.
           rewrite Hne. reflexivity.
    + rewrite getLastTokenUsage_snoc. simpl.
      destruct (resp_tokenUsage resp); [reflexivity|].
      rewrite getLastTokenUsage_snoc. reflexivity.
  - rewrite (sendMessage_on_error _ _ _ _ _ _ Hsession _ Hsent).
    change (shownMessages _)
      with (messages s
            ++ [tempUserMessage clk question]
            ++ [ {| id := ("error-" ++ show_Z (errorNow clk))%string;
                    role := assistant;
                    content := match e with
                               | JsError message => message
                               | NonError => "Failed to send message"%string
                               end;
                    timestamp := errorTimestamp clk;
                    charts := None; graphs := None; toolCalls := None;
                    queryResults := None; systemEvent := None;
                    isError := Some true; tokenUsage := None |} ]).
    rewrite app_assoc. split.
    + rewrite messageGroups_snoc_plain by reflexivity.
      rewrite messageGroups_snoc_plain by reflexivity. reflexivity.
    + rewrite !getLastTokenUsage_snoc. reflexivity.
Qed.

(** X17.  The tool-call counter of the header after a turn: the number of
    tool calls of the response when it lists any; after a successful turn
    without tool calls, and after a failed turn, the number it showed for the
    messages that were there (the count of the latest earlier turn that used
    tools), not zero. *)
Theorem toolCallCount_after_turn :
  match request_outcome with
  | Returned resp =>
      WorkspacePage.toolCallCount (session after_send)
      = if nonEmpty (resp_toolCalls resp)
        then List.length (resp_toolCalls resp)
        else WorkspacePage.toolCallCount (Some (with_messages s kept))
  | Threw _ =>
      WorkspacePage.toolCallCount (session after_send)
      = WorkspacePage.toolCallCount (Some s)
  end.
Proof.
  destruct request_outcome as [resp | e] eqn:Hsent.
  - rewrite (sendMessage_on_response _ _ _ _ _ _ Hsession _ Hsent).
    assert (Hafter : session (sendMessage_resolved s clk question resp
                                (sendMessage_pending s clk question st0))
                     = Some (with_messages s
                               ((kept ++ [userMessage clk question resp])
                                ++ [assistantMessage clk resp])))
      by (rewrite <- app_assoc; reflexivity).
    rewrite Hafter.
    destruct (nonEmpty (resp_toolCalls resp)) eqn:Hne.
    + apply toolCallCount_hit; [reflexivity|].
      unfold assistantMessage, nonEmptyOrUndefined. simpl.
      rewrite Hne. reflexivity.
    + rewrite toolCallCount_skip.
      * apply toolCallCount_skip. left. discriminate.
      * right. unfold assistantMessage, nonEmptyOrUndefined. simpl.
        rewrite Hne. reflexivity.
  - rewrite (sendMessage_on_error _ _ _ _ _ _ Hsession _ Hsent).
    assert (Hafter : session (sendMessage_rejected s clk question e
                                (sendMessage_pending s clk question st0))
                     = Some (with_messages s
                               ((messages s ++ [tempUserMessage clk question])
                                ++ [ {| id := ("error-" ++ show_Z (errorNow clk))%string;
                                        role := assistant;
                                        content := match e with
                                                   | JsError message => message
                                                   | NonError =>
                                                       "Failed to send message"%string
                                                   end;
                                        timestamp := errorTimestamp clk;
                                        charts := None; graphs := None;
                                        toolCalls := None;
                                        queryResults := None;
                                        systemEvent := None;
                                        isError := Some true;
                                        tokenUsage := None |} ])))
      by (rewrite <- app_assoc; reflexivity).
    rewrite Hafter.
    rewrite toolCallCount_skip by (right; reflexivity).
    rewrite toolCallCount_skip by (left; discriminate).
    reflexivity.
Qed.

End Logs.

(** X14 at a list of three sessions: a 204 removes the one deleted, a 404
    keeps all three. *)
Lemma deleteSession_from_list_witness :
  Sessions.sessions
    (fst (Sessions.deleteSession
            (Http.deleteSession "http://localhost:8000" (Samples.deleting 204))
            "s-2" (Samples.listed ["s-1"; "s-2"; "s-3"])))
  = [Samples.summary "s-1"; Samples.summary "s-3"]
  /\ Sessions.sessions
       (fst (Sessions.deleteSession
               (Http.deleteSession "http://localhost:8000" (Samples.deleting 404))
               "s-2" (Samples.listed ["s-1"; "s-2"; "s-3"])))
     = [Samples.summary "s-1"; Samples.summary "s-2"; Samples.summary "s-3"].
Proof.
  split.
  - destruct (deleteSession_from_list "http://localhost:8000"
                (Samples.deleting 204) "s-2"
                (Samples.listed ["s-1"; "s-2"; "s-3"]) _ eq_refl)
      as [Hok _].
    destruct Hok as (Hsessions & _).
    + simpl. lia.
    + exact Hsessions.
  - destruct (deleteSession_from_list "http://localhost:8000"
                (Samples.deleting 404) "s-2"
                (Samples.listed ["s-1"; "s-2"; "s-3"]) _ eq_refl)
      as [_ Hbad].
    destruct Hbad as (Hsessions & _).
    + right. simpl. lia.
    + exact Hsessions.
Defined.

(** X16 at a turn whose response lists two tool calls: one log entry. *)
Lemma log_panel_after_turn_witness :
  List.length
    (LogPanel.messageGroups
       (Workspace.shownMessages
          (Workspace.sendMessage
             (Examples.answering
                (Examples.reply "m-2" []
                   [Examples.schemaCall; Examples.sqlCall] None))
             "claude" (Examples.clock 5) "How many orders?"
             (Examples.state_of [Examples.greeting])))) = 1.
Proof.
  destruct (log_panel_after_turn
              (Examples.answering
                 (Examples.reply "m-2" []
                    [Examples.schemaCall; Examples.sqlCall] None))
              "claude" (Examples.clock 5) "How many orders?"
              (Examples.state_of [Examples.greeting])
              (Examples.session_of [Examples.greeting]) eq_refl)
    as [Hgroups _].
  rewrite Hgroups. reflexivity.
Defined.

(** X17 at a turn with two tool calls, and at a failed turn after a message
    with one. *)
Lemma toolCallCount_after_turn_witness :
  WorkspacePage.toolCallCount
    (Workspace.session
       (Workspace.sendMessage
          (Examples.answering
             (Examples.reply "m-2" []
                [Examples.schemaCall; Examples.sqlCall] None))
          "claude" (Examples.clock 5) "How many orders?"
          (Examples.state_of [Examples.greeting]))) = 2
  /\ WorkspacePage.toolCallCount
       (Workspace.session
          (Workspace.sendMessage Examples.offline
             "claude" (Examples.clock 5) "How many orders?"
             (Examples.state_of [Samples.richAnswer "m-1"]))) = 1.
Proof.
  split.
  - exact (toolCallCount_after_turn
             (Examples.answering
                (Examples.reply "m-2" []
                   [Examples.schemaCall; Examples.sqlCall] None))
             "claude" (Examples.clock 5) "How many orders?"
             (Examples.state_of [Examples.greeting])
             (Examples.session_of [Examples.greeting]) eq_refl).
  - exact (toolCallCount_after_turn Examples.offline
             "claude" (Examples.clock 5) "How many orders?"
             (Examples.state_of [Samples.richAnswer "m-1"])
             (Examples.session_of [Samples.richAnswer "m-1"]) eq_refl).
Defined.

(** ** The chat panel: grouping while the conversation grows *)
Section GroupingGrows.
Import Api ChatPanel Described.

(** The inner loop stops at the first message that is not a system message,
    whatever follows it. *)
Lemma collectSystem_before (l : list Message) (m : Message)
    (rest : list Message) :
  isSystem m = false ->
  forall systemMsgs : list Message,
    collectSystem (l ++ m :: rest) systemMsgs
    = (fst (collectSystem l systemMsgs),
       snd (collectSystem l systemMsgs) ++ m :: rest).
Proof.
  intros Hm. induction l as [|x l IH]; intros systemMsgs; simpl.
  - rewrite Hm. reflexivity.
  - destruct (isSystem x); [apply IH | reflexivity].
Qed.

(** The inner loop reads a whole run of system messages. *)
Lemma collectSystem_run (run tail : list Message) :
  Forall (fun m => role m = system) run ->
  match tail with [] => True | m :: _ => isSystem m = false end ->
  forall systemMsgs : list Message,
    collectSystem (run ++ tail) systemMsgs = (systemMsgs ++ run, tail).
Proof.
  intros Hrun Htail. induction Hrun as [|x run Hx Hrun IH];
    intros systemMsgs; simpl.
  - rewrite app_nil_r. destruct tail as [|m tail]; simpl.
    + reflexivity.
    + rewrite Htail. reflexivity.
  - apply isSystem_role in Hx. rewrite Hx, IH, <- app_assoc. reflexivity.
Qed.

Lemma groupMessages_before (m : Message) (rest : list Message) :
  isSystem m = false ->
  forall ms : list Message,
    groupMessages (ms ++ m :: rest)
    = groupMessages ms ++ groupMessages (m :: rest).
Proof.
  intros Hm ms.
  remember (List.length ms) as n eqn:Hn. revert ms Hn.
  induction n as [n IH] using lt_wf_ind. intros ms ->.
  destruct ms as [|x ms].
  - reflexivity.
  - destruct (isSystem x) eqn:Hx.
    + change ((x :: ms) ++ m :: rest) with (x :: (ms ++ m :: rest)).
      rewrite (groupMessages_system _ _ Hx).
      change (x :: (ms ++ m :: rest)) with ((x :: ms) ++ m :: rest).
      rewrite (collectSystem_before (x :: ms) m rest Hm []).
      change (fst (?a, ?b)) with a. change (snd (?a, ?b)) with b.
      rewrite (IH _ (collectSystem_advances x ms Hx) _ eq_refl).
      rewrite (groupMessages_system x ms Hx). reflexivity.
    + change ((x :: ms) ++ m :: rest) with (x :: (ms ++ m :: rest)).
      rewrite !(groupMessages_message _ _ Hx).
      rewrite (IH _ (Nat.lt_succ_diag_r (List.length ms)) _ eq_refl).
      reflexivity.
Qed.

(** X18.  Messages that arrive after a message that is not a system message
    never regroup what the panel already shows: the groups of the messages
    before it stay as they are, and the groups of the rest follow them.  In
    particular a question and its answer appended to the conversation add one
    group each. *)
Theorem groupMessages_append (ms : list Message) (m : Message)
    (rest : list Message) :
  isSystem m = false ->
  groupMessages (ms ++ m :: rest)
  = groupMessages ms ++ groupMessages (m :: rest)
  /\ (forall a : Message,
        isSystem a = false ->
        groupMessages (ms ++ [m; a])
        = groupMessages ms ++ [MessageGroup m; MessageGroup a]).
Proof.
  intros Hm. split.
  - apply groupMessages_before. exact Hm.
  - intros a Ha. rewrite (groupMessages_before m [a] Hm ms).
    rewrite (groupMessages_message _ _ Hm), (groupMessages_message _ _ Ha).
    reflexivity.
Qed.

(** X19.  The grouping is the only one of its kind: a list of groups in which
    every message group holds a message that is not a system message, every
    system group is a non-empty run of system messages and no two neighbours
    are both system groups, is what [groupMessages] computes from its
    messages laid end to end. *)
Theorem groupMessages_unique (groups : list Group) :
  Forall wellFormedGroup groups ->
  runsMaximal groups ->
  groupMessages (flatten groups) = groups.
Proof.
  induction groups as [|g groups IH]; intros Hwf Hmax.
  - reflexivity.
  - inversion Hwf as [|g' groups' Hg Hrest]; subst.
    assert (Hmax' : runsMaximal groups).
    { destruct groups as [|g2 groups]; [exact I | apply Hmax]. }
    specialize (IH Hrest Hmax').
    destruct g as [m | run]; unfold flatten in *; simpl.
    + rewrite (groupMessages_message _ _ Hg), IH. reflexivity.
    + destruct Hg as [Hne Hrun].
      assert (Htail : match flat_map groupMembers groups with
                      | [] => True
                      | m :: _ => isSystem m = false
                      end).
      { destruct groups as [|g2 groups]; [exact I|].
        destruct Hmax as [Hpair _]. simpl in Hpair.
        destruct g2 as [m2 | run2]; [|discriminate Hpair].
        inversion Hrest as [|g2' groups' Hg2 _]; subst. exact Hg2. }
      destruct run as [|x run]; [contradiction Hne; reflexivity|].
      assert (Hx : isSystem x = true).
      { apply isSystem_role. inversion Hrun; assumption. }
      change ((x :: run) ++ flat_map groupMembers groups)
        with (x :: (run ++ flat_map groupMembers groups)).
      rewrite (groupMessages_system _ _ Hx).
      change (x :: (run ++ flat_map groupMembers groups))
        with ((x :: run) ++ flat_map groupMembers groups).
      rewrite (collectSystem_run _ _ Hrun Htail []).
      cbv beta iota delta [fst snd]. rewrite IH. reflexivity.
Qed.

End GroupingGrows.

(** X18 at a question and its answer appended after two background events. *)
Lemma groupMessages_append_witness :
  ChatPanel.groupMessages
    ([Examples.greeting; Examples.eventMessage "e-1";
      Examples.eventMessage "e-2"]
     ++ [Samples.userQuestion "m-2" "How many orders?";
         Examples.chartAnswer "m-3"])
  = [ChatPanel.MessageGroup Examples.greeting;
     ChatPanel.SystemGroup
       [Examples.eventMessage "e-1"; Examples.eventMessage "e-2"];
     ChatPanel.MessageGroup (Samples.userQuestion "m-2" "How many orders?");
     ChatPanel.MessageGroup (Examples.chartAnswer "m-3")].
Proof.
  destruct (groupMessages_append
              [Examples.greeting; Examples.eventMessage "e-1";
               Examples.eventMessage "e-2"]
              (Samples.userQuestion "m-2" "How many orders?") [] eq_refl)
    as [_ Hturn].
  rewrite (Hturn (Examples.chartAnswer "m-3") eq_refl).
  reflexivity.
Defined.

(** X19 at two runs of background events around one greeting. *)
Lemma groupMessages_unique_witness :
  ChatPanel.groupMessages
    [Examples.eventMessage "e-1"; Examples.eventMessage "e-2";
     Examples.greeting; Examples.eventMessage "e-3"]
  = [ChatPanel.SystemGroup
       [Examples.eventMessage "e-1"; Examples.eventMessage "e-2"];
     ChatPanel.MessageGroup Examples.greeting;
     ChatPanel.SystemGroup [Examples.eventMessage "e-3"]].
Proof.
  apply (groupMessages_unique
           [ChatPanel.SystemGroup
              [Examples.eventMessage "e-1"; Examples.eventMessage "e-2"];
            ChatPanel.MessageGroup Examples.greeting;
            ChatPanel.SystemGroup [Examples.eventMessage "e-3"]]).
  - repeat constructor; discriminate.
  - simpl. repeat split.
Defined.
